(** * Multi-objective symbolic regression: the evolutionary loop and the
      constant optimizers

    A shallow embedding of
      - [symbolic_regression/SymbolicRegressor.py] (population registry,
        selection, the generation loop and its interrupt handler),
      - [symbolic_regression/multiobjective/fitness/Regression.py]
        (the fitness metrics and their exception handlers),
      - [symbolic_regression/multiobjective/optimization.py]
        (SGD, ADAM, ADAM2FOLD),
    followed by the properties of the specification, each settled on the
    embedding, and by further properties of the same code. *)

From Stdlib Require Import List ZArith QArith Reals Lra Lia Bool String.
From Stdlib Require Import Permutation Sorted.
Import ListNotations.


(* ===================================================================== *)
(** * Part I: definitions *)
(* ===================================================================== *)

(** ** Python exceptions and results *)

Inductive exn : Type :=
| KeyError
| TypeError
| ValueError
| AttributeError
| IndexError
| ZeroDivisionError
| UnboundLocalError
| KeyboardInterrupt.

Inductive result (A : Type) : Type :=
| Ok (a : A)
| Raise (e : exn).
Arguments Ok {A} a.
Arguments Raise {A} e.

Definition bind {A B : Type} (r : result A) (k : A -> result B) : result B :=
  match r with
  | Ok a => k a
  | Raise e => Raise e
  end.

Declare Scope py_scope.
Delimit Scope py_scope with py.
Notation "x <- c ;; k" := (bind c (fun x => k))
  (at level 61, c at next level, right associativity) : py_scope.

(** Dictionaries with string keys: [d[k]] raises [KeyError] on a key that
    is absent. *)
Fixpoint lookup {V : Type} (k : string) (d : list (string * V)) : result V :=
  match d with
  | [] => Raise KeyError
  | (k', v) :: d' => if String.eqb k k' then Ok v else lookup k d'
  end.

Fixpoint map_result {A B : Type} (f : A -> result B) (l : list A)
  : result (list B) :=
  match l with
  | [] => Ok []
  | a :: l' =>
      match f a with
      | Ok b => match map_result f l' with
                | Ok bs => Ok (b :: bs)
                | Raise e => Raise e
                end
      | Raise e => Raise e
      end
  end.

(** ** Programs

    [Program.py] is not part of the embedded sources; a program is the
    record of the attributes that the controller reads and writes.  Every
    position of a population holds an object of its own (offspring come back
    from worker processes and refills are freshly generated), so a
    population is a list of records and a write to [p.rank],
    [p.crowding_distance] or [p._is_duplicated] is a write at a position.
    [is_valid] is read as an attribute of its own: whether or not a raised
    [_is_duplicated] also turns it off, as the comment at line 81 says, a
    program that is not flagged keeps the validity it had. *)

(** A crowding distance is a non-negative float or [+inf]. *)
Inductive distance : Type :=
| Finite (q : Q)
| Infinity.

(** One entry of [p._fitness_template]. *)
Record FitnessTemplate : Type := {
  func : Q;
  minimize : option bool;
  hv_reference : option Q
}.

Record Program : Type := {
  program : string;
  fitness : list (string * Q);
  _fitness_template : list (string * FitnessTemplate);
  rank : Z;
  crowding_distance : distance;
  complexity : Q;
  is_valid : bool;
  _is_duplicated : bool;
  converged : bool
}.

Definition set_is_duplicated (b : bool) (p : Program) : Program :=
  {| program := program p; fitness := fitness p;
     _fitness_template := _fitness_template p;
     rank := rank p; crowding_distance := crowding_distance p;
     complexity := complexity p; is_valid := is_valid p;
     _is_duplicated := b; converged := converged p |}.

Definition set_rank (r : Z) (p : Program) : Program :=
  {| program := program p; fitness := fitness p;
     _fitness_template := _fitness_template p;
     rank := r; crowding_distance := crowding_distance p;
     complexity := complexity p; is_valid := is_valid p;
     _is_duplicated := _is_duplicated p; converged := converged p |}.

Definition set_crowding_distance (d : distance) (p : Program) : Program :=
  {| program := program p; fitness := fitness p;
     _fitness_template := _fitness_template p;
     rank := rank p; crowding_distance := d;
     complexity := complexity p; is_valid := is_valid p;
     _is_duplicated := _is_duplicated p; converged := converged p |}.

(** ** Python lists: [sort] and slices *)

Section PySort.
Context {A K : Type}.
Variable key : A -> K.
(** [<] on keys, the only comparison [list.sort] performs. *)
Variable lt : K -> K -> bool.

(** [x] is put in front of the first element that is not smaller than it:
    an element never overtakes one with an equal key. *)
Fixpoint insert_sorted (x : A) (s : list A) : list A :=
  match s with
  | [] => [x]
  | y :: s' => if lt (key y) (key x) then y :: insert_sorted x s' else x :: s
  end.

(** [list.sort] is a stable sort, so its result is the one of any stable
    sort; here insertion from the right end. *)
Definition stable_sort (l : list A) : list A :=
  fold_right insert_sorted [] l.

(** [l.sort(key=key, reverse=reverse)].  With [reverse=True] CPython
    reverses the list, sorts it and reverses the outcome, which keeps
    elements with equal keys in their original order. *)
Definition list_sort (reverse : bool) (l : list A) : list A :=
  if reverse then rev (stable_sort (rev l)) else stable_sort l.

(** [a] may stand before [b] in an ascending list. *)
Definition key_le (a b : A) : Prop := lt (key b) (key a) = false.
End PySort.

(** [l[:n]]: a negative bound counts from the end. *)
Definition slice_to {A : Type} (n : Z) (l : list A) : list A :=
  if (0 <=? n)%Z then firstn (Z.to_nat n) l
  else firstn (Z.to_nat (Z.of_nat (List.length l) + n)) l.

(** [<] on crowding distances. *)
Definition distance_ltb (a b : distance) : bool :=
  match a, b with
  | Finite x, Finite y => negb (Qle_bool y x)
  | Finite _, Infinity => true
  | Infinity, _ => false
  end.

(** ** Population registry ([SymbolicRegressor.py], lines 68-105, 273-276) *)

Section Registry.
(** [Program.is_duplicate] compares the performance of two programs
    ("programs are considered duplicated if they have the same
    performance"); the comparison of two fitness vectors is a parameter. *)
Variable fitness_eq : list (string * Q) -> list (string * Q) -> bool.

Definition is_duplicate (p p_confront : Program) : bool :=
  fitness_eq (fitness p) (fitness p_confront).

(** The inner loop over [self.population[index + 1:]]. *)
Definition mark_duplicates_of (p : Program) (later : list Program)
  : list Program :=
  map (fun p_confront =>
         if is_duplicate p p_confront
         then set_is_duplicated true p_confront
         else p_confront) later.

(** The outer loop [for index, p in enumerate(self.population)]; [n] counts
    the positions still to visit. *)
Fixpoint mark_from (n : nat) (pop : list Program) : list Program :=
  match n, pop with
  | S n', p :: later =>
      p :: mark_from n'
             (if is_valid p && negb (_is_duplicated p)
              then mark_duplicates_of p later
              else later)
  | _, _ => pop
  end.

Definition mark_duplicates (pop : list Program) : list Program :=
  mark_from (List.length pop) pop.

Definition not_duplicated (p : Program) : bool :=
  Bool.eqb (_is_duplicated p) false.

(** [drop_duplicates]: the population after the call (the flags are
    written on the programs whatever [inplace] is) and the list returned. *)
Definition drop_duplicates (inplace : bool) (pop : list Program)
  : list Program * list Program :=
  let marked := mark_duplicates pop in
  let kept := filter not_duplicated marked in
  if inplace then (kept, kept) else (marked, kept).

(** [self.drop_duplicates(inplace=True)], as the loop calls it. *)
Definition drop_duplicates_inplace (pop : list Program) : list Program :=
  fst (drop_duplicates true pop).

(** [p] is compared with the programs after it. *)
Definition confronts (p : Program) : bool :=
  is_valid p && negb (_is_duplicated p).

(** [q], standing after [p], carries the flag if [p] was compared with it
    and has the same fitness. *)
Definition flagged_by (p q : Program) : Prop :=
  confronts p = true -> is_duplicate p q = true -> _is_duplicated q = true.

(** The marking pass read as one sweep: [active] holds the programs met so
    far that were compared with their successors; a program is flagged as
    soon as one of them has its fitness. *)
Definition flag_if_met (active : list Program) (q : Program) : Program :=
  if existsb (fun p => is_duplicate p q) active
  then set_is_duplicated true q
  else q.

Fixpoint single_pass (active pop : list Program) : list Program :=
  match pop with
  | [] => []
  | q :: rest =>
      let q' := flag_if_met active q in
      q' :: single_pass (if confronts q' then q' :: active else active) rest
  end.
End Registry.

(** The only write of the marking pass: [b] is [a], or [a] with its flag
    set. *)
Definition flag_raised (a b : Program) : Prop :=
  b = a \/ b = set_is_duplicated true a.

(** [drop_invalids] (lines 91-105). *)
Definition valid (p : Program) : bool := Bool.eqb (is_valid p) true.

Definition drop_invalids (inplace : bool) (pop : list Program)
  : list Program * list Program :=
  let kept := filter valid pop in
  if inplace then (kept, kept) else (pop, kept).

Definition drop_invalids_inplace (pop : list Program) : list Program :=
  fst (drop_invalids true pop).

(** Lines 273-276: the two sorts and the truncation. *)
Definition sort_by_crowding (pop : list Program) : list Program :=
  list_sort crowding_distance distance_ltb true pop.

Definition sort_by_rank (pop : list Program) : list Program :=
  list_sort rank Z.ltb false pop.

Definition select_and_truncate (population_size : Z) (pop : list Program)
  : list Program :=
  slice_to population_size (sort_by_rank (sort_by_crowding pop)).

(** [a] may stand before [b] after the crowding sort: its distance is not
    the smaller one. *)
Definition crowding_ge (a b : Program) : Prop :=
  distance_ltb (crowding_distance a) (crowding_distance b) = false.

(** Rank first, ascending; inside a rank, crowding distance descending. *)
Definition rank_then_crowding (a b : Program) : Prop :=
  (rank a < rank b)%Z \/ (rank a = rank b /\ crowding_ge a b).

Definition has_rank (k : Z) (p : Program) : bool := (rank p =? k)%Z.

(** ** The controller ([SymbolicRegressor.py], lines 22-66 and 107-382)

    The attributes of [SymbolicRegressor] that [fit] reads or writes;
    [const_range], [parsimony], [parsimony_decay] and [tournament_size] are
    only handed to the collaborators.  [population] is [None] before the
    first call; the loop tests it with [not self.population], which does not
    tell [None] from the empty list, so [None] is the empty list here. *)
Record SymbolicRegressor : Type := {
  best_program : option Program;
  best_programs_history : list Program;
  first_pareto_front_history : list (list Program);
  converged_generation : option Z;
  generation : option Z;
  population : list Program;
  population_size : Z;
  status : string;
  training_duration : option Q;
  fpf_hypervolume : option Q;
  fpf_hypervolume_history : list Q;
  checkpoint_file : option string;
  checkpoint_frequency : Z;
  elapsed_time : Q;
  average_complexity : option Q
}.

Definition set_best_program (v : option Program)
    (self : SymbolicRegressor) : SymbolicRegressor :=
  {| best_program := v;
     best_programs_history := best_programs_history self;
     first_pareto_front_history := first_pareto_front_history self;
     converged_generation := converged_generation self;
     generation := generation self; population := population self;
     population_size := population_size self; status := status self;
     training_duration := training_duration self;
     fpf_hypervolume := fpf_hypervolume self;
     fpf_hypervolume_history := fpf_hypervolume_history self;
     checkpoint_file := checkpoint_file self;
     checkpoint_frequency := checkpoint_frequency self;
     elapsed_time := elapsed_time self;
     average_complexity := average_complexity self |}.

Definition set_best_programs_history (v : list Program)
    (self : SymbolicRegressor) : SymbolicRegressor :=
  {| best_program := best_program self; best_programs_history := v;
     first_pareto_front_history := first_pareto_front_history self;
     converged_generation := converged_generation self;
     generation := generation self; population := population self;
     population_size := population_size self; status := status self;
     training_duration := training_duration self;
     fpf_hypervolume := fpf_hypervolume self;
     fpf_hypervolume_history := fpf_hypervolume_history self;
     checkpoint_file := checkpoint_file self;
     checkpoint_frequency := checkpoint_frequency self;
     elapsed_time := elapsed_time self;
     average_complexity := average_complexity self |}.

Definition set_first_pareto_front_history (v : list (list Program))
    (self : SymbolicRegressor) : SymbolicRegressor :=
  {| best_program := best_program self;
     best_programs_history := best_programs_history self;
     first_pareto_front_history := v;
     converged_generation := converged_generation self;
     generation := generation self; population := population self;
     population_size := population_size self; status := status self;
     training_duration := training_duration self;
     fpf_hypervolume := fpf_hypervolume self;
     fpf_hypervolume_history := fpf_hypervolume_history self;
     checkpoint_file := checkpoint_file self;
     checkpoint_frequency := checkpoint_frequency self;
     elapsed_time := elapsed_time self;
     average_complexity := average_complexity self |}.

Definition set_converged_generation (v : option Z)
    (self : SymbolicRegressor) : SymbolicRegressor :=
  {| best_program := best_program self;
     best_programs_history := best_programs_history self;
     first_pareto_front_history := first_pareto_front_history self;
     converged_generation := v; generation := generation self;
     population := population self;
     population_size := population_size self; status := status self;
     training_duration := training_duration self;
     fpf_hypervolume := fpf_hypervolume self;
     fpf_hypervolume_history := fpf_hypervolume_history self;
     checkpoint_file := checkpoint_file self;
     checkpoint_frequency := checkpoint_frequency self;
     elapsed_time := elapsed_time self;
     average_complexity := average_complexity self |}.

Definition set_generation (v : option Z)
    (self : SymbolicRegressor) : SymbolicRegressor :=
  {| best_program := best_program self;
     best_programs_history := best_programs_history self;
     first_pareto_front_history := first_pareto_front_history self;
     converged_generation := converged_generation self; generation := v;
     population := population self;
     population_size := population_size self; status := status self;
     training_duration := training_duration self;
     fpf_hypervolume := fpf_hypervolume self;
     fpf_hypervolume_history := fpf_hypervolume_history self;
     checkpoint_file := checkpoint_file self;
     checkpoint_frequency := checkpoint_frequency self;
     elapsed_time := elapsed_time self;
     average_complexity := average_complexity self |}.

Definition set_population (v : list Program)
    (self : SymbolicRegressor) : SymbolicRegressor :=
  {| best_program := best_program self;
     best_programs_history := best_programs_history self;
     first_pareto_front_history := first_pareto_front_history self;
     converged_generation := converged_generation self;
     generation := generation self; population := v;
     population_size := population_size self; status := status self;
     training_duration := training_duration self;
     fpf_hypervolume := fpf_hypervolume self;
     fpf_hypervolume_history := fpf_hypervolume_history self;
     checkpoint_file := checkpoint_file self;
     checkpoint_frequency := checkpoint_frequency self;
     elapsed_time := elapsed_time self;
     average_complexity := average_complexity self |}.

Definition set_status (v : string)
    (self : SymbolicRegressor) : SymbolicRegressor :=
  {| best_program := best_program self;
     best_programs_history := best_programs_history self;
     first_pareto_front_history := first_pareto_front_history self;
     converged_generation := converged_generation self;
     generation := generation self; population := population self;
     population_size := population_size self; status := v;
     training_duration := training_duration self;
     fpf_hypervolume := fpf_hypervolume self;
     fpf_hypervolume_history := fpf_hypervolume_history self;
     checkpoint_file := checkpoint_file self;
     checkpoint_frequency := checkpoint_frequency self;
     elapsed_time := elapsed_time self;
     average_complexity := average_complexity self |}.

Definition set_training_duration (v : option Q)
    (self : SymbolicRegressor) : SymbolicRegressor :=
  {| best_program := best_program self;
     best_programs_history := best_programs_history self;
     first_pareto_front_history := first_pareto_front_history self;
     converged_generation := converged_generation self;
     generation := generation self; population := population self;
     population_size := population_size self; status := status self;
     training_duration := v; fpf_hypervolume := fpf_hypervolume self;
     fpf_hypervolume_history := fpf_hypervolume_history self;
     checkpoint_file := checkpoint_file self;
     checkpoint_frequency := checkpoint_frequency self;
     elapsed_time := elapsed_time self;
     average_complexity := average_complexity self |}.

Definition set_fpf_hypervolume (v : option Q)
    (self : SymbolicRegressor) : SymbolicRegressor :=
  {| best_program := best_program self;
     best_programs_history := best_programs_history self;
     first_pareto_front_history := first_pareto_front_history self;
     converged_generation := converged_generation self;
     generation := generation self; population := population self;
     population_size := population_size self; status := status self;
     training_duration := training_duration self; fpf_hypervolume := v;
     fpf_hypervolume_history := fpf_hypervolume_history self;
     checkpoint_file := checkpoint_file self;
     checkpoint_frequency := checkpoint_frequency self;
     elapsed_time := elapsed_time self;
     average_complexity := average_complexity self |}.

Definition set_fpf_hypervolume_history (v : list Q)
    (self : SymbolicRegressor) : SymbolicRegressor :=
  {| best_program := best_program self;
     best_programs_history := best_programs_history self;
     first_pareto_front_history := first_pareto_front_history self;
     converged_generation := converged_generation self;
     generation := generation self; population := population self;
     population_size := population_size self; status := status self;
     training_duration := training_duration self;
     fpf_hypervolume := fpf_hypervolume self; fpf_hypervolume_history := v;
     checkpoint_file := checkpoint_file self;
     checkpoint_frequency := checkpoint_frequency self;
     elapsed_time := elapsed_time self;
     average_complexity := average_complexity self |}.

Definition set_elapsed_time (v : Q)
    (self : SymbolicRegressor) : SymbolicRegressor :=
  {| best_program := best_program self;
     best_programs_history := best_programs_history self;
     first_pareto_front_history := first_pareto_front_history self;
     converged_generation := converged_generation self;
     generation := generation self; population := population self;
     population_size := population_size self; status := status self;
     training_duration := training_duration self;
     fpf_hypervolume := fpf_hypervolume self;
     fpf_hypervolume_history := fpf_hypervolume_history self;
     checkpoint_file := checkpoint_file self;
     checkpoint_frequency := checkpoint_frequency self; elapsed_time := v;
     average_complexity := average_complexity self |}.

Definition set_average_complexity (v : option Q)
    (self : SymbolicRegressor) : SymbolicRegressor :=
  {| best_program := best_program self;
     best_programs_history := best_programs_history self;
     first_pareto_front_history := first_pareto_front_history self;
     converged_generation := converged_generation self;
     generation := generation self; population := population self;
     population_size := population_size self; status := status self;
     training_duration := training_duration self;
     fpf_hypervolume := fpf_hypervolume self;
     fpf_hypervolume_history := fpf_hypervolume_history self;
     checkpoint_file := checkpoint_file self;
     checkpoint_frequency := checkpoint_frequency self;
     elapsed_time := elapsed_time self; average_complexity := v |}.

(** The collaborators of the loop, which are not among the sources: the
    program factory, the offspring generator, the two ranking passes (they
    write [rank] and [crowding_distance] on the programs of the list they
    are given), pygmo's hypervolume (which may raise) and the clock. *)
Record Collaborators : Type := {
  generate_population : Z -> nat -> Program;
  get_offspring : Z -> list Program -> list Program;
  create_pareto_front : list Program -> list Program;
  assign_crowding_distance : list Program -> list Program;
  pg_hypervolume : list (list Q) -> list Q -> option Q;
  generation_seconds : Z -> Q;
  fit_seconds : Q
}.

(** Truth values of [None], of numbers and of booleans. *)
Definition truthy_float (x : option Q) : bool :=
  match x with
  | Some q => negb (Qeq_bool q 0)
  | None => false
  end.

Definition truthy_int (x : option Z) : bool :=
  match x with
  | Some z => negb (z =? 0)%Z
  | None => false
  end.

Definition first_pareto_front (self : SymbolicRegressor) : list Program :=
  filter (fun p => (rank p =? 1)%Z) (population self).

(** The property [hypervolume] (lines 348-366): reading it appends to
    [fpf_hypervolume_history].  The [except:] of line 362 has no exception
    class: it takes whatever the [try] raises, a [KeyboardInterrupt] that
    arrives there ([interrupted_here]) included. *)
Definition hypervolume (env : Collaborators) (interrupted_here : bool)
    (self : SymbolicRegressor) : result Q * SymbolicRegressor :=
  match first_pareto_front self with
  | [] => (Raise IndexError, self)
  | p0 :: _ =>
      let fitness_to_hypervolume :=
        map fst
          (filter (fun entry =>
                     truthy_float (hv_reference (snd entry)) &&
                     match minimize (snd entry) with
                     | Some b => b
                     | None => true
                     end)
                  (_fitness_template p0)) in
      let references :=
        map_result (fun name =>
                      match lookup name (_fitness_template p0) with
                      | Ok t => Ok (match hv_reference t with
                                    | Some q => q
                                    | None => 0%Q
                                    end)
                      | Raise e => Raise e
                      end) fitness_to_hypervolume in
      let points :=
        map_result (fun p =>
                      map_result (fun name =>
                                    match lookup name (_fitness_template p) with
                                    | Ok t => Ok (func t)
                                    | Raise e => Raise e
                                    end) fitness_to_hypervolume)
                   (first_pareto_front self) in
      match references, points with
      | Raise e, _ => (Raise e, self)
      | Ok _, Raise e => (Raise e, self)
      | Ok refs, Ok pts =>
          match
            if interrupted_here then None else pg_hypervolume env pts refs
          with
          | Some hv =>
              (Ok hv,
               set_fpf_hypervolume_history (fpf_hypervolume_history self ++ [hv])
                 (set_fpf_hypervolume (Some hv) self))
          | None =>
              (Ok 0%Q,
               set_fpf_hypervolume_history (fpf_hypervolume_history self ++ [0%Q])
                 (set_fpf_hypervolume (Some 0%Q) self))
          end
      end
  end.

(** [np.mean] of a list of floats. *)
Definition mean (l : list Q) : Q :=
  (fold_right Qplus 0 l / inject_Z (Z.of_nat (List.length l)))%Q.

(** The points of a generation at which [KeyboardInterrupt] may arrive:
    before each statement that follows the increment of the counter, and
    inside the [try] of the property [hypervolume]. *)
Inductive Phase : Type :=
| DuringOffspring
| BeforeDropDuplicates
| BeforeDropInvalids
| BeforeRefill
| BeforeParetoFront
| BeforeCrowdingDistance
| BeforeCrowdingSort
| BeforeRankSort
| BeforeTruncate
| BeforeBestProgram
| BeforeReport
| DuringHypervolume
| BeforeConvergence
| BeforeCheckpoint
| BeforeBudget
| BeforeElapsed.

Scheme Equality for Phase.

(** What a statement of the loop body does: go on, [return], or raise. *)
Inductive flow : Type :=
| Next (self : SymbolicRegressor)
| Return (self : SymbolicRegressor)
| Throw (e : exn) (self : SymbolicRegressor).

Definition statement : Type := SymbolicRegressor -> flow.

(** What the histories and the counter hold. *)
Definition ledger (self : SymbolicRegressor) : option Z * nat * nat * nat :=
  (generation self,
   List.length (best_programs_history self),
   List.length (first_pareto_front_history self),
   List.length (fpf_hypervolume_history self)).

(** The state in which a flow ends. *)
Definition final_state (out : flow) : SymbolicRegressor :=
  match out with
  | Next self | Return self | Throw _ self => self
  end.

(** Properties of statements, lifted to a sequence of them. *)
Definition never_interrupts (st : statement) : Prop :=
  forall self self', st self <> Throw KeyboardInterrupt self'.

Definition never_returns (st : statement) : Prop :=
  forall self self', st self <> Return self'.

Definition keeps {A : Type} (f : SymbolicRegressor -> A) (st : statement)
  : Prop :=
  forall self, f (final_state (st self)) = f self.

Section Controller.
Variable fitness_eq : list (string * Q) -> list (string * Q) -> bool.
Variable env : Collaborators.
Variable generations : Z.
Variable stop_at_convergence : bool.
Variable verbose : Z.
(** [Some (g, ph)]: the interrupt arrives in generation [g] at [ph]. *)
Variable interrupt : option (Z * Phase).

(** The interrupt arrives now. *)
Definition interrupted (ph : Phase) (self : SymbolicRegressor) : bool :=
  match interrupt, generation self with
  | Some (g, ph'), Some g' => (g =? g')%Z && Phase_beq ph ph'
  | _, _ => false
  end.

Definition current_generation (self : SymbolicRegressor) : Z :=
  match generation self with
  | Some g => g
  | None => 0
  end.

(** Lines 156-172. *)
Definition initialize_population (self : SymbolicRegressor)
  : SymbolicRegressor :=
  match population self with
  | [] =>
      set_population
        (map (generate_population env (current_generation self))
             (seq 0 (Z.to_nat (population_size self))))
        (set_status "Generating population" self)
  | _ :: _ => self
  end.

(** Lines 175-202: the guard, the increment, the status. *)
Definition begin_generation : statement := fun self =>
  match generation self with
  | None => Throw TypeError self
  | Some g =>
      if (generations >? 0)%Z && (g >=? generations)%Z
      then Return (set_status "Terminated: generations completed" self)
      else Next (set_status "Generating offspring"
                   (set_generation (Some (g + 1)%Z) self))
  end.

(** Lines 204-220. *)
Definition merge_offspring : statement := fun self =>
  let offsprings :=
    get_offspring env (current_generation self) (population self) in
  Next (set_population (population self ++ offsprings) self).

(** Line 226. *)
Definition remove_duplicates : statement := fun self =>
  Next (set_population
          (drop_duplicates_inplace fitness_eq (population self)) self).

(** Line 233. *)
Definition remove_invalids : statement := fun self =>
  Next (set_population (drop_invalids_inplace (population self)) self).

(** Lines 242-263. *)
Definition refill_population : statement := fun self =>
  let size := Z.of_nat (List.length (population self)) in
  if (size <? population_size self * 2)%Z
  then
    let missing_elements := (2 * population_size self - size)%Z in
    let refill :=
      map (generate_population env (current_generation self))
          (seq 0 (Z.to_nat missing_elements)) in
    Next (set_population (population self ++ refill)
            (set_status "Refilling population" self))
  else Next self.

(** Lines 266-267. *)
Definition pareto_front : statement := fun self =>
  Next (set_population (create_pareto_front env (population self))
          (set_status "Creating pareto front" self)).

(** Lines 270-271. *)
Definition crowding : statement := fun self =>
  Next (set_population (assign_crowding_distance env (population self))
          (set_status "Creating crowding distance" self)).

(** Lines 273-276, one statement each. *)
Definition crowding_sort : statement := fun self =>
  Next (set_population (sort_by_crowding (population self)) self).

Definition rank_sort : statement := fun self =>
  Next (set_population (sort_by_rank (population self)) self).

Definition truncate : statement := fun self =>
  Next (set_population
          (slice_to (population_size self) (population self)) self).

(** Lines 278-283. *)
Definition record_best : statement := fun self =>
  match population self with
  | [] => Throw IndexError self
  | best :: _ =>
      let self1 := set_best_program (Some best) self in
      let self2 :=
        set_best_programs_history (best_programs_history self1 ++ [best])
          self1 in
      let self3 :=
        set_first_pareto_front_history
          (first_pareto_front_history self2 ++ [first_pareto_front self2])
          self2 in
      Next (set_average_complexity
              (Some (mean (map complexity (population self3)))) self3)
  end.

(** Lines 285-317: the report.  It leaves the state alone but for the
    read of [self.hypervolume] inside the line printed when [verbose > 1]. *)
Definition report : statement := fun self =>
  if (verbose >? 1)%Z
  then match hypervolume env (interrupted DuringHypervolume self) self with
       | (Ok _, self') => Next self'
       | (Raise e, self') => Throw e self'
       end
  else Next self.

(** Lines 321-330. *)
Definition convergence : statement := fun self =>
  match best_program self with
  | None => Throw AttributeError self
  | Some best =>
      if converged best
      then
        let self1 :=
          if truthy_int (converged_generation self) then self
          else set_converged_generation (generation self) self in
        if stop_at_convergence
        then Return (set_status "Terminated: converged" self1)
        else Next self1
      else Next self
  end.

(** Lines 332-337: the checkpoint is written to a file; a
    [FileNotFoundError] is logged; the regressor is not changed. *)
Definition checkpoint : statement := fun self => Next self.

(** Lines 340-344. *)
Definition budget : statement := fun self =>
  if (generations >? 0)%Z &&
     match generation self with
     | Some g => (g =? generations)%Z
     | None => false
     end
  then Return (set_status "Terminated: generations completed" self)
  else Next self.

(** Line 346. *)
Definition add_elapsed : statement := fun self =>
  Next (set_elapsed_time
          (elapsed_time self + generation_seconds env (current_generation self))%Q
          self).

Definition generation_body : list (Phase * statement) :=
  [ (DuringOffspring, merge_offspring);
    (BeforeDropDuplicates, remove_duplicates);
    (BeforeDropInvalids, remove_invalids);
    (BeforeRefill, refill_population);
    (BeforeParetoFront, pareto_front);
    (BeforeCrowdingDistance, crowding);
    (BeforeCrowdingSort, crowding_sort);
    (BeforeRankSort, rank_sort);
    (BeforeTruncate, truncate);
    (BeforeBestProgram, record_best);
    (BeforeReport, report);
    (BeforeConvergence, convergence);
    (BeforeCheckpoint, checkpoint);
    (BeforeBudget, budget);
    (BeforeElapsed, add_elapsed) ].

(** The body in three parts: lines 204-276, from the offspring to the
    truncation; the two statements that record and report; lines 321-346. *)
Definition selection_body : list (Phase * statement) :=
  [ (DuringOffspring, merge_offspring);
    (BeforeDropDuplicates, remove_duplicates);
    (BeforeDropInvalids, remove_invalids);
    (BeforeRefill, refill_population);
    (BeforeParetoFront, pareto_front);
    (BeforeCrowdingDistance, crowding);
    (BeforeCrowdingSort, crowding_sort);
    (BeforeRankSort, rank_sort);
    (BeforeTruncate, truncate) ].

Definition closing_body : list (Phase * statement) :=
  [ (BeforeConvergence, convergence);
    (BeforeCheckpoint, checkpoint);
    (BeforeBudget, budget);
    (BeforeElapsed, add_elapsed) ].

(** The number of entries one report appends to the hypervolume history. *)
Definition hypervolume_entries : nat := if (verbose >? 1)%Z then 1 else 0.

Fixpoint run_statements (body : list (Phase * statement))
    (self : SymbolicRegressor) : flow :=
  match body with
  | [] => Next self
  | (ph, st) :: body' =>
      if interrupted ph self then Throw KeyboardInterrupt self
      else match st self with
           | Next self' => run_statements body' self'
           | stop => stop
           end
  end.

(** One turn of [while True]. *)
Definition iteration : statement := fun self =>
  match begin_generation self with
  | Next self' => run_statements generation_body self'
  | stop => stop
  end.

(** [while True] (lines 174-346); [None] when [fuel] turns do not reach a
    [return] or an exception. *)
Fixpoint generations_loop (fuel : nat) (self : SymbolicRegressor)
  : option (result unit * SymbolicRegressor) :=
  match fuel with
  | O => None
  | S fuel' =>
      match iteration self with
      | Next self' => generations_loop fuel' self'
      | Return self' => Some (Ok tt, self')
      | Throw e self' => Some (Raise e, self')
      end
  end.

Definition _fit (fuel : nat) (self : SymbolicRegressor)
  : option (result unit * SymbolicRegressor) :=
  generations_loop fuel (initialize_population self).

(** [fit] (lines 107-143). *)
Definition fit (fuel : nat) (self : SymbolicRegressor)
  : option (result unit * SymbolicRegressor) :=
  let self0 :=
    if truthy_int (generation self) then self
    else set_generation (Some 0%Z) self in
  match _fit fuel self0 with
  | None => None
  | Some (Raise KeyboardInterrupt, self') =>
      let self1 :=
        set_generation (Some (current_generation self' - 1)%Z) self' in
      let self2 := set_training_duration (Some (fit_seconds env)) self1 in
      Some (Ok tt, set_status "Interrupted by KeyboardInterrupt" self2)
  | Some (Raise e, self') => Some (Raise e, self')
  | Some (Ok tt, self') =>
      Some (Ok tt, set_training_duration (Some (fit_seconds env)) self')
  end.
End Controller.

(** [SymbolicRegressor.__init__] (lines 23-66). *)
Definition new_regressor (checkpoint_file_ : option string)
    (checkpoint_frequency_ population_size_ : Z) : SymbolicRegressor :=
  {| best_program := None; best_programs_history := [];
     first_pareto_front_history := []; converged_generation := None;
     generation := None; population := [];
     population_size := population_size_; status := "Uninitialized";
     training_duration := None; fpf_hypervolume := None;
     fpf_hypervolume_history := []; checkpoint_file := checkpoint_file_;
     checkpoint_frequency := checkpoint_frequency_; elapsed_time := 0%Q;
     average_complexity := None |}.

(** ** The tables [summary] and [best_history] (lines 384-418) *)

(** A cell of a row: an index or a rank, the rendered program, a float. *)
Inductive cell : Type :=
| Int (z : Z)
| Str (s : string)
| Float (q : Q).

(** [row[k] = v]: the value of a key that is there is replaced where it
    stands, a new key goes to the end. *)
Fixpoint dict_set {V : Type} (k : string) (v : V) (d : list (string * V))
  : list (string * V) :=
  match d with
  | [] => [(k, v)]
  | (k', v') :: d' =>
      if String.eqb k k' then (k', v) :: d' else (k', v') :: dict_set k v d'
  end.

(** One turn of the loop over [enumerate(...)]: the four fixed columns,
    then [row[f_k] = f_v] for every fitness. *)
Definition program_row (counter : string) (index : nat) (p : Program)
  : list (string * cell) :=
  fold_left (fun row f => dict_set (fst f) (Float (snd f)) row) (fitness p)
    (dict_set "rank" (Int (rank p))
       (dict_set "complexity" (Float (complexity p))
          (dict_set "program" (Str (program p))
             (dict_set counter (Int (Z.of_nat index + 1)) [])))).

Definition rows_of (counter : string) (programs : list Program)
  : list (list (string * cell)) :=
  map (fun ip => program_row counter (fst ip) (snd ip))
      (combine (seq 0 (List.length programs)) programs).

(** The rows that the two properties hand to [pd.DataFrame]. *)
Definition summary (self : SymbolicRegressor) : list (list (string * cell)) :=
  rows_of "index" (population self).

Definition best_history (self : SymbolicRegressor)
  : list (list (string * cell)) :=
  rows_of "generation" (best_programs_history self).

(** ** Floating-point arithmetic

    The optimizers and the metrics compute with numpy floats.  Their control
    flow does not depend on what the arithmetic is, so it is a parameter:
    an interface of the operations the sources use.  The one claim about
    values is settled on the instance of the real numbers. *)
Class Numeric (F : Type) : Type := {
  of_Q : Q -> F;
  add : F -> F -> F;
  sub : F -> F -> F;
  mul : F -> F -> F;
  div : F -> F -> F;
  sqrt : F -> F;
  exp : F -> F;
  log : F -> F;
  sign : F -> F;
  abs : F -> F;
  power : F -> nat -> F;
  isnan : F -> bool;
  gtb : F -> F -> bool;
  geb : F -> F -> bool
}.

Section Arrays.
Context {F : Type} `{Numeric F}.

Definition zero : F := of_Q 0.
Definition one : F := of_Q 1.
Definition two : F := of_Q 2.
Definition of_nat (n : nat) : F := of_Q (inject_Z (Z.of_nat n)).
Definition tiny : F := of_Q (1 # 100000000000000000000).
Definition hundred : F := of_Q 100.

Fixpoint zip_with {A B C : Type} (f : A -> B -> C) (l : list A) (l' : list B)
  : list C :=
  match l, l' with
  | a :: t, b :: t' => f a b :: zip_with f t t'
  | _, _ => []
  end.

(** Arrays of one column, element by element, and a scalar against an
    array. *)
Definition vadd : list F -> list F -> list F := zip_with add.
Definition vsub : list F -> list F -> list F := zip_with sub.
Definition vmul : list F -> list F -> list F := zip_with mul.
Definition vdiv : list F -> list F -> list F := zip_with div.
Definition scale (c : F) (v : list F) : list F := map (mul c) v.
Definition square (v : list F) : list F := map (fun x => power x 2) v.

Definition sum (v : list F) : F := fold_right add zero v.

(** [np.mean], [np.nanmean], [np.linalg.norm]. *)
Definition np_mean (v : list F) : F := div (sum v) (of_nat (List.length v)).

Definition np_nanmean (v : list F) : F :=
  np_mean (filter (fun x => negb (isnan x)) v).

Definition np_linalg_norm (v : list F) : F := sqrt (sum (square v)).
End Arrays.

(** ** Data frames and optional values *)

(** A data frame: the number of rows and the columns by name. *)
Record DataFrame (F : Type) : Type := {
  shape0 : nat;
  columns : list (string * list F)
}.
Arguments shape0 {F} d.
Arguments columns {F} d.

(** [d.get(key, default)] on a key that may be absent, and the truth
    value of a name that may be [None] or empty. *)
Definition get_default {A : Type} (field : option A) (default : A) : A :=
  match field with
  | Some v => v
  | None => default
  end.

Definition truthy_string (s : option string) : bool :=
  match s with
  | Some EmptyString => false
  | Some _ => true
  | None => false
  end.

(** ** The constant optimizers ([optimization.py]) *)

Module Optimization.

(** What the optimizers read of a [Program]: its validity, its features,
    the values of its constants, and the outcome of rendering the
    expression, differentiating it by every constant and handing both to
    [lambdify]: the program and its gradient as functions of a row of
    features and of the constants, or the exception [lambdify] raises. *)
Record Compiled (F : Type) : Type := {
  pyf_prog : list F -> list F -> F;
  pyf_grad : nat -> list F -> list F -> F
}.
Arguments pyf_prog {F} c.
Arguments pyf_grad {F} c.

Record Program (F : Type) : Type := {
  is_valid : bool;
  features : list string;
  get_constants : list F;
  lambdify : result (Compiled F)
}.
Arguments is_valid {F} p.
Arguments features {F} p.
Arguments get_constants {F} p.
Arguments lambdify {F} p.

(** [constants_optimization_conf]: a field is [None] when the dictionary
    has no such key. *)
Record Conf (F : Type) : Type := {
  learning_rate : option F;
  batch_size : option Z;
  epochs : option Z;
  gradient_clip : option bool;
  l1_param : option F;
  l2_param : option F;
  beta_1 : option F;
  beta_2 : option F;
  epsilon : option F
}.
Arguments learning_rate {F} c.
Arguments batch_size {F} c.
Arguments epochs {F} c.
Arguments gradient_clip {F} c.
Arguments l1_param {F} c.
Arguments l2_param {F} c.
Arguments beta_1 {F} c.
Arguments beta_2 {F} c.
Arguments epsilon {F} c.

(** What an optimizer does besides computing: it reads the data frame,
    builds gradients, compiles, and draws random numbers. *)
Inductive event : Type :=
| ReadColumn (name : string)
| ReadFeatures (names : list string)
| Differentiate (constant : nat)
| Lambdify
| RandomNormal
| RandomUniform.

(** [np.random]: the generator state and the two draws. *)
Class Random (F G : Type) : Type := {
  normal : G -> F -> nat -> list F * G;
  uniform : G -> nat -> list F * G
}.

Record World (G : Type) : Type := {
  rng : G;
  events : list event
}.
Arguments rng {G} w.
Arguments events {G} w.

(** Computations that may raise, in a world. *)
Definition M (G A : Type) : Type := World G -> result A * World G.

Definition ret {G A : Type} (a : A) : M G A := fun w => (Ok a, w).

Definition raise {G A : Type} (e : exn) : M G A := fun w => (Raise e, w).

Definition mbind {G A B : Type} (c : M G A) (k : A -> M G B) : M G B :=
  fun w =>
    match c w with
    | (Ok a, w') => k a w'
    | (Raise e, w') => (Raise e, w')
    end.

Definition tell {G : Type} (e : event) : M G unit :=
  fun w => (Ok tt, {| rng := rng w; events := events w ++ [e] |}).

Definition lift {G A : Type} (r : result A) : M G A := fun w => (r, w).

Declare Scope opt_scope.
Delimit Scope opt_scope with opt.
Notation "x <- c ;; k" := (mbind c (fun x => k))
  (at level 61, c at next level, right associativity) : opt_scope.
Notation "c ;;; k" := (mbind c (fun _ => k))
  (at level 61, right associativity) : opt_scope.

Section Optimizers.
Context {F G : Type} `{Numeric F} `{Random F G}.
Local Open Scope opt_scope.

(** [conf[key]]; [conf.get(key, default)] is [get_default]. *)
Definition item {A : Type} (field : option A) : M G A :=
  match field with
  | Some v => ret v
  | None => raise KeyError
  end.

(** [data[name].to_numpy()], reshaped to one column. *)
Definition column (data : DataFrame F) (name : string) : M G (list F) :=
  tell (ReadColumn name) ;;;
  lift (lookup name (columns data)).

(** [data[program.features].to_numpy()]: the rows of the feature columns. *)
Definition feature_rows (data : DataFrame F) (names : list string)
  : M G (list (list F)) :=
  tell (ReadFeatures names) ;;;
  cols <- lift (map_result (fun name => lookup name (columns data)) names) ;;
  ret (map (fun r => map (fun col => nth r col zero) cols)
           (seq 0 (shape0 data))).

(** [np.array_split(a, n, 0)]: [len(a) % n] parts of [len(a) // n + 1]
    rows, then parts of [len(a) // n] rows. *)
Fixpoint take_sections {A : Type} (sizes : list nat) (a : list A)
  : list (list A) :=
  match sizes with
  | [] => []
  | k :: sizes' => firstn k a :: take_sections sizes' (skipn k a)
  end.

Definition array_split {A : Type} (a : list A) (n : Z) : M G (list (list A)) :=
  if (n <=? 0)%Z then raise ValueError
  else
    let sections := Z.to_nat n in
    let each := (List.length a / sections)%nat in
    let extras := (List.length a mod sections)%nat in
    ret (take_sections (repeat (S each) extras ++
                        repeat each (sections - extras)) a).

(** [int(rows / batch_size)]. *)
Definition count_batches (rows : nat) (batch_size_ : Z) : M G Z :=
  if (batch_size_ =? 0)%Z then raise ZeroDivisionError
  else ret (Z.quot (Z.of_nat rows) batch_size_).

(** Lines 87-96: the derivatives, then the two calls of [lambdify]; a
    [KeyError] ends the optimization with empty results. *)
Definition compile (program : Program F) (n_constants : nat)
  : M G (option (Compiled F)) :=
  fold_right (fun i k => tell (Differentiate i) ;;; k) (ret tt)
             (seq 0 n_constants) ;;;
  tell Lambdify ;;;
  match lambdify program with
  | Ok c => ret (Some c)
  | Raise KeyError => ret None
  | Raise e => raise e
  end.

(** A local variable that may not have been assigned. *)
Definition read_local {A : Type} (v : option A) : M G A :=
  match v with
  | Some a => ret a
  | None => raise UnboundLocalError
  end.

(** [np.split(X_batch[i], n_features, 1)] divides the number of columns by
    the number of sections. *)
Definition split_features (n_features : nat) : M G unit :=
  match n_features with
  | O => raise ZeroDivisionError
  | S _ => ret tt
  end.

(** The predictions and the gradients on a batch (lines 111-117). *)
Definition predictions (c : Compiled F) (constants : list F)
    (X : list (list F)) : list F :=
  map (fun x => pyf_prog c x constants) X.

Definition gradients (c : Compiled F) (constants : list F)
    (X : list (list F)) : list (list F) :=
  map (fun i => map (fun x => pyf_grad c i x constants) X)
      (seq 0 (List.length constants)).

(** Lines 119-148: the loss and the gradient of a task, when the task is
    one of the three; no other task assigns the two variables. *)
Definition task_loss_gradient (task : string) (w y y_pred : list F)
    (num_grad : list (list F)) : option (F * list F) :=
  if String.eqb task "regression:wmse" then
    Some (np_nanmean (vmul w (square (vsub y_pred y))),
          map (fun g =>
                 np_nanmean (vmul (vmul (scale two w) (vsub y_pred y)) g))
              num_grad)
  else if String.eqb task "regression:wrrmse" then
    let y_av := add (np_mean (vmul y w)) tiny in
    let sq_term := sqrt (np_nanmean (vmul w (square (vsub y_pred y)))) in
    Some (div (mul sq_term hundred) y_av,
          map (fun g =>
                 mul (div hundred (mul y_av sq_term))
                     (np_nanmean (vmul (vmul w (vsub y_pred y)) g)))
              num_grad)
  else if String.eqb task "binary:logistic" then
    let sigma :=
      map (fun p => div one (add one (exp (sub zero p)))) y_pred in
    let cross_entropy :=
      vadd (vmul y (map (fun s => log (add s tiny)) sigma))
           (vmul (map (sub one) y)
                 (map (fun s => log (add (sub one s) tiny)) sigma)) in
    Some (np_nanmean (vmul (map (sub zero) w) cross_entropy),
          map (fun g => np_nanmean (vmul (vmul w (vsub sigma y)) g))
              num_grad)
  else None.

(** Lines 155-157: the gradient is brought to norm one when clipping is on
    and its norm exceeds one. *)
Definition clip_gradient (gradient_clip_ : bool) (av_grad : list F) : list F :=
  let norm_grad := np_linalg_norm av_grad in
  if gradient_clip_ && gtb norm_grad one
  then map (fun g => div g (add norm_grad tiny)) av_grad
  else av_grad.

(** The step with the two penalties added to it:
    [step + 2 * learning_rate * l2_param * constants
          + learning_rate * l1_param * np.sign(constants)]. *)
Definition regularized (lr l1 l2 : F) (step constants : list F) : list F :=
  vadd (vadd step (scale (mul (mul two lr) l2) constants))
       (scale (mul lr l1) (map sign constants)).

(** Lines 160-161. *)
Definition sgd_update (lr l1 l2 : F) (av_grad constants : list F) : list F :=
  vsub constants (regularized lr l1 l2 (scale lr av_grad) constants).

(** Lines 331-335: the moments and their bias correction; [m] and [v]
    start as the number 0, which numpy spreads over the gradient. *)
Definition first_moment (b1 : F) (m av_grad : list F) : list F :=
  vadd (scale b1 m) (scale (sub one b1) av_grad).

Definition second_moment (b2 : F) (v av_grad : list F) : list F :=
  vadd (scale b2 v) (scale (sub one b2) (square av_grad)).

Definition bias_corrected (b : F) (t : nat) (moment : list F) : list F :=
  map (fun x => div x (sub one (power b t))) moment.

(** The step of the adaptive variants:
    [learning_rate * m_hat / (np.sqrt(v_hat) + epsilon)]. *)
Definition adam_step (lr eps : F) (m_hat v_hat : list F) : list F :=
  vdiv (scale lr m_hat) (map (fun x => add (sqrt x) eps) v_hat).

(** Lines 338-340. *)
Definition adam_update (lr eps l1 l2 : F) (m_hat v_hat constants : list F)
  : list F :=
  vsub constants (regularized lr l1 l2 (adam_step lr eps m_hat v_hat) constants).

(** Line 500: [ADAM2FOLD] has no penalties. *)
Definition adam2fold_update (lr eps : F) (m_hat v_hat constants : list F)
  : list F :=
  vsub constants (adam_step lr eps m_hat v_hat).

(** Lines 326-335 in one piece: from the gradient of the batch to the
    clipped gradient, the new moments and their corrected values. *)
Record Moments : Type := {
  clipped : list F;
  new_m : list F;
  new_v : list F;
  m_hat : list F;
  v_hat : list F
}.

Definition adam_moments (clip : bool) (b1 b2 : F) (m v : list F) (t : nat)
    (av_grad : list F) : Moments :=
  let av_grad' := clip_gradient clip av_grad in
  let m' := first_moment b1 m av_grad' in
  let v' := second_moment b2 v av_grad' in
  {| clipped := av_grad'; new_m := m'; new_v := v';
     m_hat := bias_corrected b1 t m'; v_hat := bias_corrected b2 t v' |}.

(** Lines 326-340: the constants after a batch of [ADAM]. *)
Definition adam_batch_update (clip : bool) (lr b1 b2 eps l1 l2 : F)
    (m v : list F) (t : nat) (av_grad constants : list F) : list F :=
  let mo := adam_moments clip b1 b2 m v t av_grad in
  adam_update lr eps l1 l2 (m_hat mo) (v_hat mo) constants.

(** Lines 155-161: the constants after a batch of [SGD]. *)
Definition sgd_batch_update (clip : bool) (lr l1 l2 : F)
    (av_grad constants : list F) : list F :=
  sgd_update lr l1 l2 (clip_gradient clip av_grad) constants.

(** Lines 151-153: new constants are drawn when the loss is NaN. *)
Definition redraw_if_nan (av_loss var : F) (constants : list F)
  : M G (F * list F) :=
  if isnan av_loss then
    let var' := add var (of_Q (2 # 10)) in
    tell RandomNormal ;;;
    fun w =>
      let (drawn, g) := normal (rng w) var' (List.length constants) in
      (Ok (var', drawn), {| rng := g; events := events w |})
  else ret (var, constants).

(** The variables that live across the batches of a call. *)
Record Locals : Type := {
  constants : list F;
  var : F;
  av_loss : option F;
  av_grad : option (list F);
  m : list F;
  v : list F;
  t : nat
}.

(** What the setup of a call hands to its loops. *)
Record Batches : Type := {
  compiled : Compiled F;
  n_features : nat;
  X_batch : list (list (list F));
  y_batch : list (list F);
  w_batch : list (list F);
  y2_batch : list (list F);
  w2_batch : list (list F)
}.

Definition nth_batch {A : Type} (l : list (list A)) (i : nat) : M G (list A) :=
  match nth_error l i with
  | Some b => ret b
  | None => raise IndexError
  end.

(** One batch of [SGD] (lines 111-161). *)
Definition sgd_batch (task : string) (clip : bool) (lr l1 l2 : F)
    (b : Batches) (i : nat) (s : Locals) : M G Locals :=
  X <- nth_batch (X_batch b) i ;;
  split_features (n_features b) ;;;
  y <- nth_batch (y_batch b) i ;;
  w <- nth_batch (w_batch b) i ;;
  let y_pred := predictions (compiled b) (constants s) X in
  let num_grad := gradients (compiled b) (constants s) X in
  let assigned := task_loss_gradient task w y y_pred num_grad in
  let av_loss' :=
    match assigned with Some (l, _) => Some l | None => av_loss s end in
  let av_grad' :=
    match assigned with Some (_, g) => Some g | None => av_grad s end in
  loss_value <- read_local av_loss' ;;
  vc <- redraw_if_nan loss_value (var s) (constants s) ;;
  grad_value <- read_local av_grad' ;;
  ret {| constants := sgd_batch_update clip lr l1 l2 grad_value (snd vc);
         var := fst vc; av_loss := av_loss';
         av_grad := Some (clip_gradient clip grad_value);
         m := m s; v := v s; t := t s |}.

(** One batch of [ADAM] (lines 281-340). *)
Definition adam_batch (task : string) (clip : bool) (lr b1 b2 eps l1 l2 : F)
    (b : Batches) (i : nat) (s : Locals) : M G Locals :=
  X <- nth_batch (X_batch b) i ;;
  split_features (n_features b) ;;;
  y <- nth_batch (y_batch b) i ;;
  w <- nth_batch (w_batch b) i ;;
  let y_pred := predictions (compiled b) (constants s) X in
  let num_grad := gradients (compiled b) (constants s) X in
  let assigned := task_loss_gradient task w y y_pred num_grad in
  let av_loss' :=
    match assigned with Some (l, _) => Some l | None => av_loss s end in
  let av_grad' :=
    match assigned with Some (_, g) => Some g | None => av_grad s end in
  loss_value <- read_local av_loss' ;;
  vc <- redraw_if_nan loss_value (var s) (constants s) ;;
  grad_value <- read_local av_grad' ;;
  let mo := adam_moments clip b1 b2 (m s) (v s) (t s) grad_value in
  ret {| constants :=
           adam_batch_update clip lr b1 b2 eps l1 l2 (m s) (v s) (t s)
             grad_value (snd vc);
         var := fst vc; av_loss := av_loss'; av_grad := Some (clipped mo);
         m := new_m mo; v := new_v mo; t := S (t s) |}.

(** [w1_batch[i](y_pred - y1_batch[i])] (lines 478-479): an array is
    called as if it were a function. *)
Definition call_ndarray (array argument : list F) : M G (list F) :=
  raise TypeError.

(** The blended loss (lines 475-476): [lambda1] is a row of 100 draws; the
    sum has a row for each row of the batch and a column for each draw. *)
Definition blended_loss (lambda1 w1 y1 w2 y2 y_pred : list F) : F :=
  let e1 := vmul w1 (square (vsub y_pred y1)) in
  let e2 := vmul w2 (square (vsub y_pred y2)) in
  np_nanmean
    (List.concat (zip_with (fun a b =>
                         map (fun l => add (mul l a) (mul (sub one l) b))
                             lambda1) e1 e2)).

(** The blended gradient of one constant (lines 478-479). *)
Definition blended_gradient (lambda1 w1 y1 w2 y2 y_pred g : list F) : M G F :=
  c1 <- call_ndarray w1 (vsub y_pred y1) ;;
  c2 <- call_ndarray w2 (vsub y_pred y2) ;;
  ret (np_nanmean
         (List.concat (zip_with (fun ab gr =>
                              map (fun l =>
                                     mul (mul two
                                            (add (mul l (fst ab))
                                                 (mul (sub one l) (snd ab))))
                                         gr) lambda1)
                           (combine c1 c2) g))).

Fixpoint for_each {A B : Type} (f : A -> M G B) (l : list A) : M G (list B) :=
  match l with
  | [] => ret []
  | a :: l' => b <- f a ;; bs <- for_each f l' ;; ret (b :: bs)
  end.

Definition samples : nat := 100.

(** The world after the draw of [lambda1]. *)
Definition after_uniform (w : World G) : World G :=
  {| rng := snd (uniform (rng w) samples);
     events := events w ++ [RandomUniform] |}.

(** One batch of [ADAM2FOLD] (lines 463-500). *)
Definition adam2fold_batch (task : string) (clip : bool) (lr b1 b2 eps : F)
    (b : Batches) (i : nat) (s : Locals) : M G Locals :=
  tell RandomUniform ;;;
  lambda1 <- (fun w => let (drawn, g) := uniform (rng w) samples in
                       (Ok drawn, {| rng := g; events := events w |})) ;;
  X <- nth_batch (X_batch b) i ;;
  split_features (n_features b) ;;;
  y1 <- nth_batch (y_batch b) i ;;
  let y_pred := predictions (compiled b) (constants s) X in
  let num_grad := gradients (compiled b) (constants s) X in
  assigned <-
    (if String.eqb task "regression:wmse" then
       w1 <- nth_batch (w_batch b) i ;;
       w2 <- nth_batch (w2_batch b) i ;;
       y2 <- nth_batch (y2_batch b) i ;;
       let l := blended_loss lambda1 w1 y1 w2 y2 y_pred in
       g <- for_each (blended_gradient lambda1 w1 y1 w2 y2 y_pred) num_grad ;;
       ret (Some l, Some g)
     else ret (av_loss s, av_grad s)) ;;
  loss_value <- read_local (fst assigned) ;;
  vc <- redraw_if_nan loss_value (var s) (constants s) ;;
  grad_value <- read_local (snd assigned) ;;
  let mo := adam_moments clip b1 b2 (m s) (v s) (t s) grad_value in
  ret {| constants := adam2fold_update lr eps (m_hat mo) (v_hat mo) (snd vc);
         var := fst vc; av_loss := fst assigned; av_grad := Some (clipped mo);
         m := new_m mo; v := new_v mo; t := S (t s) |}.

(** [for i in range(n_batches)], then [for _ in range(epochs)] with the
    two traces (lines 109-164). *)
Fixpoint batches_loop (batch : nat -> Locals -> M G Locals)
    (indices : list nat) (s : Locals) : M G Locals :=
  match indices with
  | [] => ret s
  | i :: rest => s' <- batch i s ;; batches_loop batch rest s'
  end.

Fixpoint epochs_loop (batch : nat -> Locals -> M G Locals) (n_batches : nat)
    (epochs_ : nat) (s : Locals) (loss : list F) (log : list (list F))
  : M G (list F * list F * list (list F)) :=
  match epochs_ with
  | O => ret (constants s, loss, log)
  | S remaining =>
      s' <- batches_loop batch (seq 0 n_batches) s ;;
      l <- read_local (av_loss s') ;;
      epochs_loop batch n_batches remaining s' (loss ++ [l])
        (log ++ [constants s'])
  end.

Definition empty_results : list F * list F * list (list F) := ([], [], []).

Definition initial_locals (constants_ : list F) : Locals :=
  {| constants := constants_; var := zero; av_loss := None; av_grad := None;
     m := repeat zero (List.length constants_);
     v := repeat zero (List.length constants_); t := 1 |}.

(** Lines 59-102 (and 224-268): the two guards, the data, the compiled
    functions, the batches.  [None] stands for the early [return [], [], []]. *)
Definition setup (program : Program F) (data : DataFrame F) (target : string)
    (weights : option string) (batch_size_ : Z) : M G (option Batches) :=
  if negb (is_valid program) then ret None
  else
    let constants_ := get_constants program in
    if (List.length constants_ =? 0)%nat then ret None
    else
      y_true <- column data target ;;
      X_data <- feature_rows data (features program) ;;
      w <- (if truthy_string weights
            then column data (get_default weights EmptyString)
            else ret (map (fun _ => one) y_true)) ;;
      c <- compile program (List.length constants_) ;;
      match c with
      | None => ret None
      | Some c =>
          n_batches <- count_batches (List.length X_data) batch_size_ ;;
          Xb <- array_split X_data n_batches ;;
          yb <- array_split y_true n_batches ;;
          wb <- array_split w n_batches ;;
          ret (Some {| compiled := c;
                       n_features := List.length (features program);
                       X_batch := Xb; y_batch := yb; w_batch := wb;
                       y2_batch := []; w2_batch := [] |})
      end.

(** [SGD] (lines 14-166). *)
Definition SGD (program : Program F) (data : DataFrame F) (target : string)
    (weights : option string) (conf : Conf F) (task : string)
  : M G (list F * list F * list (list F)) :=
  lr <- item (learning_rate conf) ;;
  batch_size_ <- item (batch_size conf) ;;
  epochs_ <- item (epochs conf) ;;
  let clip := get_default (gradient_clip conf) false in
  let l1 := get_default (l1_param conf) zero in
  let l2 := get_default (l2_param conf) zero in
  b <- setup program data target weights batch_size_ ;;
  match b with
  | None => ret empty_results
  | Some b =>
      epochs_loop (sgd_batch task clip lr l1 l2 b)
        (List.length (X_batch b)) (Z.to_nat epochs_)
        (initial_locals (get_constants program)) [] []
  end.

(** [ADAM] (lines 169-345). *)
Definition ADAM (program : Program F) (data : DataFrame F) (target : string)
    (weights : option string) (conf : Conf F) (task : string)
  : M G (list F * list F * list (list F)) :=
  lr <- item (learning_rate conf) ;;
  batch_size_ <- item (batch_size conf) ;;
  epochs_ <- item (epochs conf) ;;
  clip <- item (gradient_clip conf) ;;
  b1 <- item (beta_1 conf) ;;
  b2 <- item (beta_2 conf) ;;
  eps <- item (epsilon conf) ;;
  let l1 := get_default (l1_param conf) zero in
  let l2 := get_default (l2_param conf) zero in
  b <- setup program data target weights batch_size_ ;;
  match b with
  | None => ret empty_results
  | Some b =>
      epochs_loop (adam_batch task clip lr b1 b2 eps l1 l2 b)
        (List.length (X_batch b)) (Z.to_nat epochs_)
        (initial_locals (get_constants program)) [] []
  end.

Definition list_item {A : Type} (l : list A) (i : nat) : M G A :=
  match nth_error l i with
  | Some a => ret a
  | None => raise IndexError
  end.

(** Lines 396-449: the setup of [ADAM2FOLD], with two targets and two
    columns of weights. *)
Definition setup2 (program : Program F) (data : DataFrame F)
    (target weights : list string) (batch_size_ : Z) : M G (option Batches) :=
  if negb (is_valid program) then ret None
  else
    let constants_ := get_constants program in
    if (List.length constants_ =? 0)%nat then ret None
    else
      t0 <- list_item target 0 ;;
      y_true_1 <- column data t0 ;;
      t1 <- list_item target 1 ;;
      y_true_2 <- column data t1 ;;
      X_data <- feature_rows data (features program) ;;
      ww <- (match weights with
             | [] => ret (map (fun _ => one) y_true_1,
                          map (fun _ => one) y_true_2)
             | _ :: _ =>
                 n0 <- list_item weights 0 ;;
                 w1 <- column data n0 ;;
                 n1 <- list_item weights 1 ;;
                 w2 <- column data n1 ;;
                 ret (w1, w2)
             end) ;;
      c <- compile program (List.length constants_) ;;
      match c with
      | None => ret None
      | Some c =>
          n_batches <- count_batches (List.length X_data) batch_size_ ;;
          Xb <- array_split X_data n_batches ;;
          y1b <- array_split y_true_1 n_batches ;;
          y2b <- array_split y_true_2 n_batches ;;
          w1b <- array_split (fst ww) n_batches ;;
          w2b <- array_split (snd ww) n_batches ;;
          ret (Some {| compiled := c;
                       n_features := List.length (features program);
                       X_batch := Xb; y_batch := y1b; w_batch := w1b;
                       y2_batch := y2b; w2_batch := w2b |})
      end.

(** [ADAM2FOLD] (lines 348-505). *)
Definition ADAM2FOLD (program : Program F) (data : DataFrame F)
    (target weights : list string) (conf : Conf F) (task : string)
  : M G (list F * list F * list (list F)) :=
  lr <- item (learning_rate conf) ;;
  batch_size_ <- item (batch_size conf) ;;
  epochs_ <- item (epochs conf) ;;
  clip <- item (gradient_clip conf) ;;
  b1 <- item (beta_1 conf) ;;
  b2 <- item (beta_2 conf) ;;
  eps <- item (epsilon conf) ;;
  b <- setup2 program data target weights batch_size_ ;;
  match b with
  | None => ret empty_results
  | Some b =>
      epochs_loop (adam2fold_batch task clip lr b1 b2 eps b)
        (List.length (X_batch b)) (Z.to_nat epochs_)
        (initial_locals (get_constants program)) [] []
  end.

(** The keys that [SGD] indexes, and those that [ADAM] and [ADAM2FOLD]
    index. *)
Definition sgd_keys (conf : Conf F) : Prop :=
  learning_rate conf <> None /\ batch_size conf <> None /\
  epochs conf <> None.

Definition adam_keys (conf : Conf F) : Prop :=
  sgd_keys conf /\ gradient_clip conf <> None /\ beta_1 conf <> None /\
  beta_2 conf <> None /\ epsilon conf <> None.







End Optimizers.
End Optimization.

(** ** The fitness metrics ([fitness/Regression.py]) *)

Module Regression.

(** What [program.evaluate(data=data)] hands to a metric: an array of
    numbers, or a value on which the arithmetic of the metric raises [e]
    (a type error on a non-numeric value, a value error on arrays that do
    not fit, an attribute error on an array of objects). *)
Inductive prediction (F : Type) : Type :=
| Numbers (values : list F)
| Unusable (e : exn).
Arguments Numbers {F} values.
Arguments Unusable {F} e.

(** What a metric returns: a number it has computed, [np.inf] or
    [np.nan]. *)
Inductive scalar (F : Type) : Type :=
| Number (x : F)
| PlusInfinity
| NaN.
Arguments Number {F} x.
Arguments PlusInfinity {F}.
Arguments NaN {F}.

(** The attributes of a [BaseFitness] that the metrics read. *)
Record Fitness (F : Type) : Type := {
  target : string;
  weights : option string;
  logistic : bool;
  epsilon : F;
  lower_bound : F;
  upper_bound : F
}.
Arguments target {F} f.
Arguments weights {F} f.
Arguments logistic {F} f.
Arguments epsilon {F} f.
Arguments lower_bound {F} f.
Arguments upper_bound {F} f.

Section Metrics.
Context {F : Type} `{Numeric F}.

(** [self._create_regression_weights(data, target, bins)], of [Base.py]. *)
Variable create_regression_weights : DataFrame F -> string -> list F.

(** [pred - data[self.target]] and the like: the prediction as an array,
    or the exception of the arithmetic. *)
Definition as_array (pred : prediction F) : result (list F) :=
  match pred with
  | Numbers values => Ok values
  | Unusable e => Raise e
  end.

Fixpoint has_column (name : string) (cols : list (string * list F)) : bool :=
  match cols with
  | [] => false
  | (k, _) :: cols' => String.eqb name k || has_column name cols'
  end.

(** Lines 27-29: the column of weights is made when the frame lacks it;
    with [self.weights = None] the column made is stored under the key
    [None], which no later read by name reaches. *)
Definition cache_weights (self : Fitness F) (data : DataFrame F)
  : DataFrame F :=
  match weights self with
  | Some name =>
      if has_column name (columns data) then data
      else {| shape0 := shape0 data;
              columns := columns data ++
                         [(name, create_regression_weights data (target self))]
           |}
  | None => data
  end.

(** The handlers of the three regression metrics (lines 36-39). *)
Definition infinite_on_failure (r : result F) : result (scalar F) :=
  match r with
  | Ok x => Ok (Number x)
  | Raise TypeError => Ok PlusInfinity
  | Raise ValueError => Ok PlusInfinity
  | Raise e => Raise e
  end.

Local Open Scope py_scope.

(** [Series.mean()] leaves NaN entries out. *)
Definition weighted_squared_error (self : Fitness F) (pred : prediction F)
    (data : DataFrame F) : result F :=
  if truthy_string (weights self) then
    y <- lookup (target self) (columns data) ;;
    p <- as_array pred ;;
    w <- lookup (get_default (weights self) EmptyString) (columns data) ;;
    Ok (np_nanmean (vmul (square (vsub p y)) w))
  else
    y <- lookup (target self) (columns data) ;;
    p <- as_array pred ;;
    Ok (np_nanmean (square (vsub p y))).

(** [WeightedMeanSquaredError.evaluate] (lines 18-39), from the prediction
    on: the value returned and the data frame as it is left. *)
Definition WeightedMeanSquaredError_evaluate (self : Fitness F)
    (pred : prediction F) (data : DataFrame F)
  : result (scalar F) * DataFrame F :=
  let data' := cache_weights self data in
  (infinite_on_failure (weighted_squared_error self pred data'), data').

Definition weighted_absolute_error (self : Fitness F) (pred : prediction F)
    (data : DataFrame F) : result F :=
  if truthy_string (weights self) then
    y <- lookup (target self) (columns data) ;;
    p <- as_array pred ;;
    w <- lookup (get_default (weights self) EmptyString) (columns data) ;;
    Ok (np_nanmean (vmul (map abs (vsub p y)) w))
  else
    y <- lookup (target self) (columns data) ;;
    p <- as_array pred ;;
    Ok (np_nanmean (map abs (vsub p y))).

(** [WeightedMeanAbsoluteError.evaluate] (lines 53-74). *)
Definition WeightedMeanAbsoluteError_evaluate (self : Fitness F)
    (pred : prediction F) (data : DataFrame F)
  : result (scalar F) * DataFrame F :=
  let data' := cache_weights self data in
  (infinite_on_failure (weighted_absolute_error self pred data'), data').

Definition weighted_relative_error (self : Fitness F) (pred : prediction F)
    (data : DataFrame F) : result F :=
  if truthy_string (weights self) then
    y <- lookup (target self) (columns data) ;;
    w <- lookup (get_default (weights self) EmptyString) (columns data) ;;
    let y_av := add tiny (np_nanmean (vmul y w)) in
    p <- as_array pred ;;
    Ok (div (mul (sqrt (np_nanmean (vmul (square (vsub p y)) w))) hundred)
            y_av)
  else
    y <- lookup (target self) (columns data) ;;
    let y_av := add tiny (np_nanmean y) in
    p <- as_array pred ;;
    Ok (div (mul (sqrt (np_nanmean (square (vsub p y)))) hundred) y_av).

(** [WeightedRelativeRootMeanSquaredError.evaluate] (lines 88-115). *)
Definition WeightedRelativeRootMeanSquaredError_evaluate (self : Fitness F)
    (pred : prediction F) (data : DataFrame F)
  : result (scalar F) * DataFrame F :=
  let data' := cache_weights self data in
  (infinite_on_failure (weighted_relative_error self pred data'), data').




(** [np.where(condition >= 0, excess, 0)], then the mean. *)
Definition mean_excess (excess : list F) : F :=
  np_mean (map (fun x => if geb x zero then x else zero) excess).

(** [ValueRange.evaluate] (lines 153-167): no handler. *)
Definition ValueRange_evaluate (self : Fitness F) (pred : prediction F)
  : result (scalar F) :=
  values <- as_array pred ;;
  let upper_bound_constraint :=
    mean_excess (map (fun x => sub x (upper_bound self)) values) in
  let lower_bound_constraint :=
    mean_excess (map (fun x => sub (lower_bound self) x) values) in
  Ok (Number (add upper_bound_constraint lower_bound_constraint)).

End Metrics.
End Regression.

(** ** The arithmetic of the real numbers

    Floats read as the reals they stand for: no rounding, no NaN. *)
Definition Rsign (x : R) : R :=
  if Rlt_dec 0 x then 1%R else if Rlt_dec x 0 then (-1)%R else 0%R.

Definition Rgtb (x y : R) : bool := if Rgt_dec x y then true else false.

Definition Rgeb (x y : R) : bool := if Rge_dec x y then true else false.

#[export] Instance Numeric_R : Numeric R := {
  of_Q := Q2R;
  add := Rplus;
  sub := Rminus;
  mul := Rmult;
  div := Rdiv;
  sqrt := R_sqrt.sqrt;
  exp := Rtrigo_def.exp;
  log := ln;
  sign := Rsign;
  abs := Rabs;
  power := pow;
  isnan := fun _ => false;
  gtb := Rgtb;
  geb := Rgeb
}.

(** A gradient component as [ADAM] uses it when both decay rates are 0. *)
Definition sign_like (eps g : R) : R := (g / (Rabs g + eps))%R.

(** The weights that a metric finds in the frame: none, or a column of
    the length of the target with no negative entry. *)
Definition usable_weights (self : Regression.Fitness R) (data : DataFrame R)
    (y : list R) : Prop :=
  Regression.weights self = None \/
  exists name wt,
    Regression.weights self = Some name /\
    lookup name (columns data) = Ok wt /\
    List.length wt = List.length y /\ Forall (fun x => (0 <= x)%R) wt.

(** ** Concrete programs and populations *)

(** Modelled from the spec: [Program.is_duplicate] ([Program.py] is not
    among the sources), "an identical fitness vector": the same objectives
    with the same values, in the same order. *)
Fixpoint identical_fitness (f g : list (string * Q)) : bool :=
  match f, g with
  | [], [] => true
  | (n, x) :: f', (m, y) :: g' =>
      String.eqb n m && Qeq_bool x y && identical_fitness f' g'
  | _, _ => false
  end.

Definition example_program (name : string) (loss : Q) (r : Z) (d : distance)
    (is_valid_ : bool) : Program :=
  {| program := name; fitness := [("wmse"%string, loss)];
     _fitness_template :=
       [("wmse"%string,
         {| func := loss; minimize := Some true; hv_reference := None |})];
     rank := r; crowding_distance := d; complexity := 1%Q;
     is_valid := is_valid_; _is_duplicated := false; converged := false |}.

Definition prog_a : Program := example_program "a" (1#2) 1 Infinity true.
Definition prog_b : Program := example_program "b" (3#2) 2 (Finite 1) true.
Definition prog_c : Program := example_program "c" (1#4) 1 (Finite 2) true.
Definition prog_invalid : Program :=
  example_program "log(-1)" (5#1) 1 (Finite 0) false.

(** A run of the loop with collaborators that can be computed: the factory
    numbers its programs, there is no offspring, every program is put in
    the first front with an infinite crowding distance, and pygmo answers
    5. *)
Definition example_env : Collaborators :=
  {| generate_population := fun g i =>
       example_program "c0*x" (inject_Z (10 * g + Z.of_nat i)) 0 (Finite 0)
         true;
     get_offspring := fun _ _ => [];
     create_pareto_front := map (set_rank 1);
     assign_crowding_distance := map (set_crowding_distance Infinity);
     pg_hypervolume := fun _ _ => Some 5%Q;
     generation_seconds := fun _ => 1%Q;
     fit_seconds := 3%Q |}.

(** [SymbolicRegressor(population_size=1).fit(..., generations=2,
    verbose=0)], and the same call interrupted in its second generation,
    after the refill. *)
Definition example_fit (interrupt : option (Z * Phase))
  : option (result unit * SymbolicRegressor) :=
  fit identical_fitness example_env 2 true 0 interrupt 3
    (new_regressor None (-1) 1).

Definition example_selected : Program :=
  set_crowding_distance Infinity
    (set_rank 1 (generate_population example_env 0 0)).

Definition example_refilled : Program :=
  generate_population example_env 2 0.

(** The same call with [verbose=2], which reads the hypervolume. *)
Definition example_fit_verbose (interrupt : option (Z * Phase))
  : option (result unit * SymbolicRegressor) :=
  fit identical_fitness example_env 2 true 2 interrupt 3
    (new_regressor None (-1) 1).

(** The regressor as the interrupt finds it in the second generation, and
    as the call that is not interrupted leaves it. *)
Definition example_interrupted_at : SymbolicRegressor :=
  match
    _fit identical_fitness example_env 2 true 0
      (Some (2%Z, BeforeParetoFront)) 3
      (set_generation (Some 0%Z) (new_regressor None (-1) 1))
  with
  | Some (_, self) => self
  | None => new_regressor None (-1) 1
  end.

Definition example_final : SymbolicRegressor :=
  match example_fit None with
  | Some (_, self) => self
  | None => new_regressor None (-1) 1
  end.

(** A regressor of size 2 that holds the three programs. *)
Definition example_regressor : SymbolicRegressor :=
  set_population [prog_b; prog_c; prog_a] (new_regressor None (-1) 2).

(** A program that has converged, and a regressor that found it in its
    first generation; the call that trains it for two generations more. *)
Definition prog_converged : Program :=
  {| program := "2*x"; fitness := [("wmse"%string, 0%Q)];
     _fitness_template :=
       [("wmse"%string,
         {| func := 0%Q; minimize := Some true; hv_reference := None |})];
     rank := 1; crowding_distance := Infinity; complexity := 1%Q;
     is_valid := true; _is_duplicated := false; converged := true |}.

Definition example_converged : SymbolicRegressor :=
  set_population [prog_converged]
    (set_converged_generation (Some 1%Z)
       (set_generation (Some 1%Z) (new_regressor None (-1) 1))).

Definition example_converged_final : SymbolicRegressor :=
  match
    fit identical_fitness example_env 3 false 0 None 3 example_converged
  with
  | Some (_, self) => self
  | None => example_converged
  end.

(** What a finished call shows of the regressor. *)
Definition outcome_summary (r : option (result unit * SymbolicRegressor))
  : option (result unit * option Z * string * list Program) :=
  match r with
  | Some (res, self) =>
      Some (res, generation self, status self, population self)
  | None => None
  end.

Definition hypervolume_summary
    (r : option (result unit * SymbolicRegressor))
  : option (result unit * option Z * string * list Q) :=
  match r with
  | Some (res, self) =>
      Some (res, generation self, status self, fpf_hypervolume_history self)
  | None => None
  end.

Definition history_summary (r : option (result unit * SymbolicRegressor))
  : option (result unit * option Z * nat * nat * nat) :=
  match r with
  | Some (res, self) =>
      Some (res, generation self,
            List.length (best_programs_history self),
            List.length (first_pareto_front_history self),
            List.length (fpf_hypervolume_history self))
  | None => None
  end.

(** ** Concrete calls of the optimizers

    The program [c0 * x] on two rows, over the real numbers, with a
    generator that always draws the same numbers. *)
Module OptimizerExamples.
Import Optimization.
Local Open Scope R_scope.

#[export] Instance Random_fixed : Random R unit := {
  normal := fun g _ n => (repeat 0 n, g);
  uniform := fun g n => (repeat (1 / 2) n, g)
}.

Definition linear : Compiled R :=
  {| pyf_prog := fun x c => nth 0 c 0 * nth 0 x 0;
     pyf_grad := fun _ x _ => nth 0 x 0 |}.

Definition linear_program : Program R :=
  {| is_valid := true; features := ["x"%string]; get_constants := [1];
     lambdify := Ok linear |}.

Definition invalid_program : Program R :=
  {| is_valid := false; features := ["x"%string]; get_constants := [1];
     lambdify := Ok linear |}.



Definition example_data : DataFrame R :=
  {| shape0 := 2;
     columns := [("x"%string, [1; 2]); ("y"%string, [2; 4]);
                 ("z"%string, [3; 6])] |}.

Definition example_conf : Conf R :=
  {| learning_rate := Some (1 / 10); batch_size := Some 1%Z;
     epochs := Some 1%Z; gradient_clip := Some false;
     l1_param := None; l2_param := None;
     beta_1 := Some (9 / 10); beta_2 := Some (999 / 1000);
     epsilon := Some (1 / 100000000) |}.

Definition fresh_world : World unit := {| rng := tt; events := [] |}.

Definition no_batches : @Batches R :=
  {| compiled := linear; n_features := 0; X_batch := []; y_batch := [];
     w_batch := []; y2_batch := []; w2_batch := [] |}.

(** What the setups of the example hand over. *)
Definition example_batches : @Batches R :=
  match
    fst (setup linear_program example_data "y" None 1 fresh_world)
  with
  | Ok (Some b) => b
  | _ => no_batches
  end.

Definition example_batches2 : @Batches R :=
  match
    fst (setup2 linear_program example_data ["y"; "z"]%string [] 1
           fresh_world)
  with
  | Ok (Some b) => b
  | _ => no_batches
  end.


Definition idle_conf : Conf R :=
  {| learning_rate := Some (1 / 10); batch_size := Some 1%Z;
     epochs := Some 0%Z; gradient_clip := Some false;
     l1_param := None; l2_param := None;
     beta_1 := Some (9 / 10); beta_2 := Some (999 / 1000);
     epsilon := Some (1 / 100000000) |}.

(** What [SGD] and [ADAM] return on the example. *)
Definition results_of
    (run : result (list R * list R * list (list R)) * World unit)
  : list R * list R * list (list R) :=
  match fst run with
  | Ok r => r
  | Raise _ => empty_results
  end.

Definition example_sgd_run
  : result (list R * list R * list (list R)) * World unit :=
  SGD linear_program example_data "y" None example_conf "regression:wmse"
    fresh_world.

Definition example_adam_run
  : result (list R * list R * list (list R)) * World unit :=
  ADAM linear_program example_data "y" None example_conf "regression:wmse"
    fresh_world.

End OptimizerExamples.

(** A metric on [y], with the column of weights [w], and the bounds of a
    range. *)
Definition example_fitness : Regression.Fitness R :=
  {| Regression.target := "y"; Regression.weights := Some "w"%string;
     Regression.logistic := false; Regression.epsilon := (1 / 100)%R;
     Regression.lower_bound := 0%R; Regression.upper_bound := 10%R |}.

(** A frame with a target and a column of weights, and one with the
    weights only. *)
Definition weighted_data : DataFrame R :=
  {| shape0 := 2;
     columns := [("y"%string, [2; 4]%R); ("w"%string, [1; 1]%R)] |}.

Definition weights_only_data : DataFrame R :=
  {| shape0 := 2; columns := [("w"%string, [1; 1]%R)] |}.

(** A stand-in for [_create_regression_weights] in the examples: a column
    of ones. *)
Definition unit_weights (data : DataFrame R) (target : string) : list R :=
  repeat 1%R (shape0 data).

(* ===================================================================== *)
(** * Part II: properties *)
(* ===================================================================== *)

(** ** Stable sorting *)

Section PySortFacts.
Context {A K : Type}.
Variable key : A -> K.
Variable lt : K -> K -> bool.

Hypothesis lt_asym : forall x y, lt x y = true -> lt y x = false.
Hypothesis le_trans :
  forall x y z, lt y x = false -> lt z y = false -> lt z x = false.

Lemma insert_sorted_perm x s : Permutation (insert_sorted key lt x s) (x :: s).
Proof.
  induction s as [|y s IH]; simpl; [reflexivity|].
  destruct (lt (key y) (key x)); [|reflexivity].
  rewrite IH. apply perm_swap.
Qed.

Lemma stable_sort_perm l : Permutation (stable_sort key lt l) l.
Proof.
  induction l as [|x l IH]; simpl; [constructor|].
  rewrite insert_sorted_perm. now constructor.
Qed.

Lemma list_sort_perm reverse l : Permutation (list_sort key lt reverse l) l.
Proof.
  destruct reverse; simpl; [|apply stable_sort_perm].
  rewrite <- Permutation_rev, stable_sort_perm. symmetry. apply Permutation_rev.
Qed.

Lemma insert_sorted_sorted x s :
  StronglySorted (key_le key lt) s ->
  StronglySorted (key_le key lt) (insert_sorted key lt x s).
Proof.
  induction 1 as [|y s Hs IH Hy]; simpl.
  - repeat constructor.
  - destruct (lt (key y) (key x)) eqn:E.
    + constructor; [exact IH|].
      eapply Permutation_Forall; [symmetry; apply insert_sorted_perm|].
      constructor; [|exact Hy]. unfold key_le. now apply lt_asym.
    + constructor; [now constructor|].
      constructor; [exact E|].
      eapply Forall_impl; [|exact Hy].
      intros z Hz. unfold key_le in *. now apply le_trans with (y := key y).
Qed.

Lemma stable_sort_sorted l :
  StronglySorted (key_le key lt) (stable_sort key lt l).
Proof.
  induction l as [|x l IH]; simpl; [constructor|].
  now apply insert_sorted_sorted.
Qed.

(** Elements that the order does not tell apart keep their places. *)
Section Stability.
Variable P : A -> bool.
Hypothesis P_equiv :
  forall a b, P a = true -> P b = true -> lt (key b) (key a) = false.

Lemma insert_sorted_filter x s :
  filter P (insert_sorted key lt x s) = filter P (x :: s).
Proof.
  induction s as [|y s IH]; [reflexivity|].
  simpl insert_sorted. destruct (lt (key y) (key x)) eqn:E; [|reflexivity].
  simpl in *. rewrite IH.
  destruct (P y) eqn:Ey, (P x) eqn:Ex; try reflexivity.
  rewrite (P_equiv x y Ex Ey) in E. discriminate.
Qed.

Lemma stable_sort_filter l :
  filter P (stable_sort key lt l) = filter P l.
Proof.
  induction l as [|x l IH]; [reflexivity|].
  simpl stable_sort. rewrite insert_sorted_filter. simpl. now rewrite IH.
Qed.

Lemma list_sort_filter reverse l :
  filter P (list_sort key lt reverse l) = filter P l.
Proof.
  destruct reverse; simpl; [|apply stable_sort_filter].
  rewrite filter_rev, stable_sort_filter, filter_rev. apply rev_involutive.
Qed.
End Stability.
End PySortFacts.

(** ** Strongly sorted lists *)

Section SortedFacts.
Context {A : Type}.
Variable R : A -> A -> Prop.

Lemma StronglySorted_snoc l x :
  StronglySorted R l -> Forall (fun a => R a x) l ->
  StronglySorted R (l ++ [x]).
Proof.
  induction 1 as [|a l Hl IH Ha]; intros Hx; simpl.
  - repeat constructor.
  - inversion Hx; subst. constructor; [now apply IH|].
    apply Forall_app. split; [exact Ha|]. now repeat constructor.
Qed.

Lemma StronglySorted_rev l :
  StronglySorted (fun a b => R b a) l -> StronglySorted R (rev l).
Proof.
  induction 1 as [|a l Hl IH Ha]; simpl; [constructor|].
  apply StronglySorted_snoc; [exact IH|].
  apply Forall_rev. exact Ha.
Qed.

Lemma StronglySorted_filter f l :
  StronglySorted R l -> StronglySorted R (filter f l).
Proof.
  induction 1 as [|a l Hl IH Ha]; simpl; [constructor|].
  destruct (f a); [|exact IH].
  constructor; [exact IH|].
  apply Forall_forall. intros b Hb. apply filter_In in Hb.
  rewrite Forall_forall in Ha. now apply Ha.
Qed.

Lemma StronglySorted_firstn n l :
  StronglySorted R l -> StronglySorted R (firstn n l).
Proof.
  intros H. revert n.
  induction H as [|a l Hl IH Ha]; intros [|n]; simpl; try constructor.
  - apply IH.
  - apply Forall_forall. intros b Hb.
    rewrite Forall_forall in Ha. apply Ha.
    rewrite <- (firstn_skipn n l). apply in_or_app. now left.
Qed.
End SortedFacts.

(** ** The order of crowding distances and of ranks *)

Lemma distance_ltb_asym x y :
  distance_ltb x y = true -> distance_ltb y x = false.
Proof.
  destruct x as [a|], y as [b|]; simpl; try easy.
  rewrite negb_true_iff, negb_false_iff. intros H.
  apply Qle_bool_iff. destruct (Qlt_le_dec b a) as [Hlt|Hle].
  - apply Qlt_le_weak in Hlt. apply Qle_bool_iff in Hlt. congruence.
  - exact Hle.
Qed.

Lemma distance_le_trans x y z :
  distance_ltb y x = false -> distance_ltb z y = false ->
  distance_ltb z x = false.
Proof.
  destruct x as [a|], y as [b|], z as [c|]; simpl; try easy.
  rewrite !negb_false_iff, !Qle_bool_iff. intros H1 H2.
  now apply Qle_trans with (y := b).
Qed.

Lemma Zltb_asym x y : (x <? y)%Z = true -> (y <? x)%Z = false.
Proof. lia. Qed.

Lemma Zle_trans_ltb x y z :
  (y <? x)%Z = false -> (z <? y)%Z = false -> (z <? x)%Z = false.
Proof. lia. Qed.

(** ** Selection and truncation *)

Lemma sort_by_crowding_sorted pop :
  StronglySorted crowding_ge (sort_by_crowding pop).
Proof.
  unfold sort_by_crowding, list_sort.
  apply StronglySorted_rev.
  apply (stable_sort_sorted crowding_distance distance_ltb
           distance_ltb_asym distance_le_trans).
Qed.

Lemma sort_by_rank_sorted pop :
  StronglySorted (fun a b => (rank a <= rank b)%Z) (sort_by_rank pop).
Proof.
  unfold sort_by_rank, list_sort.
  eapply StronglySorted_ind with (R := key_le rank Z.ltb);
    [constructor| |apply (stable_sort_sorted rank Z.ltb Zltb_asym Zle_trans_ltb)].
  intros a l _ IH Ha. constructor; [exact IH|].
  eapply Forall_impl; [|exact Ha]. unfold key_le. intros b Hb. lia.
Qed.

Lemma sort_by_rank_stable k pop :
  filter (has_rank k) (sort_by_rank pop) = filter (has_rank k) pop.
Proof.
  apply list_sort_filter. unfold has_rank. intros a b Ha Hb. lia.
Qed.

Lemma rank_groups_sorted l :
  StronglySorted (fun a b => (rank a <= rank b)%Z) l ->
  (forall k, StronglySorted crowding_ge (filter (has_rank k) l)) ->
  StronglySorted rank_then_crowding l.
Proof.
  induction 1 as [|a l Hl IH Ha]; intros Hgroups; [constructor|].
  constructor.
  - apply IH. intros k. specialize (Hgroups k). simpl in Hgroups.
    destruct (has_rank k a); [|exact Hgroups].
    now apply StronglySorted_inv in Hgroups.
  - specialize (Hgroups (rank a)). simpl in Hgroups.
    unfold has_rank at 1 in Hgroups. rewrite Z.eqb_refl in Hgroups.
    apply StronglySorted_inv in Hgroups. destruct Hgroups as [_ Hgroup].
    rewrite Forall_forall in Ha, Hgroup. apply Forall_forall. intros b Hb.
    specialize (Ha b Hb). unfold rank_then_crowding.
    destruct (Z.eq_dec (rank a) (rank b)) as [E|E]; [right|left; lia].
    split; [exact E|]. apply Hgroup. apply filter_In. split; [exact Hb|].
    unfold has_rank. lia.
Qed.

Lemma two_pass_sorted pop :
  StronglySorted rank_then_crowding (sort_by_rank (sort_by_crowding pop)).
Proof.
  apply rank_groups_sorted; [apply sort_by_rank_sorted|].
  intros k. rewrite sort_by_rank_stable.
  apply StronglySorted_filter, sort_by_crowding_sorted.
Qed.

(** C1.  A population of at least [population_size] programs is sorted by
    crowding distance, descending, then by rank, ascending; the second sort
    leaves every rank group in the order the first one gave it; the first
    [population_size] programs are kept: the survivors are exactly
    [population_size] programs, ordered by ascending rank and by descending
    crowding distance inside a rank. *)
Theorem select_and_truncate_sorted_exact
    (population_size : Z) (pop : list Program) :
  (0 <= population_size <= Z.of_nat (List.length pop))%Z ->
  let by_crowding := sort_by_crowding pop in
  let by_rank := sort_by_rank by_crowding in
  let survivors := select_and_truncate population_size pop in
  Permutation by_crowding pop /\
  StronglySorted crowding_ge by_crowding /\
  Permutation by_rank by_crowding /\
  StronglySorted (fun a b => (rank a <= rank b)%Z) by_rank /\
  (forall k, filter (has_rank k) by_rank = filter (has_rank k) by_crowding) /\
  survivors = firstn (Z.to_nat population_size) by_rank /\
  Z.of_nat (List.length survivors) = population_size /\
  StronglySorted rank_then_crowding survivors.
Proof.
  intros HN by_crowding by_rank survivors.
  assert (Hc : Permutation by_crowding pop) by apply list_sort_perm.
  assert (Hr : Permutation by_rank by_crowding) by apply list_sort_perm.
  assert (Hs : survivors = firstn (Z.to_nat population_size) by_rank).
  { unfold survivors, select_and_truncate, slice_to.
    destruct (Z.leb_spec 0 population_size); [reflexivity|lia]. }
  repeat split; try assumption.
  - apply sort_by_crowding_sorted.
  - apply sort_by_rank_sorted.
  - intros k. apply sort_by_rank_stable.
  - rewrite Hs, length_firstn.
    rewrite (Permutation_length Hr), (Permutation_length Hc). lia.
  - rewrite Hs. apply StronglySorted_firstn, two_pass_sorted.
Qed.

(** ** Duplicates *)

Section RegistryFacts.
Variable fitness_eq : list (string * Q) -> list (string * Q) -> bool.


Lemma flag_raised_refl a : flag_raised a a.
Proof. now left. Qed.

Lemma flag_raised_trans a b c :
  flag_raised a b -> flag_raised b c -> flag_raised a c.
Proof.
  intros [->| ->] [->| ->]; unfold flag_raised; auto.
Qed.

Lemma flag_raised_is_duplicate p {a b} :
  flag_raised a b -> is_duplicate fitness_eq p b = is_duplicate fitness_eq p a.
Proof. now intros [->| ->]. Qed.

Lemma flag_raised_flag {a b} :
  flag_raised a b -> _is_duplicated a = true -> _is_duplicated b = true.
Proof. now intros [->| ->]. Qed.

Lemma flag_raised_is_valid {a b} : flag_raised a b -> is_valid b = is_valid a.
Proof. now intros [->| ->]. Qed.

Lemma flagged_by_raised p a b :
  flag_raised a b -> flagged_by fitness_eq p a -> flagged_by fitness_eq p b.
Proof.
  intros Hab Ha Hp Hd. rewrite (flag_raised_is_duplicate p Hab) in Hd.
  apply (flag_raised_flag Hab). now apply Ha.
Qed.

Lemma mark_duplicates_of_raised p later :
  Forall2 flag_raised later (mark_duplicates_of fitness_eq p later).
Proof.
  induction later as [|q later IH]; simpl; constructor; [|exact IH].
  destruct (is_duplicate fitness_eq p q); [now right|now left].
Qed.

Lemma mark_duplicates_of_flagged p later :
  Forall (fun q => is_duplicate fitness_eq p q = true -> _is_duplicated q = true)
         (mark_duplicates_of fitness_eq p later).
Proof.
  induction later as [|q later IH]; simpl; constructor; [|exact IH].
  destruct (is_duplicate fitness_eq p q) eqn:E; [reflexivity|].
  intros Hd. unfold is_duplicate in *. congruence.
Qed.

Lemma Forall2_flag_raised_trans l1 l2 l3 :
  Forall2 flag_raised l1 l2 -> Forall2 flag_raised l2 l3 ->
  Forall2 flag_raised l1 l3.
Proof.
  intros H. revert l3.
  induction H as [|a b l1 l2 Hab _ IH]; intros l3 H23; inversion H23; subst;
    constructor; eauto using flag_raised_trans.
Qed.

Lemma Forall2_flag_raised_refl l : Forall2 flag_raised l l.
Proof. induction l; constructor; auto using flag_raised_refl. Qed.

Lemma mark_from_raised n pop : Forall2 flag_raised pop (mark_from fitness_eq n pop).
Proof.
  revert pop. induction n as [|n IH]; intros [|p later]; simpl;
    try apply Forall2_flag_raised_refl.
  constructor; [apply flag_raised_refl|].
  destruct (is_valid p && negb (_is_duplicated p)); [|apply IH].
  eapply Forall2_flag_raised_trans; [apply mark_duplicates_of_raised|apply IH].
Qed.

Lemma Forall2_Forall_transport (P Q : Program -> Prop) l1 l2 :
  (forall a b, flag_raised a b -> P a -> Q b) ->
  Forall2 flag_raised l1 l2 -> Forall P l1 -> Forall Q l2.
Proof.
  intros HPQ H. induction H as [|a b l1 l2 Hab _ IH]; intros HP;
    inversion HP; subst; constructor; eauto.
Qed.

(** After the pass, every program that was compared with the later ones
    has flagged those of the same fitness. *)
Lemma mark_from_flagged n pop :
  (List.length pop <= n)%nat -> ForallOrdPairs (flagged_by fitness_eq) (mark_from fitness_eq n pop).
Proof.
  revert pop. induction n as [|n IH]; intros [|p later] Hn; simpl in *;
    try lia; try constructor.
  - destruct (is_valid p && negb (_is_duplicated p)) eqn:Ep.
    + eapply Forall2_Forall_transport;
        [|apply mark_from_raised|apply mark_duplicates_of_flagged].
      intros a b Hab Ha _ Hd.
      rewrite (flag_raised_is_duplicate p Hab) in Hd.
      apply (flag_raised_flag Hab). now apply Ha.
    + apply Forall_forall. intros q _ Hp. unfold confronts in Hp. congruence.
  - apply IH. destruct (is_valid p && negb (_is_duplicated p));
      [unfold mark_duplicates_of; rewrite length_map|]; lia.
Qed.

Lemma ForallOrdPairs_filter {A : Type} (R : A -> A -> Prop) f l :
  ForallOrdPairs R l -> ForallOrdPairs R (filter f l).
Proof.
  induction 1 as [|a l Ha Hl IH]; simpl; [constructor|].
  destruct (f a); [|exact IH]. constructor; [|exact IH].
  apply Forall_forall. intros b Hb. apply filter_In in Hb.
  rewrite Forall_forall in Ha. now apply Ha.
Qed.

(** A population without flags in which no program is left to flag is not
    changed by the pass. *)
Lemma mark_from_settled n {pop} :
  Forall (fun p => _is_duplicated p = false) pop ->
  ForallOrdPairs (flagged_by fitness_eq) pop ->
  mark_from fitness_eq n pop = pop.
Proof.
  revert pop. induction n as [|n IH]; intros [|p later] Hflags Hpairs;
    simpl; try reflexivity.
  inversion Hflags as [|? ? Hp Hlater]; subst.
  inversion Hpairs as [|? ? Hfl Hrest]; subst.
  assert (E : (if is_valid p && negb (_is_duplicated p)
               then mark_duplicates_of fitness_eq p later else later) = later).
  { destruct (is_valid p && negb (_is_duplicated p)) eqn:Ep; [|reflexivity].
    unfold mark_duplicates_of.
    rewrite <- (map_id later) at 2. apply map_ext_in. intros q Hq.
    destruct (is_duplicate fitness_eq p q) eqn:Ed; [|reflexivity].
    rewrite Forall_forall in Hfl, Hlater.
    specialize (Hfl q Hq Ep Ed). specialize (Hlater q Hq). congruence. }
  rewrite E. f_equal. now apply IH.
Qed.

Lemma kept_not_duplicated pop :
  Forall (fun p => _is_duplicated p = false)
         (drop_duplicates_inplace fitness_eq pop).
Proof.
  apply Forall_forall. intros p Hp.
  unfold drop_duplicates_inplace, drop_duplicates in Hp. simpl in Hp.
  apply filter_In in Hp. destruct Hp as [_ Hp].
  unfold not_duplicated in Hp. now destruct (_is_duplicated p).
Qed.

Lemma filter_all_true {A : Type} (f : A -> bool) l :
  Forall (fun a => f a = true) l -> filter f l = l.
Proof.
  induction 1 as [|a l Ha _ IH]; simpl; [reflexivity|].
  now rewrite Ha, IH.
Qed.

(** C9.  [drop_duplicates(inplace=True)] applied to its own outcome gives
    that outcome again, whatever the population was. *)
Theorem drop_duplicates_idempotent (pop : list Program) :
  drop_duplicates_inplace fitness_eq (drop_duplicates_inplace fitness_eq pop)
  = drop_duplicates_inplace fitness_eq pop.
Proof.
  pose proof (kept_not_duplicated pop) as Hflags.
  set (kept := drop_duplicates_inplace fitness_eq pop) in *.
  assert (Hpairs : ForallOrdPairs (flagged_by fitness_eq) kept).
  { apply ForallOrdPairs_filter, mark_from_flagged. lia. }
  unfold drop_duplicates_inplace at 1. unfold drop_duplicates. simpl.
  unfold mark_duplicates.
  rewrite (mark_from_settled _ Hflags Hpairs).
  apply filter_all_true.
  eapply Forall_impl; [|exact Hflags].
  intros p Hp. unfold not_duplicated. now rewrite Hp.
Qed.

End RegistryFacts.

Section SinglePassFacts.
Variable fitness_eq : list (string * Q) -> list (string * Q) -> bool.

Lemma flag_if_met_nil q : flag_if_met fitness_eq [] q = q.
Proof. reflexivity. Qed.

Lemma flag_if_met_raised active q :
  flag_raised q (flag_if_met fitness_eq active q).
Proof.
  unfold flag_if_met.
  destruct (existsb _ active); [now right|now left].
Qed.

Lemma mark_duplicates_of_flag_if_met p active rest :
  mark_duplicates_of fitness_eq p (map (flag_if_met fitness_eq active) rest)
  = map (flag_if_met fitness_eq (p :: active)) rest.
Proof.
  unfold mark_duplicates_of. rewrite map_map. apply map_ext. intros x.
  rewrite (flag_raised_is_duplicate fitness_eq p
             (flag_if_met_raised active x)).
  unfold flag_if_met. simpl.
  destruct (is_duplicate fitness_eq p x); simpl; [|reflexivity].
  now destruct (existsb _ active).
Qed.

(** The nested loops of [drop_duplicates] compute the single sweep. *)
Lemma mark_from_single_pass n active pop :
  (List.length pop <= n)%nat ->
  mark_from fitness_eq n (map (flag_if_met fitness_eq active) pop)
  = single_pass fitness_eq active pop.
Proof.
  revert active pop. induction n as [|n IH]; intros active [|q rest] Hn;
    simpl in *; try reflexivity; try lia.
  f_equal. fold (confronts (flag_if_met fitness_eq active q)).
  destruct (confronts (flag_if_met fitness_eq active q)).
  - rewrite mark_duplicates_of_flag_if_met. apply IH. lia.
  - apply IH. lia.
Qed.

Lemma mark_duplicates_single_pass pop :
  mark_duplicates fitness_eq pop = single_pass fitness_eq [] pop.
Proof.
  unfold mark_duplicates.
  rewrite <- (mark_from_single_pass (List.length pop) [] pop (le_n _)).
  f_equal. rewrite <- (map_id pop) at 1. apply map_ext. reflexivity.
Qed.

(** C5, as the code has it.  [drop_duplicates(inplace=True)] flags a
    program when an earlier program that is valid and not flagged has its
    fitness, and keeps the programs without a flag, in their order, valid or
    not; the programs left once [drop_invalids] has run as well are valid
    and not flagged. *)
Theorem drop_duplicates_keeps_unflagged (pop : list Program) :
  let marked := mark_duplicates fitness_eq pop in
  let kept := drop_duplicates_inplace fitness_eq pop in
  marked = single_pass fitness_eq [] pop /\
  Forall2 flag_raised pop marked /\
  ForallOrdPairs (flagged_by fitness_eq) marked /\
  kept = filter not_duplicated marked /\
  (forall p, In p kept <-> In p marked /\ _is_duplicated p = false) /\
  Forall (fun p => is_valid p = true /\ _is_duplicated p = false)
         (drop_invalids_inplace kept).
Proof.
  intros marked kept. repeat split.
  - apply mark_duplicates_single_pass.
  - apply mark_from_raised.
  - apply mark_from_flagged. lia.
  - unfold kept, drop_duplicates_inplace, drop_duplicates in H. simpl in H.
    now apply filter_In in H.
  - pose proof (kept_not_duplicated fitness_eq pop) as Hk.
    rewrite Forall_forall in Hk. now apply Hk.
  - intros [Hin Hflag]. unfold kept, drop_duplicates_inplace, drop_duplicates.
    simpl. apply filter_In. split; [exact Hin|].
    unfold not_duplicated. now rewrite Hflag.
  - apply Forall_forall. intros p Hp.
    unfold drop_invalids_inplace, drop_invalids in Hp. simpl in Hp.
    apply filter_In in Hp. destruct Hp as [Hin Hv].
    pose proof (kept_not_duplicated fitness_eq pop) as Hk.
    rewrite Forall_forall in Hk. split; [|now apply Hk].
    unfold valid in Hv. now destruct (is_valid p).
Qed.

End SinglePassFacts.

(** Three programs, the second with the fitness of the first: the pass
    flags the second and keeps the other two; a second pass changes
    nothing.  With the first one invalid, nothing is flagged. *)
Example drop_duplicates_example :
  drop_duplicates_inplace identical_fitness
    [prog_a; set_rank 7 prog_a; prog_b] = [prog_a; prog_b] /\
  mark_duplicates identical_fitness [prog_a; set_rank 7 prog_a; prog_b]
  = [prog_a; set_is_duplicated true (set_rank 7 prog_a); prog_b] /\
  drop_duplicates_inplace identical_fitness
    [prog_invalid; set_rank 7 prog_invalid; prog_b]
  = [prog_invalid; set_rank 7 prog_invalid; prog_b].
Proof. repeat split; reflexivity. Qed.

(** C5, as the claim has it, fails: a population of one invalid program is
    kept whole by [drop_duplicates(inplace=True)]; the invalid program
    survives. *)
Lemma drop_duplicates_keeps_invalid :
  drop_duplicates_inplace identical_fitness [prog_invalid] = [prog_invalid] /\
  ~ Forall (fun p => is_valid p = true /\ _is_duplicated p = false)
      (drop_duplicates_inplace identical_fitness [prog_invalid]).
Proof.
  split; [reflexivity|].
  intros H. inversion H as [|? ? [Hv _] _]. discriminate Hv.
Qed.

Example select_and_truncate_example :
  select_and_truncate 2 [prog_b; prog_c; prog_a] = [prog_a; prog_c].
Proof. reflexivity. Qed.

(** The theorem on a population of three programs, two of which are kept. *)
Lemma select_and_truncate_sorted_exact_witness :
  (0 <= 2 <= Z.of_nat (List.length [prog_b; prog_c; prog_a]))%Z /\
  Z.of_nat (List.length (select_and_truncate 2 [prog_b; prog_c; prog_a])) = 2%Z /\
  StronglySorted rank_then_crowding
    (select_and_truncate 2 [prog_b; prog_c; prog_a]).
Proof.
  assert (H : (0 <= 2 <= Z.of_nat (List.length [prog_b; prog_c; prog_a]))%Z)
    by (simpl; lia).
  split; [exact H|].
  destruct (select_and_truncate_sorted_exact 2 [prog_b; prog_c; prog_a] H)
    as (_ & _ & _ & _ & _ & _ & Hlen & Hsorted).
  split; [exact Hlen|exact Hsorted].
Defined.

(** ** The generation loop *)

Lemma lookup_raises {V : Type} k (d : list (string * V)) e :
  lookup k d = Raise e -> e = KeyError.
Proof.
  induction d as [|[k' v] d IH]; simpl; [congruence|].
  destruct (String.eqb k k'); [discriminate|exact IH].
Qed.

Lemma map_result_raises {A B : Type} (f : A -> result B) l e :
  map_result f l = Raise e -> exists a, f a = Raise e.
Proof.
  induction l as [|a l IH]; simpl; [discriminate|].
  destruct (f a) as [b|e'] eqn:Ea.
  - destruct (map_result f l); [discriminate|].
    intros [= ->]. now apply IH.
  - intros [= ->]. now exists a.
Qed.

Section ControllerFacts.
Variable fitness_eq : list (string * Q) -> list (string * Q) -> bool.
Variable env : Collaborators.
Variable generations : Z.
Variable stop_at_convergence : bool.
Variable verbose : Z.

Lemma hypervolume_effect here self r self' :
  hypervolume env here self = (r, self') ->
  match r with
  | Ok hv =>
      self' = set_fpf_hypervolume_history (fpf_hypervolume_history self ++ [hv])
                (set_fpf_hypervolume (Some hv) self)
  | Raise e => self' = self /\ e <> KeyboardInterrupt
  end.
Proof.
  unfold hypervolume. destruct (first_pareto_front self) as [|p0 front].
  - intros [= <- <-]. split; congruence.
  - destruct (map_result _ _) as [refs|e] eqn:Er.
    + destruct (map_result _ (p0 :: front)) as [pts|e] eqn:Ep.
      * destruct (if here then None else pg_hypervolume env pts refs);
          intros [= <- <-]; reflexivity.
      * intros [= <- <-]. split; [reflexivity|].
        apply map_result_raises in Ep. destruct Ep as [p Ep].
        apply map_result_raises in Ep. destruct Ep as [name Ep].
        destruct (lookup name (_fitness_template p)) eqn:El; [discriminate|].
        apply lookup_raises in El. congruence.
    + intros [= <- <-]. split; [reflexivity|].
      apply map_result_raises in Er. destruct Er as [name Er].
      destruct (lookup name (_fitness_template p0)) eqn:El; [discriminate|].
      apply lookup_raises in El. congruence.
Qed.

Variable interrupt : option (Z * Phase).

Lemma run_app body1 body2 self :
  run_statements interrupt (body1 ++ body2) self =
  match run_statements interrupt body1 self with
  | Next self' => run_statements interrupt body2 self'
  | stop => stop
  end.
Proof.
  revert self. induction body1 as [|[ph st] body1 IH]; intros self; simpl;
    [reflexivity|].
  destruct (interrupted interrupt ph self); [reflexivity|].
  destruct (st self); auto.
Qed.

Lemma run_cons ph st body self :
  run_statements interrupt ((ph, st) :: body) self =
  if interrupted interrupt ph self then Throw KeyboardInterrupt self
  else match st self with
       | Next self' => run_statements interrupt body self'
       | stop => stop
       end.
Proof. reflexivity. Qed.

Lemma run_keeps {A : Type} (f : SymbolicRegressor -> A) body self :
  Forall (fun entry => keeps f (snd entry)) body ->
  f (final_state (run_statements interrupt body self)) = f self.
Proof.
  intros H. revert self.
  induction H as [|[ph st] body Hst _ IH]; intros self; simpl; [reflexivity|].
  destruct (interrupted interrupt ph self); [reflexivity|].
  specialize (Hst self). simpl in Hst.
  destruct (st self) as [s'|s'|e s']; simpl in *; try exact Hst.
  rewrite IH. exact Hst.
Qed.

Lemma run_never_returns body self self' :
  Forall (fun entry => never_returns (snd entry)) body ->
  run_statements interrupt body self <> Return self'.
Proof.
  intros H. revert self.
  induction H as [|[ph st] body Hst _ IH]; intros self; simpl; [discriminate|].
  destruct (interrupted interrupt ph self); [discriminate|].
  specialize (Hst self). simpl in Hst.
  destruct (st self) as [s'|s'|e s']; try discriminate; [apply IH|].
  now destruct (Hst s').
Qed.

(** An interrupt that comes out of the body is the scheduled one. *)
Lemma run_interrupt body self self' :
  Forall (fun entry => never_interrupts (snd entry)) body ->
  run_statements interrupt body self = Throw KeyboardInterrupt self' ->
  exists ph, In ph (map fst body) /\ interrupted interrupt ph self' = true.
Proof.
  intros H. revert self.
  induction H as [|[ph st] body Hst _ IH]; intros self; simpl; [discriminate|].
  destruct (interrupted interrupt ph self) eqn:Ei.
  - intros [= <-]. exists ph. auto.
  - specialize (Hst self). simpl in Hst.
    destruct (st self) as [s'|s'|e s'] eqn:Es; try discriminate.
    + intros Hrun. destruct (IH _ Hrun) as (ph' & Hin & Hph'). eauto.
    + intros [= -> ->]. now destruct (Hst self').
Qed.

Lemma interrupted_generation ph self :
  interrupted interrupt ph self = true ->
  exists g, interrupt = Some (g, ph) /\ generation self = Some g.
Proof.
  unfold interrupted. destruct interrupt as [[g ph']|]; [|discriminate].
  destruct (generation self) as [g'|]; [|discriminate].
  intros H. apply andb_true_iff in H. destruct H as [Hg Hph].
  apply Z.eqb_eq in Hg. apply internal_Phase_dec_bl in Hph. subst.
  now exists g'.
Qed.

End ControllerFacts.

(** *** The statements of the loop body, one by one *)

Section StatementFacts.
Variable fitness_eq : list (string * Q) -> list (string * Q) -> bool.
Variable env : Collaborators.
Variable generations : Z.
Variable stop_at_convergence : bool.
Variable verbose : Z.
Variable interrupt : option (Z * Phase).

Lemma generation_body_split :
  generation_body fitness_eq env generations stop_at_convergence verbose
    interrupt =
  selection_body fitness_eq env ++
  (BeforeBestProgram, record_best) ::
  (BeforeReport, report env verbose interrupt) ::
  closing_body env generations stop_at_convergence.
Proof. reflexivity. Qed.

Ltac statement_cases :=
  repeat match goal with
    | |- context [if ?c then _ else _] => destruct c
    | |- context [match ?x with Some _ => _ | None => _ end] => destruct x
    | |- context [match population ?s with _ => _ end] =>
        destruct (population s)
    end; simpl; try reflexivity; try discriminate.

Lemma selection_keeps_ledger :
  Forall (fun entry => keeps ledger (snd entry))
    (selection_body fitness_eq env).
Proof.
  repeat constructor; intros self; simpl;
    unfold refill_population; statement_cases.
Qed.

Lemma closing_keeps_ledger :
  Forall (fun entry => keeps ledger (snd entry))
    (closing_body env generations stop_at_convergence).
Proof.
  repeat constructor; intros self; simpl;
    unfold convergence, budget; statement_cases.
Qed.

Lemma selection_never_returns :
  Forall (fun entry => never_returns (snd entry))
    (selection_body fitness_eq env).
Proof.
  repeat constructor; intros self self'; simpl;
    unfold refill_population; statement_cases.
Qed.

Lemma record_best_ledger self :
  match record_best self with
  | Next self' =>
      ledger self' =
      (generation self,
       S (List.length (best_programs_history self)),
       S (List.length (first_pareto_front_history self)),
       List.length (fpf_hypervolume_history self))
  | Return _ => False
  | Throw e self' => self' = self /\ e <> KeyboardInterrupt
  end.
Proof.
  unfold record_best. destruct (population self); [split; congruence|].
  unfold ledger. simpl. rewrite !length_app. simpl.
  now rewrite !Nat.add_1_r.
Qed.

Lemma report_ledger self :
  match report env verbose interrupt self with
  | Next self' =>
      ledger self' =
      (generation self,
       List.length (best_programs_history self),
       List.length (first_pareto_front_history self),
       (List.length (fpf_hypervolume_history self) +
        hypervolume_entries verbose)%nat)
      /\ population self' = population self
  | Return _ => False
  | Throw e self' => self' = self /\ e <> KeyboardInterrupt
  end.
Proof.
  unfold report, hypervolume_entries. destruct (verbose >? 1)%Z.
  - destruct (hypervolume env _ self) as [r self'] eqn:E.
    apply hypervolume_effect in E. destruct r as [hv|e]; [|exact E].
    subst self'. unfold ledger. simpl. now rewrite length_app.
  - unfold ledger. now rewrite Nat.add_0_r.
Qed.

Lemma body_never_interrupts :
  Forall (fun entry => never_interrupts (snd entry))
    (generation_body fitness_eq env generations stop_at_convergence verbose
    interrupt).
Proof.
  repeat constructor; intros self self'; simpl;
    try (unfold refill_population, convergence, budget;
         statement_cases; fail).
  - pose proof (record_best_ledger self) as H.
    destruct (record_best self); try discriminate.
    intros [= -> ->]. now destruct H.
  - pose proof (report_ledger self) as H.
    destruct (report env verbose interrupt self); try discriminate.
    intros [= -> ->]. now destruct H.
Qed.

Lemma body_keeps_generation :
  Forall (fun entry => keeps generation (snd entry))
    (generation_body fitness_eq env generations stop_at_convergence verbose
    interrupt).
Proof.
  repeat constructor; intros self; simpl;
    try (unfold refill_population, convergence, budget;
         statement_cases; fail).
  - pose proof (record_best_ledger self) as H.
    destruct (record_best self); simpl; [|easy|now destruct H as [-> _]].
    unfold ledger in H. congruence.
  - pose proof (report_ledger self) as H.
    destruct (report env verbose interrupt self); simpl; [|easy|now destruct H as [-> _]].
    destruct H as [H _]. unfold ledger in H. congruence.
Qed.

End StatementFacts.

(** *** One generation, then all of them *)

Section LoopFacts.
Variable fitness_eq : list (string * Q) -> list (string * Q) -> bool.
Variable env : Collaborators.
Variable generations : Z.
Variable stop_at_convergence : bool.
Variable verbose : Z.
Variable interrupt : option (Z * Phase).

Lemma closing_next self self' :
  run_statements interrupt (closing_body env generations stop_at_convergence)
    self = Next self' ->
  (generations >? 0)%Z &&
  match generation self with
  | Some g => (g =? generations)%Z
  | None => false
  end = false.
Proof.
  unfold closing_body, run_statements, convergence, checkpoint, budget,
    add_elapsed.
  destruct (interrupted interrupt BeforeConvergence self); [discriminate|].
  destruct (best_program self) as [best|]; [|discriminate].
  destruct (converged best).
  - destruct stop_at_convergence; [discriminate|].
    set (self1 := if truthy_int (converged_generation self) then self
                  else set_converged_generation (generation self) self).
    assert (Hg : generation self1 = generation self)
      by (unfold self1; now destruct (truthy_int _)).
    destruct (interrupted interrupt BeforeCheckpoint self1); [discriminate|].
    destruct (interrupted interrupt BeforeBudget self1); [discriminate|].
    rewrite Hg.
    destruct ((generations >? 0)%Z && _); [discriminate|reflexivity].
  - destruct (interrupted interrupt BeforeCheckpoint self); [discriminate|].
    destruct (interrupted interrupt BeforeBudget self); [discriminate|].
    destruct ((generations >? 0)%Z && _); [discriminate|reflexivity].
Qed.

(** A turn of the loop either stops at the guard, leaving the histories
    alone, or runs a generation through: then the counter is one more, the
    two histories of programs have one entry more each, and the hypervolume
    history has as many more as the report appends. *)
Lemma iteration_ledger self g b f h :
  ledger self = (Some g, b, f, h) ->
  let completed self' :=
    ledger self' =
    (Some (g + 1)%Z, S b, S f, (h + hypervolume_entries verbose)%nat) in
  match
    iteration fitness_eq env generations stop_at_convergence verbose
      interrupt self
  with
  | Next self' =>
      completed self' /\ ((0 < generations)%Z -> (g + 1 < generations)%Z)
  | Return self' => ledger self' = (Some g, b, f, h) \/ completed self'
  | Throw _ _ => True
  end.
Proof.
  intros Hl completed. unfold iteration, begin_generation.
  assert (Hg : generation self = Some g) by (unfold ledger in Hl; congruence).
  rewrite Hg.
  destruct ((generations >? 0)%Z && (g >=? generations)%Z) eqn:Eguard;
    [left; exact Hl|].
  set (self1 := set_status "Generating offspring"
                  (set_generation (Some (g + 1)%Z) self)).
  assert (H1 : ledger self1 = (Some (g + 1)%Z, b, f, h))
    by (unfold ledger in *; simpl; congruence).
  rewrite generation_body_split, run_app.
  pose proof (run_keeps interrupt ledger _ self1
                (selection_keeps_ledger fitness_eq env)) as H2.
  pose proof (fun s => run_never_returns interrupt _ self1 s
                (selection_never_returns fitness_eq env)) as Hnr.
  destruct (run_statements interrupt (selection_body fitness_eq env) self1)
    as [self2|self2|e self2]; [|now destruct (Hnr self2)|exact I].
  simpl in H2. rewrite H1 in H2. clear Hnr.
  rewrite run_cons.
  destruct (interrupted interrupt BeforeBestProgram self2); [exact I|].
  pose proof (record_best_ledger self2) as H3.
  destruct (record_best self2) as [self3|self3|e self3];
    [|destruct H3|exact I].
  assert (H3' : ledger self3 = (Some (g + 1)%Z, S b, S f, h))
    by (unfold ledger in *; congruence).
  clear H3. rewrite run_cons.
  destruct (interrupted interrupt BeforeReport self3); [exact I|].
  pose proof (report_ledger env verbose interrupt self3) as H4.
  destruct (report env verbose interrupt self3) as [self4|self4|e self4];
    [|destruct H4|exact I].
  destruct H4 as [H4 _].
  assert (H4' : completed self4) by (unfold completed, ledger in *; congruence).
  clear H4.
  pose proof (run_keeps interrupt ledger _ self4
                (closing_keeps_ledger env generations stop_at_convergence))
    as H5.
  pose proof (closing_next self4) as H6.
  destruct (run_statements interrupt
              (closing_body env generations stop_at_convergence) self4)
    as [self5|self5|e self5]; simpl in H5.
  - split; [unfold completed in *; congruence|].
    specialize (H6 self5 eq_refl).
    assert (Hg4 : generation self4 = Some (g + 1)%Z)
      by (unfold completed, ledger in H4'; congruence).
    rewrite Hg4 in H6. lia.
  - right. unfold completed in *. congruence.
  - exact I.
Qed.

Lemma generations_loop_ledger fuel : forall self g b f h final,
  ledger self = (Some g, b, f, h) ->
  generations_loop fitness_eq env generations stop_at_convergence verbose
    interrupt fuel self = Some (Ok tt, final) ->
  exists k : nat,
    ledger final =
    (Some (g + Z.of_nat k)%Z, (b + k)%nat, (f + k)%nat,
     (h + k * hypervolume_entries verbose)%nat).
Proof.
  induction fuel as [|fuel IH]; intros self g b f h final Hl; simpl;
    [discriminate|].
  pose proof (iteration_ledger self _ _ _ _ Hl) as Hit. simpl in Hit.
  destruct (iteration fitness_eq env generations stop_at_convergence verbose
              interrupt self) as [self'|self'|e self'].
  - intros Hrun. destruct Hit as [Hit _].
    destruct (IH _ _ _ _ _ _ Hit Hrun) as [k Hk].
    exists (S k). rewrite Hk. repeat (f_equal; try lia).
  - intros [= <-]. destruct Hit as [Hit|Hit].
    + exists 0%nat. rewrite Hit. repeat (f_equal; try lia).
    + exists 1%nat. rewrite Hit. repeat (f_equal; try lia).
  - discriminate.
Qed.

(** With a budget, the loop comes to an end: as many turns as generations
    are left, and one more, are enough. *)
Lemma generations_loop_terminates fuel : forall self g,
  generation self = Some g ->
  (0 < generations)%Z ->
  (Z.max 0 (generations - g) < Z.of_nat fuel)%Z ->
  generations_loop fitness_eq env generations stop_at_convergence verbose
    interrupt fuel self <> None.
Proof.
  induction fuel as [|fuel IH]; intros self g Hg Hpos Hfuel; simpl.
  - lia.
  - assert (Hl : ledger self =
                 (Some g, List.length (best_programs_history self),
                  List.length (first_pareto_front_history self),
                  List.length (fpf_hypervolume_history self)))
      by (unfold ledger; now rewrite Hg).
    pose proof (iteration_ledger self _ _ _ _ Hl) as Hit. simpl in Hit.
    pose proof (fun s => IH s (g + 1)%Z) as IH'.
    unfold iteration, begin_generation in *. rewrite Hg in *.
    destruct ((generations >? 0)%Z && (g >=? generations)%Z) eqn:Eguard;
      [discriminate|].
    destruct (run_statements _ _ _) as [self'|self'|e self'];
      try discriminate.
    destruct Hit as [Hit Hlt]. apply IH'; try lia.
    unfold ledger in Hit. congruence.
Qed.

End LoopFacts.

(** *** Interrupts *)

Section InterruptFacts.
Variable fitness_eq : list (string * Q) -> list (string * Q) -> bool.
Variable env : Collaborators.
Variable generations : Z.
Variable stop_at_convergence : bool.
Variable verbose : Z.
Variable interrupt : option (Z * Phase).

Lemma iteration_interrupt self at_ :
  iteration fitness_eq env generations stop_at_convergence verbose interrupt
    self = Throw KeyboardInterrupt at_ ->
  exists g ph, interrupt = Some (g, ph) /\ generation at_ = Some g.
Proof.
  unfold iteration, begin_generation.
  destruct (generation self) as [g0|]; [|discriminate].
  destruct ((generations >? 0)%Z && (g0 >=? generations)%Z); [discriminate|].
  intros Hrun.
  apply run_interrupt in Hrun; [|apply body_never_interrupts].
  destruct Hrun as (ph & _ & Hph).
  apply interrupted_generation in Hph. destruct Hph as (g & Hi & Hg).
  now exists g, ph.
Qed.

Lemma generations_loop_interrupt fuel : forall self at_,
  generations_loop fitness_eq env generations stop_at_convergence verbose
    interrupt fuel self = Some (Raise KeyboardInterrupt, at_) ->
  exists g ph, interrupt = Some (g, ph) /\ generation at_ = Some g.
Proof.
  induction fuel as [|fuel IH]; intros self at_; simpl; [discriminate|].
  destruct (iteration fitness_eq env generations stop_at_convergence verbose
              interrupt self) as [self'|self'|e self'] eqn:Eit.
  - apply IH.
  - discriminate.
  - intros [= -> ->]. now apply iteration_interrupt in Eit.
Qed.

End InterruptFacts.

(** An interrupt that arrives while the offspring are generated finds the
    population of the start of the generation. *)
Lemma iteration_interrupt_before_merge
    fitness_eq env generations stop_at_convergence verbose g self at_ :
  iteration fitness_eq env generations stop_at_convergence verbose
    (Some (g, DuringOffspring)) self = Throw KeyboardInterrupt at_ ->
  population at_ = population self.
Proof.
  unfold iteration, begin_generation.
  destruct (generation self) as [g0|]; [|discriminate].
  destruct ((generations >? 0)%Z && (g0 >=? generations)%Z); [discriminate|].
  unfold generation_body. rewrite run_cons.
  destruct (interrupted _ DuringOffspring _); [now intros [= <-]|].
  unfold merge_offspring at 1. intros Hrun.
  apply run_interrupt in Hrun.
  - destruct Hrun as (ph & Hin & Hph).
    apply interrupted_generation in Hph. destruct Hph as (g' & Hi & _).
    injection Hi as _ <-. simpl in Hin.
    repeat (destruct Hin as [Hin|Hin]; [discriminate Hin|]).
    contradiction.
  - pose proof (body_never_interrupts fitness_eq env generations
                  stop_at_convergence verbose (Some (g, DuringOffspring)))
      as H.
    exact (Forall_inv_tail H).
Qed.

(** C4, as the code has it.  A run whose loop is interrupted in generation
    [g] is caught by [fit], which returns normally with the counter at
    [g - 1], the status of an interrupted run and the training duration
    recorded; every other attribute, the population included, is left as
    the interrupt found it.  The population it finds is the one the last
    selection left only while the offspring are being generated. *)
Theorem fit_interrupt_handled
    fitness_eq env generations stop_at_convergence verbose
    (g : Z) (ph : Phase) (fuel : nat) (self at_ : SymbolicRegressor) :
  _fit fitness_eq env generations stop_at_convergence verbose
    (Some (g, ph)) fuel
    (if truthy_int (generation self) then self
     else set_generation (Some 0%Z) self)
  = Some (Raise KeyboardInterrupt, at_) ->
  generation at_ = Some g /\
  (exists final,
     fit fitness_eq env generations stop_at_convergence verbose
       (Some (g, ph)) fuel self = Some (Ok tt, final) /\
     generation final = Some (g - 1)%Z /\
     status final = "Interrupted by KeyboardInterrupt"%string /\
     training_duration final = Some (fit_seconds env) /\
     population final = population at_ /\
     best_program final = best_program at_ /\
     best_programs_history final = best_programs_history at_ /\
     first_pareto_front_history final = first_pareto_front_history at_ /\
     fpf_hypervolume_history final = fpf_hypervolume_history at_) /\
  (forall before during,
     iteration fitness_eq env generations stop_at_convergence verbose
       (Some (g, DuringOffspring)) before = Throw KeyboardInterrupt during ->
     population during = population before).
Proof.
  intros Hrun.
  assert (Hg : generation at_ = Some g).
  { unfold _fit in Hrun. apply generations_loop_interrupt in Hrun.
    destruct Hrun as (g' & ph' & Hi & Hg). congruence. }
  split; [exact Hg|]. split.
  - eexists. unfold fit. rewrite Hrun. split; [reflexivity|].
    unfold current_generation. rewrite Hg. repeat split.
  - intros before during. apply iteration_interrupt_before_merge.
Qed.

(** A call with a budget returns: on a new regressor, one turn more than
    the budget is enough, interrupted or not. *)
Lemma fit_new_regressor_returns
    fitness_eq env generations stop_at_convergence verbose interrupt
    checkpoint_file_ checkpoint_frequency_ population_size_ :
  (0 < generations)%Z ->
  fit fitness_eq env generations stop_at_convergence verbose interrupt
    (S (Z.to_nat generations))
    (new_regressor checkpoint_file_ checkpoint_frequency_ population_size_)
  <> None.
Proof.
  intros Hpos. unfold fit, _fit. simpl truthy_int. cbv iota.
  match goal with
  | |- context [generations_loop ?f ?e ?g ?s ?v ?i ?fuel ?self] =>
      pose proof (generations_loop_terminates f e g s v i fuel self 0%Z)
        as Hloop;
      destruct (generations_loop f e g s v i fuel self)
        as [[[[]|[]] self']|]; try discriminate
  end.
  apply Hloop; [|exact Hpos|lia].
  unfold initialize_population. simpl. now destruct (Z.to_nat _).
Qed.

(** C6, as the code has it.  A call of [fit] on a new regressor that
    returns without an interrupt has completed as many generations as its
    counter says; the history of best programs and the history of first
    fronts have that many entries; the hypervolume history has that many
    when [verbose > 1] and none otherwise. *)
Theorem fit_history_entries
    fitness_eq env generations stop_at_convergence verbose
    (fuel : nat) checkpoint_file_ checkpoint_frequency_ population_size_
    (final : SymbolicRegressor) :
  fit fitness_eq env generations stop_at_convergence verbose None fuel
    (new_regressor checkpoint_file_ checkpoint_frequency_ population_size_)
  = Some (Ok tt, final) ->
  exists G : nat,
    generation final = Some (Z.of_nat G) /\
    List.length (best_programs_history final) = G /\
    List.length (first_pareto_front_history final) = G /\
    List.length (fpf_hypervolume_history final) =
      if (verbose >? 1)%Z then G else 0%nat.
Proof.
  unfold fit, _fit. simpl truthy_int. cbv iota.
  destruct (generations_loop _ _ _ _ _ _ _ _) as [[[[]|e] self']|] eqn:Eloop;
    try discriminate.
  - intros [= <-].
    apply generations_loop_ledger with (g := 0%Z) (b := 0%nat) (f := 0%nat)
                                       (h := 0%nat) in Eloop.
    + destruct Eloop as [k Hk]. exists k. unfold ledger in Hk.
      injection Hk as Hg Hb Hf Hh. simpl.
      rewrite Hg, Hb, Hf, Hh. unfold hypervolume_entries.
      repeat split. destruct (verbose >? 1)%Z; lia.
    + unfold initialize_population. simpl. now destruct (Z.to_nat _).
  - destruct e; try discriminate.
    apply generations_loop_interrupt in Eloop.
    destruct Eloop as (g & ph & Hi & _). discriminate.
Qed.

(** The theorem on the call [fit(generations=2)] interrupted in its second
    generation, after the refill. *)
Lemma fit_interrupt_handled_witness :
  _fit identical_fitness example_env 2 true 0
    (Some (2%Z, BeforeParetoFront)) 3
    (set_generation (Some 0%Z) (new_regressor None (-1) 1))
  = Some (Raise KeyboardInterrupt, example_interrupted_at) /\
  generation example_interrupted_at = Some 2%Z.
Proof.
  assert (H : _fit identical_fitness example_env 2 true 0
                (Some (2%Z, BeforeParetoFront)) 3
                (set_generation (Some 0%Z) (new_regressor None (-1) 1))
              = Some (Raise KeyboardInterrupt, example_interrupted_at))
    by (vm_compute; reflexivity).
  split; [exact H|].
  exact (proj1 (fit_interrupt_handled identical_fitness example_env 2 true 0
                  2 BeforeParetoFront 3 (new_regressor None (-1) 1)
                  example_interrupted_at H)).
Defined.

(** C4, as the claim has it, fails.  [fit(generations=2)] on a new
    regressor of size 1, interrupted in generation 2 once the population has
    been refilled: the call returns with the counter at 1 and a population
    of two programs, the survivor of generation 1 and a program that no
    selection has seen; interrupted while the offspring are generated, it
    returns the survivor alone. *)
Lemma interrupted_population_not_selected :
  outcome_summary (example_fit (Some (2%Z, DuringOffspring))) =
    Some (Ok tt, Some 1%Z, "Interrupted by KeyboardInterrupt"%string,
          [example_selected]) /\
  outcome_summary (example_fit (Some (2%Z, BeforeParetoFront))) =
    Some (Ok tt, Some 1%Z, "Interrupted by KeyboardInterrupt"%string,
          [example_selected; example_refilled]) /\
  [example_selected; example_refilled] <> [example_selected].
Proof.
  split; [vm_compute; reflexivity|].
  split; [vm_compute; reflexivity|discriminate].
Qed.

(** An interrupt that arrives while pygmo computes, in generation 1 of a
    call with [verbose=2], does not reach [fit]: the property records 0 and
    the call runs its two generations. *)
Example interrupt_during_hypervolume_swallowed :
  hypervolume_summary (example_fit_verbose None) =
    Some (Ok tt, Some 2%Z, "Terminated: generations completed"%string,
          [5%Q; 5%Q]) /\
  hypervolume_summary (example_fit_verbose (Some (1%Z, DuringHypervolume))) =
    Some (Ok tt, Some 2%Z, "Terminated: generations completed"%string,
          [0%Q; 5%Q]).
Proof. split; vm_compute; reflexivity. Qed.

(** The theorem on the call [fit(generations=2, verbose=0)]. *)
Lemma fit_history_entries_witness :
  fit identical_fitness example_env 2 true 0 None 3
    (new_regressor None (-1) 1) = Some (Ok tt, example_final) /\
  exists G : nat,
    generation example_final = Some (Z.of_nat G) /\
    List.length (best_programs_history example_final) = G /\
    List.length (first_pareto_front_history example_final) = G /\
    List.length (fpf_hypervolume_history example_final) =
      if (0 >? 1)%Z then G else 0%nat.
Proof.
  assert (H : fit identical_fitness example_env 2 true 0 None 3
                (new_regressor None (-1) 1) = Some (Ok tt, example_final))
    by (vm_compute; reflexivity).
  split; [exact H|].
  exact (fit_history_entries identical_fitness example_env 2 true 0 3
           None (-1) 1 example_final H).
Defined.

(** The failing input of C6: two generations completed with [verbose=0]
    leave two entries in each history of programs and none in the
    hypervolume history. *)
Lemma hypervolume_history_not_appended :
  history_summary (example_fit None) =
    Some (Ok tt, Some 2%Z, 2%nat, 2%nat, 0%nat).
Proof. vm_compute. reflexivity. Qed.

(** ** The update rules of [SGD] and [ADAM] *)

Section UpdateRules.
Import Optimization.
Local Open Scope R_scope.

Lemma sqrt_square_abs (x : R) : R_sqrt.sqrt (x ^ 2) = Rabs x.
Proof.
  replace (x ^ 2) with (Rsqr x) by (unfold Rsqr; ring).
  apply sqrt_Rsqr_abs.
Qed.

Lemma clip_gradient_length clip (g : list R) :
  List.length (clip_gradient clip g) = List.length g.
Proof.
  unfold clip_gradient. destruct (clip && _); [apply length_map|reflexivity].
Qed.





End UpdateRules.

(** ** The optimizers: early exits and exceptions *)

Section OptimizerFacts.
Import Optimization.
Context {F G : Type} `{Numeric F} `{Random F G}.

Lemma mbind_ok {A B : Type} {c : M G A} (k : A -> M G B) {w a w'} :
  c w = (Ok a, w') -> mbind c k w = k a w'.
Proof. unfold mbind. now intros ->. Qed.

Lemma mbind_raise {A B : Type} {c : M G A} (k : A -> M G B) {w e w'} :
  c w = (Raise e, w') -> mbind c k w = (Raise e, w').
Proof. unfold mbind. now intros ->. Qed.

Lemma mbind_inv {A B : Type} (c : M G A) (k : A -> M G B) w b w' :
  mbind c k w = (Ok b, w') ->
  exists a w1, c w = (Ok a, w1) /\ k a w1 = (Ok b, w').
Proof.
  unfold mbind. destruct (c w) as [[a|e] w1]; [|discriminate].
  intros Hk. now exists a, w1.
Qed.

Lemma item_some {A : Type} {field : option A} (w : World G) :
  field <> None -> exists a, field = Some a /\ item field w = (Ok a, w).
Proof. destruct field as [a|]; [now exists a|congruence]. Qed.

(** The two guards come before anything else in the setup. *)
Lemma setup_early (program : Program F) data target weights batch_size_
    (w : World G) :
  is_valid program = false \/ get_constants program = [] ->
  setup program data target weights batch_size_ w = (Ok None, w).
Proof.
  unfold setup. intros [Hv|Hc].
  - now rewrite Hv.
  - destruct (is_valid program); [|reflexivity]. now rewrite Hc.
Qed.

Lemma setup2_early (program : Program F) data target weights batch_size_
    (w : World G) :
  is_valid program = false \/ get_constants program = [] ->
  setup2 program data target weights batch_size_ w = (Ok None, w).
Proof.
  unfold setup2. intros [Hv|Hc].
  - now rewrite Hv.
  - destruct (is_valid program); [|reflexivity]. now rewrite Hc.
Qed.

(** C2.  When the program is invalid or has no constant, each optimizer,
    given a configuration with the keys it indexes, returns the empty
    results and leaves the world as it found it: no column of the data
    frame is read, no derivative is taken, nothing is compiled, no random
    number is drawn. *)
Theorem optimizers_return_empty_early
    (program : Program F) (data : DataFrame F)
    (target : string) (weights : option string)
    (targets weights2 : list string) (conf : Conf F) (task : string)
    (w : World G) :
  is_valid program = false \/ get_constants program = [] ->
  (sgd_keys conf ->
   SGD program data target weights conf task w = (Ok empty_results, w)) /\
  (adam_keys conf ->
   ADAM program data target weights conf task w = (Ok empty_results, w) /\
   ADAM2FOLD program data targets weights2 conf task w
   = (Ok empty_results, w)).
Proof.
  intros Hearly. split.
  - intros (Hlr & Hbs & Hep).
    destruct (item_some w Hlr) as (lr & _ & Elr).
    destruct (item_some w Hbs) as (bs & _ & Ebs).
    destruct (item_some w Hep) as (ep & _ & Eep).
    unfold SGD.
    rewrite (mbind_ok _ Elr), (mbind_ok _ Ebs), (mbind_ok _ Eep).
    now rewrite (mbind_ok _ (setup_early program data target weights bs w
                                   Hearly)).
  - intros ((Hlr & Hbs & Hep) & Hclip & Hb1 & Hb2 & Heps).
    destruct (item_some w Hlr) as (lr & _ & Elr).
    destruct (item_some w Hbs) as (bs & _ & Ebs).
    destruct (item_some w Hep) as (ep & _ & Eep).
    destruct (item_some w Hclip) as (clip & _ & Eclip).
    destruct (item_some w Hb1) as (b1 & _ & Eb1).
    destruct (item_some w Hb2) as (b2 & _ & Eb2).
    destruct (item_some w Heps) as (eps & _ & Eeps).
    unfold ADAM, ADAM2FOLD.
    rewrite !(mbind_ok _ Elr), !(mbind_ok _ Ebs),
      !(mbind_ok _ Eep), !(mbind_ok _ Eclip), !(mbind_ok _ Eb1),
      !(mbind_ok _ Eb2), !(mbind_ok _ Eeps).
    rewrite (mbind_ok _ (setup_early program data target weights bs w
                               Hearly)).
    now rewrite (mbind_ok _ (setup2_early program data targets weights2
                                   bs w Hearly)).
Qed.

(** *** The first batch *)

Lemma take_sections_length {A : Type} sizes (a : list A) :
  List.length (take_sections sizes a) = List.length sizes.
Proof.
  revert a. induction sizes as [|k sizes IH]; intros a; simpl;
    [reflexivity|now rewrite IH].
Qed.

Lemma array_split_ok {A : Type} (a : list A) n (w : World G) parts w' :
  array_split a n w = (Ok parts, w') ->
  w' = w /\ (0 < n)%Z /\ List.length parts = Z.to_nat n.
Proof.
  unfold array_split. destruct (Z.leb_spec n 0); [discriminate|].
  intros [= <- <-]. split; [reflexivity|]. split; [assumption|].
  rewrite take_sections_length, length_app, !repeat_length.
  assert (Hlt : (List.length a mod Z.to_nat n < Z.to_nat n)%nat)
    by (apply Nat.mod_upper_bound; lia).
  lia.
Qed.


Lemma setup2_ok (program : Program F) data target weights batch_size_
    (w : World G) b w' :
  setup2 program data target weights batch_size_ w = (Ok (Some b), w') ->
  is_valid program = true /\ get_constants program <> [] /\
  n_features b = List.length (features program) /\
  X_batch b <> [] /\ y_batch b <> [] /\ w_batch b <> [] /\
  y2_batch b <> [] /\ w2_batch b <> [].
Proof.
  unfold setup2. destruct (is_valid program); [|discriminate]. simpl.
  destruct (get_constants program) as [|c cs]; [discriminate|]. simpl.
  intros Hs.
  apply mbind_inv in Hs. destruct Hs as (t0 & w1 & _ & Hs).
  apply mbind_inv in Hs. destruct Hs as (y1 & w2 & _ & Hs).
  apply mbind_inv in Hs. destruct Hs as (t1 & w3 & _ & Hs).
  apply mbind_inv in Hs. destruct Hs as (y2 & w4 & _ & Hs).
  apply mbind_inv in Hs. destruct Hs as (X_data & w5 & _ & Hs).
  apply mbind_inv in Hs. destruct Hs as (ww & w6 & _ & Hs).
  apply mbind_inv in Hs. destruct Hs as ([cc|] & w7 & _ & Hs);
    [|discriminate].
  apply mbind_inv in Hs. destruct Hs as (n & w8 & _ & Hs).
  apply mbind_inv in Hs. destruct Hs as (Xb & w9 & HX & Hs).
  apply mbind_inv in Hs. destruct Hs as (y1b & w10 & Hy1 & Hs).
  apply mbind_inv in Hs. destruct Hs as (y2b & w11 & Hy2 & Hs).
  apply mbind_inv in Hs. destruct Hs as (w1b & w12 & Hw1 & Hs).
  apply mbind_inv in Hs. destruct Hs as (w2b & w13 & Hw2 & Hs).
  injection Hs as <- <-. simpl.
  apply array_split_ok in HX, Hy1, Hy2, Hw1, Hw2.
  destruct HX as (_ & Hn & HX), Hy1 as (_ & _ & Hy1), Hy2 as (_ & _ & Hy2),
    Hw1 as (_ & _ & Hw1), Hw2 as (_ & _ & Hw2).
  repeat split; try discriminate;
    intros ->; simpl in *; lia.
Qed.


(** An exception in the first batch is the outcome of the loops. *)
Lemma epochs_loop_first_batch
    (batch : nat -> @Locals F -> M G (@Locals F))
    n_batches epochs_ s loss log (w : World G) e w' :
  (0 < n_batches)%nat -> (0 < epochs_)%nat ->
  batch 0%nat s w = (Raise e, w') ->
  epochs_loop batch n_batches epochs_ s loss log w = (Raise e, w').
Proof.
  intros Hn He Hb.
  destruct epochs_ as [|remaining]; [lia|].
  destruct n_batches as [|n]; [lia|].
  simpl. apply mbind_raise. now apply mbind_raise.
Qed.

Lemma nth_batch_first {A : Type} {l : list (list A)} (w : World G) :
  l <> [] -> exists x, nth_batch l 0 w = (Ok x, w).
Proof. destruct l as [|x l]; [congruence|now exists x]. Qed.

Lemma split_features_ok {n} (w : World G) :
  (0 < n)%nat -> split_features n w = (Ok tt, w).
Proof. destruct n; [lia|reflexivity]. Qed.



Lemma adam2fold_first_batch task clip lr b1 b2 eps b constants_
    (w : World G) :
  (0 < n_features b)%nat -> constants_ <> [] ->
  X_batch b <> [] -> y_batch b <> [] -> w_batch b <> [] ->
  y2_batch b <> [] -> w2_batch b <> [] ->
  adam2fold_batch task clip lr b1 b2 eps b 0 (initial_locals constants_) w
  = (Raise (if String.eqb task "regression:wmse"
            then TypeError else UnboundLocalError),
     after_uniform w).
Proof.
  intros Hf Hc HX Hy Hw Hy2 Hw2. unfold adam2fold_batch.
  unfold mbind at 1. unfold tell at 1. unfold mbind at 1.
  cbn [rng events].
  destruct (uniform (rng w) samples) as [lambda1 g] eqn:Eu.
  change {| rng := g; events := events w ++ [RandomUniform] |}
    with {| rng := snd (lambda1, g); events := events w ++ [RandomUniform] |}.
  rewrite <- Eu. fold (after_uniform w). set (w1 := after_uniform w).
  destruct (nth_batch_first w1 HX) as (X & EX).
  destruct (nth_batch_first w1 Hy) as (y & Ey).
  destruct (nth_batch_first w1 Hw) as (wt & Ew).
  destruct (nth_batch_first w1 Hy2) as (y2 & Ey2).
  destruct (nth_batch_first w1 Hw2) as (wt2 & Ew2).
  rewrite (mbind_ok _ EX), (mbind_ok _ (split_features_ok w1 Hf)),
    (mbind_ok _ Ey).
  destruct (String.eqb task "regression:wmse").
  - apply mbind_raise.
    rewrite (mbind_ok _ Ew), (mbind_ok _ Ew2), (mbind_ok _ Ey2).
    apply mbind_raise. unfold gradients. simpl.
    destruct constants_ as [|c cs]; [congruence|]. reflexivity.
  - reflexivity.
Qed.

Lemma nonempty_length {A : Type} (l : list A) :
  l <> [] -> (0 < List.length l)%nat.
Proof. destruct l; [congruence|simpl; lia]. Qed.


(** C3, as the code has it.  A call of [ADAM2FOLD] for [regression:wmse]
    that reaches its batch loop computes the blended loss of the first
    batch and then raises [TypeError] where it builds the gradient: the
    array of weights is called.  No update of the constants is made. *)
Theorem adam2fold_wmse_raises_type_error
    (program : Program F) (data : DataFrame F)
    (targets weights2 : list string) (conf : Conf F)
    (bs ep : Z) (w : World G) b w' :
  adam_keys conf ->
  batch_size conf = Some bs -> epochs conf = Some ep -> (0 < ep)%Z ->
  features program <> [] ->
  setup2 program data targets weights2 bs w = (Ok (Some b), w') ->
  ADAM2FOLD program data targets weights2 conf "regression:wmse" w
  = (Raise TypeError, after_uniform w').
Proof.
  intros ((Hlr & _ & _) & Hclip & Hb1 & Hb2 & Heps) Hbs Hep Hpos Hfeat Hsetup.
  assert (Eep : (0 < Z.to_nat ep)%nat) by lia.
  apply nonempty_length in Hfeat.
  destruct (item_some w Hlr) as (lr & _ & Elr).
  destruct (item_some w Hclip) as (clip & _ & Eclip).
  destruct (item_some w Hb1) as (b1 & _ & Eb1).
  destruct (item_some w Hb2) as (b2 & _ & Eb2).
  destruct (item_some w Heps) as (eps & _ & Eeps).
  unfold ADAM2FOLD. rewrite (mbind_ok _ Elr), Hbs, Hep. simpl item.
  unfold mbind at 1. unfold ret at 1. unfold mbind at 1. unfold ret at 1.
  rewrite (mbind_ok _ Eclip), (mbind_ok _ Eb1), (mbind_ok _ Eb2),
    (mbind_ok _ Eeps), (mbind_ok _ Hsetup).
  destruct (setup2_ok _ _ _ _ _ _ _ _ Hsetup)
    as (_ & Hc & Hn & HX & Hy & Hw & Hy2 & Hw2).
  apply epochs_loop_first_batch;
    [now apply nonempty_length|exact Eep|].
  rewrite adam2fold_first_batch; try assumption; [|now rewrite Hn].
  reflexivity.
Qed.

End OptimizerFacts.

(** *** The optimizers on concrete calls *)

Section OptimizerWitnesses.
Import Optimization OptimizerExamples.

Lemma example_conf_keys : adam_keys example_conf.
Proof. unfold adam_keys, sgd_keys. simpl. repeat split; discriminate. Qed.

(** The theorem on an invalid program. *)
Lemma optimizers_return_empty_early_witness :
  (is_valid invalid_program = false \/ get_constants invalid_program = []) /\
  sgd_keys example_conf /\ adam_keys example_conf /\
  SGD invalid_program example_data "y" None example_conf "regression:wmse"
    fresh_world = (Ok empty_results, fresh_world) /\
  ADAM invalid_program example_data "y" None example_conf "regression:wmse"
    fresh_world = (Ok empty_results, fresh_world) /\
  ADAM2FOLD invalid_program example_data ["y"; "z"]%string [] example_conf
    "regression:wmse" fresh_world = (Ok empty_results, fresh_world).
Proof.
  assert (Hearly : is_valid invalid_program = false \/
                   get_constants invalid_program = []) by (left; reflexivity).
  assert (Hsgd : sgd_keys example_conf) by apply example_conf_keys.
  assert (Hadam : adam_keys example_conf) by apply example_conf_keys.
  destruct (optimizers_return_empty_early invalid_program example_data
              "y" None ["y"; "z"]%string [] example_conf "regression:wmse"
              fresh_world Hearly) as [Hs Ha].
  split; [exact Hearly|]. split; [exact Hsgd|]. split; [exact Hadam|].
  split; [exact (Hs Hsgd)|exact (Ha Hadam)].
Defined.


(** The keys are read before the guards: without [learning_rate] an
    invalid program does not get as far as the early return. *)
Example missing_key_raises_before_guard :
  SGD invalid_program example_data "y" None
    {| learning_rate := None; batch_size := Some 1%Z; epochs := Some 1%Z;
       gradient_clip := None; l1_param := None; l2_param := None;
       beta_1 := None; beta_2 := None; epsilon := None |}
    "regression:wmse" fresh_world
  = (Raise KeyError, fresh_world).
Proof. reflexivity. Qed.



(** The theorem on the program [c0 * x] and the targets [y] and [z]. *)
Lemma adam2fold_wmse_raises_type_error_witness :
  adam_keys example_conf /\
  batch_size example_conf = Some 1%Z /\ epochs example_conf = Some 1%Z /\
  (0 < 1)%Z /\ features linear_program <> [] /\
  setup2 linear_program example_data ["y"; "z"]%string [] 1 fresh_world
  = (Ok (Some example_batches2),
     snd (setup2 linear_program example_data ["y"; "z"]%string [] 1
            fresh_world)) /\
  ADAM2FOLD linear_program example_data ["y"; "z"]%string [] example_conf
    "regression:wmse" fresh_world
  = (Raise TypeError,
     after_uniform
       (snd (setup2 linear_program example_data ["y"; "z"]%string [] 1
               fresh_world))).
Proof.
  assert (Hkeys : adam_keys example_conf) by apply example_conf_keys.
  assert (Hbs : batch_size example_conf = Some 1%Z) by reflexivity.
  assert (Hep : epochs example_conf = Some 1%Z) by reflexivity.
  assert (Hpos : (0 < 1)%Z) by lia.
  assert (Hfeat : features linear_program <> []) by discriminate.
  assert (Hsetup : setup2 linear_program example_data ["y"; "z"]%string []
                     1 fresh_world
                   = (Ok (Some example_batches2),
                      snd (setup2 linear_program example_data
                             ["y"; "z"]%string [] 1 fresh_world)))
    by reflexivity.
  repeat (split; [assumption|]).
  exact (adam2fold_wmse_raises_type_error linear_program example_data
           ["y"; "z"]%string [] example_conf 1 1 fresh_world _ _
           Hkeys Hbs Hep Hpos Hfeat Hsetup).
Defined.

(** The failing input of C3, evaluated: the first batch raises, and the
    same call of [ADAM] on one target runs its epoch. *)
Lemma adam2fold_example_raises :
  fst (ADAM2FOLD linear_program example_data ["y"; "z"]%string []
         example_conf "regression:wmse" fresh_world) = Raise TypeError /\
  exists results,
    fst (ADAM linear_program example_data "y" None example_conf
           "regression:wmse" fresh_world) = Ok results.
Proof.
  split; [reflexivity|]. eexists. reflexivity.
Qed.
End OptimizerWitnesses.

(** ** The metrics and their handlers *)

Section MetricFacts.
Import Regression.


Lemma has_column_app {F : Type} name (cols cols' : list (string * list F)) :
  has_column name (cols ++ cols') = has_column name cols || has_column name cols'.
Proof.
  induction cols as [|[k v] cols IH]; simpl; [reflexivity|].
  now rewrite IH, orb_assoc.
Qed.

(** After the caching step the frame has the column of weights. *)
Lemma cache_weights_has_weights {F : Type} crw (self : Fitness F) data name :
  weights self = Some name ->
  has_column name (columns (cache_weights crw self data)) = true.
Proof.
  intros Hw. unfold cache_weights. rewrite Hw.
  destruct (has_column name (columns data)) eqn:E; [exact E|]. simpl.
  rewrite has_column_app. simpl. now rewrite String.eqb_refl, orb_true_r.
Qed.


Local Open Scope R_scope.

Lemma Q2R_zero : Q2R 0 = 0.
Proof. unfold Q2R. simpl. lra. Qed.

Lemma sum_zeros (l : list R) : Forall (fun x => x = 0) l -> sum l = 0.
Proof.
  induction 1 as [|x l Hx _ IH]; simpl.
  - apply Q2R_zero.
  - fold (sum l). rewrite IH, Hx. lra.
Qed.




End MetricFacts.

(* ===================================================================== *)
(** * Part III: further properties of the code *)
(* ===================================================================== *)

(** ** The cleaning steps *)

Section CleaningFacts.
Variable fitness_eq : list (string * Q) -> list (string * Q) -> bool.

Lemma flag_if_met_is_valid active q :
  is_valid (flag_if_met fitness_eq active q) = is_valid q.
Proof. unfold flag_if_met. now destruct (existsb _ active). Qed.

Lemma single_pass_filter_valid pop : forall active,
  filter valid (single_pass fitness_eq active pop)
  = single_pass fitness_eq active (filter valid pop).
Proof.
  induction pop as [|q rest IH]; intros active; simpl; [reflexivity|].
  assert (Ev' : valid (flag_if_met fitness_eq active q) = valid q)
    by (unfold valid; now rewrite flag_if_met_is_valid).
  rewrite Ev'. destruct (valid q) eqn:Ev; simpl.
  - f_equal. apply IH.
  - unfold confronts. rewrite flag_if_met_is_valid.
    unfold valid in Ev. destruct (is_valid q); [discriminate|]. apply IH.
Qed.

Lemma filter_comm {A : Type} (f g : A -> bool) l :
  filter f (filter g l) = filter g (filter f l).
Proof.
  induction l as [|a l IH]; simpl; [reflexivity|].
  destruct (f a) eqn:Ef, (g a) eqn:Eg; simpl; rewrite ?Ef, ?Eg, IH;
    reflexivity.
Qed.

(** X1.  The two cleaning steps of a generation commute:
    [drop_duplicates] followed by [drop_invalids], as the loop runs them
    (lines 226 and 233), leaves the population that [drop_invalids] followed
    by [drop_duplicates] leaves.  An invalid program is never compared with
    the programs after it, so it flags none of them. *)
Theorem cleaning_steps_commute (pop : list Program) :
  drop_invalids_inplace (drop_duplicates_inplace fitness_eq pop)
  = drop_duplicates_inplace fitness_eq (drop_invalids_inplace pop).
Proof.
  unfold drop_invalids_inplace, drop_duplicates_inplace, drop_invalids,
    drop_duplicates. simpl.
  rewrite !mark_duplicates_single_pass, filter_comm.
  now rewrite single_pass_filter_valid.
Qed.

(** X2.  Once [drop_duplicates] and [drop_invalids] have run, no
    program of the population is a duplicate of a program that stands
    before it. *)
Theorem cleaned_population_has_distinct_fitness (pop : list Program) :
  ForallOrdPairs (fun p q => is_duplicate fitness_eq p q = false)
    (drop_invalids_inplace (drop_duplicates_inplace fitness_eq pop)).
Proof.
  set (cleaned := drop_invalids_inplace (drop_duplicates_inplace fitness_eq pop)).
  assert (Hall : Forall (fun p => is_valid p = true /\ _is_duplicated p = false)
                   cleaned).
  { apply Forall_forall. intros p Hp.
    unfold cleaned, drop_invalids_inplace, drop_invalids in Hp. simpl in Hp.
    apply filter_In in Hp. destruct Hp as [Hin Hv].
    pose proof (kept_not_duplicated fitness_eq pop) as Hk.
    rewrite Forall_forall in Hk. split; [|now apply Hk].
    unfold valid in Hv. now destruct (is_valid p). }
  assert (Hpairs : ForallOrdPairs (flagged_by fitness_eq) cleaned).
  { unfold cleaned, drop_invalids_inplace, drop_duplicates_inplace,
      drop_invalids, drop_duplicates. simpl.
    do 2 apply ForallOrdPairs_filter. apply mark_from_flagged. lia. }
  clearbody cleaned. induction Hpairs as [|p l Hp Hl IH]; [constructor|].
  inversion Hall as [|? ? [Hv Hf] Hrest]; subst.
  constructor; [|now apply IH].
  rewrite Forall_forall in Hp, Hrest. apply Forall_forall. intros q Hq.
  destruct (is_duplicate fitness_eq p q) eqn:Ed; [|reflexivity].
  destruct (Hrest q Hq) as [_ Hqf].
  rewrite (Hp q Hq) in Hqf; [discriminate| |exact Ed].
  unfold confronts. now rewrite Hv, Hf.
Qed.

Lemma met_raised active a b :
  flag_raised a b ->
  existsb (fun p => is_duplicate fitness_eq p b) active
  = existsb (fun p => is_duplicate fitness_eq p a) active.
Proof.
  intros Hab. induction active as [|p rest IH]; simpl; [reflexivity|].
  now rewrite IH, (flag_raised_is_duplicate fitness_eq p Hab).
Qed.

Lemma flag_if_met_twice active q :
  flag_if_met fitness_eq active (flag_if_met fitness_eq active q)
  = flag_if_met fitness_eq active q.
Proof.
  unfold flag_if_met at 1.
  rewrite (met_raised active q _ (flag_if_met_raised fitness_eq active q)).
  unfold flag_if_met.
  destruct (existsb _ active); reflexivity.
Qed.

Lemma single_pass_twice pop : forall active,
  single_pass fitness_eq active (single_pass fitness_eq active pop)
  = single_pass fitness_eq active pop.
Proof.
  induction pop as [|q rest IH]; intros active; simpl; [reflexivity|].
  rewrite flag_if_met_twice. f_equal. apply IH.
Qed.

(** X3.  [drop_duplicates(inplace=False)] keeps the population at its
    length (it writes the flags on its programs) and returns the list that
    [inplace=True] would keep; a second call changes no flag and returns
    the same list. *)
Theorem drop_duplicates_copy_is_repeatable (pop : list Program) :
  let first := drop_duplicates fitness_eq false pop in
  let second := drop_duplicates fitness_eq false (fst first) in
  List.length (fst first) = List.length pop /\
  snd first = drop_duplicates_inplace fitness_eq pop /\
  fst second = fst first /\
  snd second = snd first.
Proof.
  unfold drop_duplicates_inplace, drop_duplicates. simpl.
  rewrite !mark_duplicates_single_pass, single_pass_twice.
  repeat split.
  rewrite <- mark_duplicates_single_pass. unfold mark_duplicates.
  symmetry. apply (Forall2_length (mark_from_raised fitness_eq _ pop)).
Qed.

End CleaningFacts.

(** ** A generation, the budget and the early returns *)

Lemma sort_by_crowding_length pop :
  List.length (sort_by_crowding pop) = List.length pop.
Proof. apply Permutation_length, list_sort_perm. Qed.

Lemma sort_by_rank_length pop :
  List.length (sort_by_rank pop) = List.length pop.
Proof. apply Permutation_length, list_sort_perm. Qed.

Lemma slice_to_sorted {A : Type} (R : A -> A -> Prop) n l :
  StronglySorted R l -> StronglySorted R (slice_to n l).
Proof.
  intros H. unfold slice_to. destruct (0 <=? n)%Z;
    now apply StronglySorted_firstn.
Qed.

Section SelectionFacts.
Variable fitness_eq : list (string * Q) -> list (string * Q) -> bool.
Variable env : Collaborators.
Hypothesis pareto_length :
  forall l, List.length (create_pareto_front env l) = List.length l.
Hypothesis crowding_length :
  forall l, List.length (assign_crowding_distance env l) = List.length l.

Lemma refill_to_truncate_next self :
  (0 <= population_size self)%Z ->
  exists self',
    run_statements None
      [ (BeforeRefill, refill_population env);
        (BeforeParetoFront, pareto_front env);
        (BeforeCrowdingDistance, crowding env);
        (BeforeCrowdingSort, crowding_sort);
        (BeforeRankSort, rank_sort);
        (BeforeTruncate, truncate) ] self = Next self' /\
    Z.of_nat (List.length (population self')) = population_size self /\
    population_size self' = population_size self /\
    generation self' = generation self /\
    StronglySorted rank_then_crowding (population self').
Proof.
  intros HN. rewrite run_cons. cbn [interrupted].
  unfold refill_population.
  destruct (Z.ltb_spec (Z.of_nat (List.length (population self)))
              (population_size self * 2)) as [Hshort|Hfull];
    cbn -[sort_by_rank sort_by_crowding slice_to Z.mul Z.sub];
    (eexists; split; [reflexivity|]);
    cbn -[sort_by_rank sort_by_crowding slice_to Z.mul Z.sub];
    (split; [|split; [reflexivity|split; [reflexivity|]]]).
  - unfold slice_to. destruct (Z.leb_spec 0 (population_size self)); [|lia].
    rewrite length_firstn, sort_by_rank_length, sort_by_crowding_length,
      crowding_length, pareto_length, length_app, length_map, length_seq.
    lia.
  - apply slice_to_sorted, two_pass_sorted.
  - unfold slice_to. destruct (Z.leb_spec 0 (population_size self)); [|lia].
    rewrite length_firstn, sort_by_rank_length, sort_by_crowding_length,
      crowding_length, pareto_length.
    lia.
  - apply slice_to_sorted, two_pass_sorted.
Qed.


End SelectionFacts.

Lemma record_best_next self best rest :
  population self = best :: rest ->
  exists self',
    record_best self = Next self' /\
    best_program self' = Some best /\
    population self' = population self /\
    generation self' = generation self /\
    population_size self' = population_size self.
Proof.
  intros Hpop. unfold record_best. rewrite Hpop.
  eexists. split; [reflexivity|]. now repeat split.
Qed.

Section ClosingFacts.
Variable env : Collaborators.
Variable generations : Z.
Variable stop_at_convergence : bool.


End ClosingFacts.

Section BudgetFacts.
Variable fitness_eq : list (string * Q) -> list (string * Q) -> bool.
Variable env : Collaborators.
Variable generations : Z.
Variable stop_at_convergence : bool.
Variable verbose : Z.
Hypothesis pareto_length :
  forall l, List.length (create_pareto_front env l) = List.length l.
Hypothesis crowding_length :
  forall l, List.length (assign_crowding_distance env l) = List.length l.
Hypothesis quiet : (verbose <= 1)%Z.




Lemma fit_start self :
  let self0 :=
    initialize_population env
      (if truthy_int (generation self) then self
       else set_generation (Some 0%Z) self) in
  generation self0 = Some (current_generation self) /\
  population_size self0 = population_size self.
Proof.
  unfold initialize_population, current_generation.
  destruct (generation self) as [g|] eqn:Eg; simpl.
  - destruct (Z.eqb_spec g 0); simpl.
    + destruct (population self); simpl; split; congruence.
    + rewrite Eg. destruct (population self); simpl; split; congruence.
  - destruct (population self); simpl; now split.
Qed.

End BudgetFacts.



(** X9.  Lines 175-179.  A regressor whose counter has reached the
    budget, with a population, is not trained further: [fit] returns in its
    first turn, having changed the status and the training duration and
    nothing else, whether or not an interrupt is scheduled. *)
Theorem fit_on_trained_regressor_returns_at_once
    fitness_eq env generations stop_at_convergence verbose interrupt
    (fuel : nat) (self : SymbolicRegressor) (g : Z) :
  generation self = Some g -> (0 < generations <= g)%Z ->
  population self <> [] ->
  fit fitness_eq env generations stop_at_convergence verbose interrupt
    (S fuel) self
  = Some (Ok tt,
          set_training_duration (Some (fit_seconds env))
            (set_status "Terminated: generations completed" self)).
Proof.
  intros Hg Hrange Hpop. unfold fit, _fit, initialize_population.
  rewrite Hg. simpl truthy_int.
  destruct (Z.eqb_spec g 0); [lia|]. simpl negb. cbv iota.
  destruct (population self) as [|p pop]; [congruence|].
  simpl. unfold iteration, begin_generation. rewrite Hg.
  destruct (Z.gtb_spec generations 0); [|lia].
  destruct (Z.geb_spec g generations); [|lia].
  reflexivity.
Qed.

(** X4.  Lines 204-276 on a regressor with a population size that is
    not negative, when the two ranking passes return as many programs as
    they are given and no interrupt arrives: the statements run through to
    the truncation, after which the population holds exactly
    [population_size] programs, sorted by rank and, inside a rank, by
    descending crowding distance; the counter and the size are as before. *)
Theorem selection_restores_population_size
    fitness_eq env (self : SymbolicRegressor) :
  (forall l, List.length (create_pareto_front env l) = List.length l) ->
  (forall l, List.length (assign_crowding_distance env l) = List.length l) ->
  (0 <= population_size self)%Z ->
  exists self',
    run_statements None (selection_body fitness_eq env) self = Next self' /\
    Z.of_nat (List.length (population self')) = population_size self /\
    population_size self' = population_size self /\
    generation self' = generation self /\
    StronglySorted rank_then_crowding (population self').
Proof.
  intros Hp Hc HN.
  change (selection_body fitness_eq env)
    with ([ (DuringOffspring, merge_offspring env);
            (BeforeDropDuplicates, remove_duplicates fitness_eq);
            (BeforeDropInvalids, remove_invalids) ] ++
          [ (BeforeRefill, refill_population env);
            (BeforeParetoFront, pareto_front env);
            (BeforeCrowdingDistance, crowding env);
            (BeforeCrowdingSort, crowding_sort);
            (BeforeRankSort, rank_sort);
            (BeforeTruncate, truncate) ]).
  rewrite run_app.
  cbn [run_statements interrupted merge_offspring remove_duplicates
       remove_invalids].
  set (cleaned :=
         set_population
           (drop_invalids_inplace
              (drop_duplicates_inplace fitness_eq
                 (population self ++
                  get_offspring env (current_generation self)
                    (population self))))
           self).
  destruct (refill_to_truncate_next env Hp Hc cleaned HN)
    as (self' & Hrun & Hlen & Hsize & Hgen & Hsorted).
  exists self'. split; [exact Hrun|]. now repeat split.
Qed.


(** X11.  The property [hypervolume] (lines 348-366) is not a plain
    read: a second read of it on the same population returns the same value
    and appends it once more to [fpf_hypervolume_history]. *)
Theorem hypervolume_read_twice_appends_twice
    (env : Collaborators) (self self1 : SymbolicRegressor) (hv : Q) :
  hypervolume env false self = (Ok hv, self1) ->
  exists self2,
    hypervolume env false self1 = (Ok hv, self2) /\
    fpf_hypervolume self2 = Some hv /\
    fpf_hypervolume_history self2 = fpf_hypervolume_history self ++ [hv; hv] /\
    population self2 = population self.
Proof.
  intros H1. pose proof (hypervolume_effect env false self _ _ H1) as E1.
  simpl in E1. subst self1.
  revert H1. unfold hypervolume.
  change (first_pareto_front
            (set_fpf_hypervolume_history (fpf_hypervolume_history self ++ [hv])
               (set_fpf_hypervolume (Some hv) self)))
    with (first_pareto_front self).
  destruct (first_pareto_front self) as [|p0 front]; [discriminate|].
  destruct (map_result _ _) as [refs|e]; [|discriminate].
  destruct (map_result _ (p0 :: front)) as [pts|e]; [|discriminate].
  destruct (pg_hypervolume env pts refs) as [x|]; intros [= ->];
    (eexists; split; [reflexivity|]); cbn;
    rewrite <- app_assoc; now repeat split.
Qed.

Lemma filter_all_false {A : Type} (f : A -> bool) l :
  Forall (fun a => f a = false) l -> filter f l = [].
Proof.
  induction 1 as [|a l Ha _ IH]; simpl; [reflexivity|].
  now rewrite Ha, IH.
Qed.

Lemma rank_sorted_front_first l :
  StronglySorted (fun a b => (rank a <= rank b)%Z) l ->
  Forall (fun p => (1 <= rank p)%Z) l ->
  l = filter (fun p => (rank p =? 1)%Z) l ++
      filter (fun p => negb (rank p =? 1)%Z) l.
Proof.
  induction 1 as [|a l Hl IH Ha]; intros Hranks; [reflexivity|].
  inversion Hranks as [|? ? Hra Hrl]; subst. simpl.
  destruct (Z.eqb_spec (rank a) 1) as [E|E]; simpl.
  - f_equal. now apply IH.
  - assert (Hlater : Forall (fun p => (rank p =? 1)%Z = false) l).
    { eapply Forall_impl; [|exact Ha]. intros b Hb. simpl in Hb.
      apply Z.eqb_neq. lia. }
    rewrite (filter_all_false _ _ Hlater). simpl. f_equal.
    symmetry. apply filter_all_true.
    eapply Forall_impl; [|exact Hlater]. intros b Hb. simpl in Hb.
    now rewrite Hb.
Qed.

Lemma rank_then_crowding_rank l :
  StronglySorted rank_then_crowding l ->
  StronglySorted (fun a b => (rank a <= rank b)%Z) l.
Proof.
  induction 1 as [|a l Hl IH Ha]; constructor; [exact IH|].
  eapply Forall_impl; [|exact Ha]. unfold rank_then_crowding. intros b Hb. lia.
Qed.

Lemma In_firstn {A : Type} (x : A) n l : In x (firstn n l) -> In x l.
Proof.
  intros H. rewrite <- (firstn_skipn n l). apply in_or_app. now left.
Qed.

Lemma same_rank_crowding k l :
  Forall (fun p => rank p = k) l ->
  StronglySorted rank_then_crowding l -> StronglySorted crowding_ge l.
Proof.
  intros Hk. induction 1 as [|a l Hl IH Ha]; constructor.
  - apply IH. now inversion Hk.
  - inversion Hk as [|? ? Hka Hkl]; subst.
    rewrite Forall_forall in *. intros b Hb.
    destruct (Ha b Hb) as [Hlt|[_ Hc]]; [|exact Hc].
    specialize (Hkl b Hb). lia.
Qed.

Lemma select_and_truncate_incl N pop p :
  In p (select_and_truncate N pop) -> In p pop.
Proof.
  unfold select_and_truncate, slice_to. intros Hin.
  assert (Hs : In p (sort_by_rank (sort_by_crowding pop)))
    by (destruct (0 <=? N)%Z; eapply In_firstn; exact Hin).
  eapply Permutation_in; [|exact Hs].
  etransitivity; apply list_sort_perm.
Qed.

Lemma select_and_truncate_sorted N pop :
  StronglySorted rank_then_crowding (select_and_truncate N pop).
Proof.
  unfold select_and_truncate, slice_to.
  destruct (0 <=? N)%Z; apply StronglySorted_firstn, two_pass_sorted.
Qed.

(** X6.  With ranks that start at 1, the selected population is its
    first Pareto front (lines 380-382) followed by programs of a larger
    rank, and the front is in the order of descending crowding distance. *)
Theorem first_pareto_front_leads_population
    (self : SymbolicRegressor) (N : Z) (pop : list Program) :
  Forall (fun p => (1 <= rank p)%Z) pop ->
  population self = select_and_truncate N pop ->
  exists others,
    population self = first_pareto_front self ++ others /\
    Forall (fun p => (1 < rank p)%Z) others /\
    StronglySorted crowding_ge (first_pareto_front self).
Proof.
  intros Hranks Hpop. unfold first_pareto_front. rewrite Hpop.
  pose proof (select_and_truncate_sorted N pop) as Hsorted.
  assert (Hranks' : Forall (fun p => (1 <= rank p)%Z)
                      (select_and_truncate N pop)).
  { apply Forall_forall. intros p Hp. rewrite Forall_forall in Hranks.
    eapply Hranks, select_and_truncate_incl, Hp. }
  set (survivors := select_and_truncate N pop) in *. clearbody survivors.
  exists (filter (fun p => negb (rank p =? 1)%Z) survivors).
  split; [|split].
  - apply rank_sorted_front_first; [|exact Hranks'].
    now apply rank_then_crowding_rank.
  - apply Forall_forall. intros p Hp. apply filter_In in Hp.
    destruct Hp as [Hin Hp]. rewrite Forall_forall in Hranks'.
    specialize (Hranks' p Hin). apply negb_true_iff, Z.eqb_neq in Hp. lia.
  - apply (same_rank_crowding 1).
    + apply Forall_forall. intros p Hp. apply filter_In in Hp.
      destruct Hp as [_ Hp]. now apply Z.eqb_eq in Hp.
    + now apply StronglySorted_filter.
Qed.

Lemma crowding_ge_refl p : crowding_ge p p.
Proof.
  unfold crowding_ge.
  destruct (distance_ltb (crowding_distance p) (crowding_distance p)) eqn:E;
    [|reflexivity].
  now rewrite (distance_ltb_asym _ _ E) in E.
Qed.

(** X5.  Lines 273-278.  After the two sorts and the truncation of a
    population that is not empty, with [population_size >= 1],
    [best_program] is the first program of the population; no program of
    the population before the selection has a smaller rank, and none of
    its rank has a larger crowding distance. *)
Theorem best_program_is_optimal (self : SymbolicRegressor) :
  (1 <= population_size self)%Z -> population self <> [] ->
  exists best self',
    record_best
      (set_population
         (select_and_truncate (population_size self) (population self)) self)
    = Next self' /\
    best_program self' = Some best /\
    hd_error (population self') = Some best /\
    In best (population self) /\
    forall q, In q (population self) ->
      (rank best <= rank q)%Z /\
      (rank q = rank best -> crowding_ge best q).
Proof.
  intros HN Hpop.
  pose proof (two_pass_sorted (population self)) as Hsorted.
  assert (Hperm : Permutation (sort_by_rank (sort_by_crowding (population self)))
                    (population self))
    by (etransitivity; apply list_sort_perm).
  unfold select_and_truncate, slice_to.
  destruct (Z.leb_spec 0 (population_size self)); [|lia].
  destruct (sort_by_rank (sort_by_crowding (population self)))
    as [|best others] eqn:Es.
  { apply Permutation_nil in Hperm. congruence. }
  destruct (Z.to_nat (population_size self)) as [|k] eqn:Ek; [lia|].
  simpl firstn.
  destruct (record_best_next
              (set_population (best :: firstn k others) self) best
              (firstn k others) eq_refl) as (self' & Hrun & Hb & Hp & _).
  exists best, self'. split; [exact Hrun|]. split; [exact Hb|].
  split; [now rewrite Hp|].
  split; [eapply Permutation_in; [exact Hperm|now left]|].
  intros q Hq. apply (Permutation_in _ (Permutation_sym Hperm)) in Hq.
  destruct Hq as [<-|Hq].
  - split; [lia|]. intros _. apply crowding_ge_refl.
  - apply StronglySorted_inv in Hsorted. destruct Hsorted as [_ Hbest].
    rewrite Forall_forall in Hbest.
    destruct (Hbest q Hq) as [Hlt|[Heq Hc]]; split; try lia; try tauto.
Qed.

(** X10.  With [population_size = 0] the truncation [[:0]] empties the
    population, whatever the offspring, and line 278 reads
    [self.population[0]]: the first generation raises [IndexError], which
    [fit] does not catch; no best program has been recorded. *)
Theorem fit_with_population_size_zero_raises
    fitness_eq env generations stop_at_convergence verbose
    (fuel : nat) (self : SymbolicRegressor) :
  population_size self = 0%Z ->
  ~ ((0 < generations)%Z /\ (generations <= current_generation self)%Z) ->
  exists self',
    fit fitness_eq env generations stop_at_convergence verbose None
      (S fuel) self = Some (Raise IndexError, self') /\
    population self' = [] /\ best_programs_history self' = best_programs_history self.
Proof.
  intros HN Hguard.
  destruct (fit_start env self) as [Hg0 HN0].
  unfold fit, _fit.
  set (self0 := initialize_population env _) in *.
  assert (Hh : best_programs_history self0 = best_programs_history self).
  { unfold self0, initialize_population.
    destruct (truthy_int (generation self));
      now destruct (population _). }
  clearbody self0. simpl generations_loop.
  unfold iteration, begin_generation. rewrite Hg0.
  destruct ((generations >? 0)%Z && (current_generation self >=? generations)%Z)
    eqn:Eg; [exfalso; apply Hguard; lia|].
  rewrite generation_body_split, run_app.
  set (self1 := set_status _ _).
  assert (H1 : population_size self1 = 0%Z) by (unfold self1; simpl; congruence).
  assert (Hh1 : best_programs_history self1 = best_programs_history self)
    by (unfold self1; simpl; congruence).
  clearbody self1.
  unfold selection_body.
  cbn -[sort_by_rank sort_by_crowding slice_to Z.mul Z.sub Z.ltb
        drop_duplicates_inplace drop_invalids_inplace].
  unfold refill_population.
  cbn -[sort_by_rank sort_by_crowding slice_to Z.mul Z.sub Z.ltb
        drop_duplicates_inplace drop_invalids_inplace].
  rewrite H1.
  destruct (Z.ltb_spec (Z.of_nat (List.length
              (drop_invalids_inplace
                 (drop_duplicates_inplace fitness_eq
                    (population self1 ++
                     get_offspring env (current_generation self1)
                       (population self1)))))) (0 * 2)); [lia|].
  cbn -[sort_by_rank sort_by_crowding Z.mul Z.sub Z.ltb
        drop_duplicates_inplace drop_invalids_inplace].
  rewrite H1. cbn.
  eexists. split; [reflexivity|]. cbn. now split.
Qed.

(** ** The tables *)

Lemma lookup_dict_set_same {V : Type} k (v : V) d :
  lookup k (dict_set k v d) = Ok v.
Proof.
  induction d as [|[k' v'] d IH]; simpl.
  - now rewrite String.eqb_refl.
  - destruct (String.eqb k k') eqn:E; simpl; rewrite E; [reflexivity|exact IH].
Qed.

Lemma lookup_dict_set_other {V : Type} k k' (v : V) d :
  k <> k' -> lookup k (dict_set k' v d) = lookup k d.
Proof.
  intros Hk. induction d as [|[k0 v0] d IH]; simpl.
  - apply String.eqb_neq in Hk. now rewrite Hk.
  - destruct (String.eqb k' k0) eqn:E; simpl.
    + apply String.eqb_eq in E. subst k0.
      apply String.eqb_neq in Hk. now rewrite Hk.
    + destruct (String.eqb k k0); [reflexivity|exact IH].
Qed.

Lemma lookup_snoc {V : Type} k k' (v' : V) d :
  lookup k (d ++ [(k', v')])
  = match lookup k d with
    | Ok v => Ok v
    | Raise _ => if String.eqb k k' then Ok v' else Raise KeyError
    end.
Proof.
  induction d as [|[a b] d IH]; simpl; [reflexivity|].
  destruct (String.eqb k a); [reflexivity|exact IH].
Qed.

(** After the loop over the fitness a key holds the value the loop wrote
    last, or what the row held before. *)
Lemma lookup_fold_fitness k (items : list (string * Q)) :
  forall row : list (string * cell),
  lookup k (fold_left (fun row f => dict_set (fst f) (Float (snd f)) row)
              items row)
  = match lookup k (rev items) with
    | Ok v => Ok (Float v)
    | Raise _ => lookup k row
    end.
Proof.
  induction items as [|[k' v'] items IH]; intros row; simpl; [reflexivity|].
  rewrite IH, lookup_snoc. destruct (lookup k (rev items)); [reflexivity|].
  destruct (String.eqb_spec k k') as [->|Hne].
  - apply lookup_dict_set_same.
  - now apply lookup_dict_set_other.
Qed.

Lemma lookup_not_in {V : Type} k (d : list (string * V)) :
  ~ In k (map fst d) -> lookup k d = Raise KeyError.
Proof.
  induction d as [|[k' v'] d IH]; simpl; [reflexivity|].
  intros Hnot. destruct (String.eqb_spec k k') as [->|Hne]; [tauto|].
  apply IH. tauto.
Qed.

(** In a dictionary, where a key stands once, the last binding of a key is
    its only one. *)
Lemma lookup_rev_nodup {V : Type} k (d : list (string * V)) :
  NoDup (map fst d) -> lookup k (rev d) = lookup k d.
Proof.
  induction d as [|[k' v'] d IH]; intros Hnd; [reflexivity|].
  inversion Hnd as [|? ? Hnotin Hnd']; subst. simpl.
  rewrite lookup_snoc, (IH Hnd').
  destruct (String.eqb_spec k k') as [->|Hne].
  - now rewrite (lookup_not_in k' d Hnotin).
  - destruct (lookup k d) as [v|e] eqn:E; [reflexivity|].
    now apply lookup_raises in E; subst.
Qed.

Lemma nth_error_enumerate {A : Type} (l : list A) : forall start i a,
  nth_error l i = Some a ->
  nth_error (combine (seq start (List.length l)) l) i = Some ((start + i)%nat, a).
Proof.
  induction l as [|x l IH]; intros start [|i] a; simpl; try discriminate.
  - intros [= ->]. now rewrite Nat.add_0_r.
  - intros Ha. rewrite (IH (S start) i a Ha). do 2 f_equal. lia.
Qed.

Lemma rows_of_nth counter programs i p :
  nth_error programs i = Some p ->
  nth_error (rows_of counter programs) i = Some (program_row counter i p).
Proof.
  intros Hp. unfold rows_of.
  now rewrite nth_error_map, (nth_error_enumerate programs 0 i p Hp).
Qed.

Lemma rows_of_length counter programs :
  List.length (rows_of counter programs) = List.length programs.
Proof.
  unfold rows_of. rewrite length_map, length_combine, length_seq. lia.
Qed.

Lemma program_row_cells counter i p :
  let row := program_row counter i p in
  (forall k v,
     NoDup (map fst (fitness p)) -> lookup k (fitness p) = Ok v ->
     lookup k row = Ok (Float v)) /\
  (forall k,
     ~ In k (map fst (fitness p)) ->
     lookup k row
     = lookup k
         (dict_set "rank" (Int (rank p))
            (dict_set "complexity" (Float (complexity p))
               (dict_set "program" (Str (program p))
                  (dict_set counter (Int (Z.of_nat i + 1)) []))))).
Proof.
  intros row. unfold row, program_row. split.
  - intros k v Hnd Hk. now rewrite lookup_fold_fitness, lookup_rev_nodup, Hk.
  - intros k Hk. rewrite lookup_fold_fitness.
    rewrite lookup_not_in; [reflexivity|].
    now rewrite map_rev, <- in_rev.
Qed.

(** X12.  [summary] has one row for each program of the population
    and [best_history] one for each best program recorded.  The row of the
    program at position [i] holds every fitness of the program under its
    name, [i + 1] under [index] and the rank under [rank]; a fitness with
    the name of one of these columns takes its place (line 395-396 write
    after lines 390-393). *)
Theorem summary_rows (self : SymbolicRegressor) :
  List.length (summary self) = List.length (population self) /\
  List.length (best_history self) = List.length (best_programs_history self) /\
  forall i p,
    nth_error (population self) i = Some p ->
    exists row,
      nth_error (summary self) i = Some row /\
      (forall k v,
         NoDup (map fst (fitness p)) -> lookup k (fitness p) = Ok v ->
         lookup k row = Ok (Float v)) /\
      (~ In "index"%string (map fst (fitness p)) ->
       lookup "index" row = Ok (Int (Z.of_nat i + 1))) /\
      (~ In "rank"%string (map fst (fitness p)) ->
       lookup "rank" row = Ok (Int (rank p))).
Proof.
  split; [apply rows_of_length|]. split; [apply rows_of_length|].
  intros i p Hp. exists (program_row "index" i p).
  split; [now apply rows_of_nth|].
  destruct (program_row_cells "index" i p) as [Hfit Hfixed].
  split; [exact Hfit|]. split; intros Hk; rewrite (Hfixed _ Hk); reflexivity.
Qed.

(** ** The controller on concrete calls *)

Lemma example_env_pareto_length l :
  List.length (create_pareto_front example_env l) = List.length l.
Proof. apply length_map. Qed.

Lemma example_env_crowding_length l :
  List.length (assign_crowding_distance example_env l) = List.length l.
Proof. apply length_map. Qed.

(** The theorem on the regressor that holds the three programs. *)
Lemma best_program_is_optimal_witness :
  (1 <= population_size example_regressor)%Z /\
  population example_regressor <> [] /\
  exists best self',
    record_best
      (set_population
         (select_and_truncate (population_size example_regressor)
            (population example_regressor)) example_regressor)
    = Next self' /\
    best_program self' = Some best /\
    hd_error (population self') = Some best /\
    In best (population example_regressor) /\
    forall q, In q (population example_regressor) ->
      (rank best <= rank q)%Z /\
      (rank q = rank best -> crowding_ge best q).
Proof.
  assert (H1 : (1 <= population_size example_regressor)%Z) by (simpl; lia).
  assert (H2 : population example_regressor <> []) by discriminate.
  split; [exact H1|]. split; [exact H2|].
  exact (best_program_is_optimal example_regressor H1 H2).
Defined.

(** The theorem on the same regressor and the collaborators of the examples. *)
Lemma selection_restores_population_size_witness :
  (0 <= population_size example_regressor)%Z /\
  exists self',
    run_statements None (selection_body identical_fitness example_env)
      example_regressor = Next self' /\
    Z.of_nat (List.length (population self'))
    = population_size example_regressor /\
    population_size self' = population_size example_regressor /\
    generation self' = generation example_regressor /\
    StronglySorted rank_then_crowding (population self').
Proof.
  assert (H : (0 <= population_size example_regressor)%Z) by (simpl; lia).
  split; [exact H|].
  exact (selection_restores_population_size identical_fitness example_env
           example_regressor example_env_pareto_length
           example_env_crowding_length H).
Defined.



(** The theorem on the regressor that the call of the examples has trained. *)
Lemma fit_on_trained_regressor_returns_at_once_witness :
  generation example_final = Some 2%Z /\ (0 < 2 <= 2)%Z /\
  population example_final <> [] /\
  fit identical_fitness example_env 2 true 0 None 1 example_final
  = Some (Ok tt,
          set_training_duration (Some (fit_seconds example_env))
            (set_status "Terminated: generations completed" example_final)).
Proof.
  assert (Hg : generation example_final = Some 2%Z) by (vm_compute; reflexivity).
  assert (Hr : (0 < 2 <= 2)%Z) by lia.
  assert (Hp : population example_final <> [])
    by (vm_compute; discriminate).
  split; [exact Hg|]. split; [exact Hr|]. split; [exact Hp|].
  exact (fit_on_trained_regressor_returns_at_once identical_fitness
           example_env 2 true 0 None 0 example_final 2 Hg Hr Hp).
Defined.

(** The theorem on [SymbolicRegressor(population_size=0)]. *)
Lemma fit_with_population_size_zero_raises_witness :
  population_size (new_regressor None (-1) 0) = 0%Z /\
  exists self',
    fit identical_fitness example_env 2 true 0 None 1
      (new_regressor None (-1) 0) = Some (Raise IndexError, self') /\
    population self' = [] /\
    best_programs_history self'
    = best_programs_history (new_regressor None (-1) 0).
Proof.
  split; [reflexivity|].
  apply (fit_with_population_size_zero_raises identical_fitness example_env
           2 true 0 0 (new_regressor None (-1) 0) eq_refl).
  unfold current_generation. simpl. lia.
Defined.

(** The theorem on the regressor that holds the three programs. *)
Lemma hypervolume_read_twice_appends_twice_witness :
  hypervolume example_env false example_regressor
  = (Ok 5%Q, snd (hypervolume example_env false example_regressor)) /\
  exists self2,
    hypervolume example_env false
      (snd (hypervolume example_env false example_regressor))
    = (Ok 5%Q, self2) /\
    fpf_hypervolume self2 = Some 5%Q /\
    fpf_hypervolume_history self2
    = fpf_hypervolume_history example_regressor ++ [5%Q; 5%Q] /\
    population self2 = population example_regressor.
Proof.
  assert (H : hypervolume example_env false example_regressor
              = (Ok 5%Q, snd (hypervolume example_env false example_regressor)))
    by reflexivity.
  split; [exact H|].
  exact (hypervolume_read_twice_appends_twice example_env example_regressor
           _ 5%Q H).
Defined.

(** The theorem on the two survivors of the three programs. *)
Lemma first_pareto_front_leads_population_witness :
  Forall (fun p => (1 <= rank p)%Z) [prog_b; prog_c; prog_a] /\
  exists others,
    population
      (set_population (select_and_truncate 2 [prog_b; prog_c; prog_a])
         example_regressor)
    = first_pareto_front
        (set_population (select_and_truncate 2 [prog_b; prog_c; prog_a])
           example_regressor) ++ others /\
    Forall (fun p => (1 < rank p)%Z) others /\
    StronglySorted crowding_ge
      (first_pareto_front
         (set_population (select_and_truncate 2 [prog_b; prog_c; prog_a])
            example_regressor)).
Proof.
  assert (H : Forall (fun p => (1 <= rank p)%Z) [prog_b; prog_c; prog_a])
    by (repeat constructor; simpl; lia).
  split; [exact H|].
  exact (first_pareto_front_leads_population
           (set_population (select_and_truncate 2 [prog_b; prog_c; prog_a])
              example_regressor)
           2 [prog_b; prog_c; prog_a] H eq_refl).
Defined.


(** ** The optimizers: batches, epochs, exceptions *)

Section BatchFacts.
Import Optimization.
Context {F G : Type} `{Numeric F} `{Random F G}.

Lemma take_sections_concat {A : Type} sizes : forall (a : list A),
  fold_right Nat.add 0%nat sizes = List.length a ->
  List.concat (take_sections sizes a) = a.
Proof.
  induction sizes as [|k sizes IH]; intros a Hsum; simpl in *.
  - symmetry in Hsum. now apply length_zero_iff_nil in Hsum.
  - rewrite IH; [apply firstn_skipn|]. rewrite length_skipn. lia.
Qed.

Lemma take_sections_sizes {A : Type} sizes : forall (a : list A),
  (fold_right Nat.add 0 sizes <= List.length a)%nat ->
  Forall2 (fun part k => List.length part = k) (take_sections sizes a) sizes.
Proof.
  induction sizes as [|k sizes IH]; intros a Hsum; simpl in *; constructor.
  - rewrite length_firstn. lia.
  - apply IH. rewrite length_skipn. lia.
Qed.

Lemma sum_repeat k n : fold_right Nat.add 0%nat (repeat k n) = (n * k)%nat.
Proof. induction n as [|n IH]; simpl; [reflexivity|now rewrite IH]. Qed.

Lemma fold_right_add_app l l' :
  fold_right Nat.add 0%nat (l ++ l')
  = (fold_right Nat.add 0 l + fold_right Nat.add 0 l')%nat.
Proof. induction l as [|x l IH]; simpl; [reflexivity|rewrite IH; lia]. Qed.

(** [np.array_split] cuts the array in [n] consecutive parts whose lengths
    differ by one at most. *)
Lemma array_split_partition {A : Type} (a : list A) n (w : World G) parts w' :
  array_split a n w = (Ok parts, w') ->
  List.concat parts = a /\
  Forall (fun part =>
            (List.length a / Z.to_nat n <= List.length part
             <= S (List.length a / Z.to_nat n))%nat) parts.
Proof.
  unfold array_split. destruct (Z.leb_spec n 0); [discriminate|].
  intros [= <- <-].
  set (k := Z.to_nat n). assert (Hk : k <> 0%nat) by lia.
  set (each := (List.length a / k)%nat). set (extras := (List.length a mod k)%nat).
  assert (Hlt : (extras < k)%nat) by (apply Nat.mod_upper_bound; exact Hk).
  assert (Hsum : fold_right Nat.add 0%nat
                   (repeat (S each) extras ++ repeat each (k - extras))
                 = List.length a).
  { rewrite fold_right_add_app, !sum_repeat.
    pose proof (Nat.div_mod_eq (List.length a) k) as Hdm.
    fold each extras in Hdm. nia. }
  split; [now apply take_sections_concat|].
  pose proof (take_sections_sizes
                (repeat (S each) extras ++ repeat each (k - extras)) a) as Hs.
  rewrite Hsum in Hs. specialize (Hs (le_n _)).
  assert (Hsizes : Forall (fun s => (each <= s <= S each)%nat)
                     (repeat (S each) extras ++ repeat each (k - extras))).
  { apply Forall_app. split; apply Forall_forall; intros s Hs';
      apply repeat_spec in Hs'; lia. }
  clear Hsum. revert Hs Hsizes.
  generalize (take_sections
                (repeat (S each) extras ++ repeat each (k - extras)) a).
  generalize (repeat (S each) extras ++ repeat each (k - extras)).
  intros sizes got Hs. induction Hs as [|part s got sizes Hps _ IH];
    intros Hsz; constructor.
  - inversion Hsz; subst. lia.
  - apply IH. now inversion Hsz.
Qed.

Lemma column_ok (data : DataFrame F) name (w : World G) y w1 :
  column data name w = (Ok y, w1) ->
  lookup name (columns data) = Ok y /\
  w1 = {| rng := rng w; events := events w ++ [ReadColumn name] |}.
Proof.
  unfold column, mbind, tell, lift. now intros [= -> <-].
Qed.

Lemma feature_rows_ok (data : DataFrame F) names (w : World G) X w1 :
  feature_rows data names w = (Ok X, w1) ->
  List.length X = shape0 data.
Proof.
  unfold feature_rows, mbind, tell, lift, ret.
  destruct (map_result _ names); [|discriminate].
  intros [= <- _]. now rewrite length_map, length_seq.
Qed.

Lemma count_batches_ok rows bs (w : World G) n w1 :
  count_batches rows bs w = (Ok n, w1) ->
  bs <> 0%Z /\ n = Z.quot (Z.of_nat rows) bs /\ w1 = w.
Proof.
  unfold count_batches. destruct (Z.eqb_spec bs 0); [discriminate|].
  now intros [= <- <-].
Qed.

(** X13.  Lines 99-102.  When the setup hands batches over, the batch
    size is positive and not larger than the number of rows; there are
    [rows // batch_size] batches of each kind; the batches of the target
    are the target column cut in consecutive pieces, those of the features
    hold every row; and every batch of rows has at least [batch_size] rows:
    the batch size is a lower bound. *)
Theorem batches_partition_data
    (program : Program F) (data : DataFrame F) (target : string)
    (weights : option string) (bs : Z) (w : World G) (b : Batches)
    (w' : World G) :
  setup program data target weights bs w = (Ok (Some b), w') ->
  (0 < bs <= Z.of_nat (shape0 data))%Z /\
  Z.of_nat (List.length (X_batch b)) = (Z.of_nat (shape0 data) / bs)%Z /\
  List.length (y_batch b) = List.length (X_batch b) /\
  List.length (w_batch b) = List.length (X_batch b) /\
  List.length (List.concat (X_batch b)) = shape0 data /\
  lookup target (columns data) = Ok (List.concat (y_batch b)) /\
  Forall (fun X => (bs <= Z.of_nat (List.length X))%Z) (X_batch b).
Proof.
  unfold setup. destruct (is_valid program); [|discriminate]. simpl.
  destruct (get_constants program) as [|c cs]; [discriminate|]. simpl.
  intros Hs.
  apply mbind_inv in Hs. destruct Hs as (y_true & w1 & Hy & Hs).
  apply mbind_inv in Hs. destruct Hs as (X_data & w2 & HX & Hs).
  apply mbind_inv in Hs. destruct Hs as (wt & w3 & _ & Hs).
  apply mbind_inv in Hs. destruct Hs as ([cc|] & w4 & _ & Hs);
    [|discriminate].
  apply mbind_inv in Hs. destruct Hs as (n & w5 & Hn & Hs).
  apply mbind_inv in Hs. destruct Hs as (Xb & w6 & HXb & Hs).
  apply mbind_inv in Hs. destruct Hs as (yb & w7 & Hyb & Hs).
  apply mbind_inv in Hs. destruct Hs as (wb & w8 & Hwb & Hs).
  injection Hs as <- <-. simpl.
  apply column_ok in Hy. destruct Hy as [Hy _].
  apply feature_rows_ok in HX.
  apply count_batches_ok in Hn. destruct Hn as (Hbs & Hn & _).
  pose proof (array_split_partition _ _ _ _ _ HXb) as [HcX HsX].
  pose proof (array_split_partition _ _ _ _ _ Hyb) as [Hcy _].
  apply array_split_ok in HXb, Hyb, Hwb.
  destruct HXb as (_ & Hpos & HlX), Hyb as (_ & _ & Hly), Hwb as (_ & _ & Hlw).
  rewrite HX in *.
  assert (Hbs' : (0 < bs)%Z).
  { destruct (Z.lt_trichotomy bs 0) as [Hneg|[E|Hp]]; [|congruence|exact Hp].
    exfalso. subst n.
    pose proof (Z.quot_opp_r (Z.of_nat (shape0 data)) (- bs)) as Hq.
    rewrite Z.opp_involutive in Hq. rewrite Hq in Hpos by lia.
    pose proof (Z.quot_pos (Z.of_nat (shape0 data)) (- bs)). lia. }
  rewrite Z.quot_div_nonneg in Hn by lia.
  assert (Hmul : (bs * n <= Z.of_nat (shape0 data))%Z)
    by (subst n; apply Z.mul_div_le; exact Hbs').
  repeat split; try lia; try congruence.
  - nia.
  - eapply Forall_impl; [|exact HsX]. intros X [Hlow _].
    assert (Hq : (Z.to_nat bs <= shape0 data / Z.to_nat n)%nat)
      by (apply Nat.div_le_lower_bound; nia).
    lia.
Qed.

(** *** From the configuration to the setup *)

Lemma some_of {A : Type} (o : option A) : o <> None -> exists a, o = Some a.
Proof. destruct o as [a|]; [now exists a|congruence]. Qed.

Lemma SGD_after_setup (program : Program F) data target weights conf task
    lr bs ep (w : World G) :
  learning_rate conf = Some lr -> batch_size conf = Some bs ->
  epochs conf = Some ep ->
  SGD program data target weights conf task w
  = mbind (setup program data target weights bs)
      (fun b =>
         match b with
         | None => ret empty_results
         | Some b =>
             epochs_loop
               (sgd_batch task (get_default (gradient_clip conf) false) lr
                  (get_default (l1_param conf) zero)
                  (get_default (l2_param conf) zero) b)
               (List.length (X_batch b)) (Z.to_nat ep)
               (initial_locals (get_constants program)) [] []
         end) w.
Proof. unfold SGD. now intros -> -> ->. Qed.

Lemma ADAM_after_setup (program : Program F) data target weights conf task
    lr bs ep clip b1 b2 eps (w : World G) :
  learning_rate conf = Some lr -> batch_size conf = Some bs ->
  epochs conf = Some ep -> gradient_clip conf = Some clip ->
  beta_1 conf = Some b1 -> beta_2 conf = Some b2 -> epsilon conf = Some eps ->
  ADAM program data target weights conf task w
  = mbind (setup program data target weights bs)
      (fun b =>
         match b with
         | None => ret empty_results
         | Some b =>
             epochs_loop
               (adam_batch task clip lr b1 b2 eps
                  (get_default (l1_param conf) zero)
                  (get_default (l2_param conf) zero) b)
               (List.length (X_batch b)) (Z.to_nat ep)
               (initial_locals (get_constants program)) [] []
         end) w.
Proof. unfold ADAM. now intros -> -> -> -> -> -> ->. Qed.

Lemma ADAM2FOLD_after_setup (program : Program F) data targets weights2 conf
    task lr bs ep clip b1 b2 eps (w : World G) :
  learning_rate conf = Some lr -> batch_size conf = Some bs ->
  epochs conf = Some ep -> gradient_clip conf = Some clip ->
  beta_1 conf = Some b1 -> beta_2 conf = Some b2 -> epsilon conf = Some eps ->
  ADAM2FOLD program data targets weights2 conf task w
  = mbind (setup2 program data targets weights2 bs)
      (fun b =>
         match b with
         | None => ret empty_results
         | Some b =>
             epochs_loop (adam2fold_batch task clip lr b1 b2 eps b)
               (List.length (X_batch b)) (Z.to_nat ep)
               (initial_locals (get_constants program)) [] []
         end) w.
Proof. unfold ADAM2FOLD. now intros -> -> -> -> -> -> ->. Qed.




(** *** Data that the setup cannot use *)









(** *** The epochs *)

(** X17.  Lines 109 and 166.  With [epochs <= 0] a call whose setup
    hands batches over returns the constants of the program as they are,
    with an empty loss and an empty log, whatever the task; it does nothing
    after the setup. *)
Theorem no_epoch_returns_constants
    (program : Program F) (data : DataFrame F)
    (target : string) (weights : option string)
    (targets weights2 : list string) (conf : Conf F) (task : string)
    (bs ep : Z) (w : World G) :
  batch_size conf = Some bs -> epochs conf = Some ep -> (ep <= 0)%Z ->
  (sgd_keys conf ->
   forall b w',
     setup program data target weights bs w = (Ok (Some b), w') ->
     SGD program data target weights conf task w
     = (Ok (get_constants program, [], []), w')) /\
  (adam_keys conf ->
   forall b w',
     setup program data target weights bs w = (Ok (Some b), w') ->
     ADAM program data target weights conf task w
     = (Ok (get_constants program, [], []), w')) /\
  (adam_keys conf ->
   forall b w',
     setup2 program data targets weights2 bs w = (Ok (Some b), w') ->
     ADAM2FOLD program data targets weights2 conf task w
     = (Ok (get_constants program, [], []), w')).
Proof.
  intros Hbs Hep Hno.
  assert (E0 : Z.to_nat ep = 0%nat) by lia.
  split; [|split].
  - intros (Hlr & _ & _) b w' Hsetup.
    destruct (some_of _ Hlr) as [lr Elr].
    rewrite (SGD_after_setup _ _ _ _ _ _ _ _ _ _ Elr Hbs Hep).
    rewrite (mbind_ok _ Hsetup), E0. reflexivity.
  - intros ((Hlr & _ & _) & Hclip & Hb1 & Hb2 & Heps) b w' Hsetup.
    destruct (some_of _ Hlr) as [lr Elr],
      (some_of _ Hclip) as [clip Eclip], (some_of _ Hb1) as [b1 Eb1],
      (some_of _ Hb2) as [b2 Eb2], (some_of _ Heps) as [eps Eeps].
    rewrite (ADAM_after_setup _ _ _ _ _ _ _ _ _ _ _ _ _ _
               Elr Hbs Hep Eclip Eb1 Eb2 Eeps).
    rewrite (mbind_ok _ Hsetup), E0. reflexivity.
  - intros ((Hlr & _ & _) & Hclip & Hb1 & Hb2 & Heps) b w' Hsetup.
    destruct (some_of _ Hlr) as [lr Elr],
      (some_of _ Hclip) as [clip Eclip], (some_of _ Hb1) as [b1 Eb1],
      (some_of _ Hb2) as [b2 Eb2], (some_of _ Heps) as [eps Eeps].
    rewrite (ADAM2FOLD_after_setup _ _ _ _ _ _ _ _ _ _ _ _ _ _
               Elr Hbs Hep Eclip Eb1 Eb2 Eeps).
    rewrite (mbind_ok _ Hsetup), E0. reflexivity.
Qed.

Lemma last_cons {A : Type} (x d : A) l : last (x :: l) d = last l x.
Proof.
  revert x d. induction l as [|y l IH]; intros x d; [reflexivity|].
  change (last (x :: y :: l) d) with (last (y :: l) d).
  now rewrite !IH.
Qed.

(** Every epoch adds one entry to each trace; the constants returned are
    the last entry of the log. *)
Lemma epochs_loop_traces (batch : nat -> @Locals F -> M G (@Locals F))
    n_batches epochs_ : forall s loss log (w : World G) c loss' log' w',
  epochs_loop batch n_batches epochs_ s loss log w = (Ok (c, loss', log'), w') ->
  exists new_loss new_log,
    loss' = loss ++ new_loss /\ log' = log ++ new_log /\
    List.length new_loss = epochs_ /\ List.length new_log = epochs_ /\
    c = last new_log (constants s).
Proof.
  induction epochs_ as [|e IH]; intros s loss log w c loss' log' w'; simpl.
  - intros [= <- <- <- <-]. exists [], []. now rewrite !app_nil_r.
  - intros Hrun.
    apply mbind_inv in Hrun. destruct Hrun as (s' & w1 & _ & Hrun).
    apply mbind_inv in Hrun. destruct Hrun as (l & w2 & _ & Hrun).
    apply IH in Hrun.
    destruct Hrun as (new_loss & new_log & -> & -> & Hl1 & Hl2 & Hc).
    exists (l :: new_loss), (constants s' :: new_log).
    rewrite <- !app_assoc. simpl. rewrite Hl1, Hl2.
    repeat split. rewrite Hc.
    destruct new_log as [|x new_log]; [reflexivity|].
    now rewrite (last_cons x (constants s')), last_cons.
Qed.

(** X18.  Lines 163-166.  When [SGD] or [ADAM] returns from its
    loops, the loss and the log have one entry for each epoch, and the
    constants returned are the last entry of the log (the constants of the
    program when there was no epoch). *)
Theorem traces_have_one_entry_per_epoch
    (program : Program F) (data : DataFrame F) (target : string)
    (weights : option string) (conf : Conf F) (task : string) (bs ep : Z)
    (w w1 w' : World G) (b : Batches) (c loss : list F)
    (log : list (list F)) :
  batch_size conf = Some bs -> epochs conf = Some ep ->
  setup program data target weights bs w = (Ok (Some b), w1) ->
  (sgd_keys conf ->
   SGD program data target weights conf task w = (Ok (c, loss, log), w') ->
   List.length loss = Z.to_nat ep /\ List.length log = Z.to_nat ep /\
   c = last log (get_constants program)) /\
  (adam_keys conf ->
   ADAM program data target weights conf task w = (Ok (c, loss, log), w') ->
   List.length loss = Z.to_nat ep /\ List.length log = Z.to_nat ep /\
   c = last log (get_constants program)).
Proof.
  intros Hbs Hep Hsetup. split.
  - intros (Hlr & _ & _). destruct (some_of _ Hlr) as [lr Elr].
    rewrite (SGD_after_setup _ _ _ _ _ _ _ _ _ _ Elr Hbs Hep).
    rewrite (mbind_ok _ Hsetup). intros Hrun.
    apply epochs_loop_traces in Hrun.
    destruct Hrun as (new_loss & new_log & -> & -> & Hl1 & Hl2 & Hc).
    simpl. now repeat split.
  - intros ((Hlr & _ & _) & Hclip & Hb1 & Hb2 & Heps).
    destruct (some_of _ Hlr) as [lr Elr],
      (some_of _ Hclip) as [clip Eclip], (some_of _ Hb1) as [b1 Eb1],
      (some_of _ Hb2) as [b2 Eb2], (some_of _ Heps) as [eps Eeps].
    rewrite (ADAM_after_setup _ _ _ _ _ _ _ _ _ _ _ _ _ _
               Elr Hbs Hep Eclip Eb1 Eb2 Eeps).
    rewrite (mbind_ok _ Hsetup). intros Hrun.
    apply epochs_loop_traces in Hrun.
    destruct Hrun as (new_loss & new_log & -> & -> & Hl1 & Hl2 & Hc).
    simpl. now repeat split.
Qed.


End BatchFacts.

Section DrawFacts.
Import Optimization.
Context {F G : Type} `{Numeric F} `{Random F G}.
Hypothesis no_nan : forall x : F, isnan x = false.























End DrawFacts.

Section BatchWitnesses.
Import Optimization OptimizerExamples.

Lemma example_setup :
  setup linear_program example_data "y" None 1 fresh_world
  = (Ok (Some example_batches),
     snd (setup linear_program example_data "y" None 1 fresh_world)).
Proof. reflexivity. Qed.

(** The theorem on the program [c0 * x] and batches of one row. *)
Lemma batches_partition_data_witness :
  setup linear_program example_data "y" None 1 fresh_world
  = (Ok (Some example_batches),
     snd (setup linear_program example_data "y" None 1 fresh_world)) /\
  (0 < 1 <= Z.of_nat (shape0 example_data))%Z /\
  Z.of_nat (List.length (X_batch example_batches))
  = (Z.of_nat (shape0 example_data) / 1)%Z /\
  List.length (y_batch example_batches)
  = List.length (X_batch example_batches) /\
  List.length (w_batch example_batches)
  = List.length (X_batch example_batches) /\
  List.length (List.concat (X_batch example_batches)) = shape0 example_data /\
  lookup "y" (columns example_data)
  = Ok (List.concat (y_batch example_batches)) /\
  Forall (fun X => (1 <= Z.of_nat (List.length X))%Z)
    (X_batch example_batches).
Proof.
  split; [exact example_setup|].
  exact (batches_partition_data linear_program example_data "y" None 1
           fresh_world example_batches _ example_setup).
Defined.



Lemma idle_conf_keys : adam_keys idle_conf.
Proof. unfold adam_keys, sgd_keys. simpl. repeat split; discriminate. Qed.



(** The theorem on the configuration with no epoch, and a task that has no loss. *)
Lemma no_epoch_returns_constants_witness :
  batch_size idle_conf = Some 1%Z /\ epochs idle_conf = Some 0%Z /\
  (0 <= 0)%Z /\
  SGD linear_program example_data "y" None idle_conf "regression:huber"
    fresh_world
  = (Ok (get_constants linear_program, [], []),
     snd (setup linear_program example_data "y" None 1 fresh_world)) /\
  ADAM linear_program example_data "y" None idle_conf "regression:huber"
    fresh_world
  = (Ok (get_constants linear_program, [], []),
     snd (setup linear_program example_data "y" None 1 fresh_world)).
Proof.
  assert (Hle : (0 <= 0)%Z) by lia.
  destruct (no_epoch_returns_constants linear_program example_data "y" None
              ["y"; "z"]%string [] idle_conf "regression:huber" 1 0
              fresh_world eq_refl eq_refl Hle) as (Hsgd & Hadam & _).
  split; [reflexivity|]. split; [reflexivity|]. split; [exact Hle|]. split.
  - exact (Hsgd (proj1 idle_conf_keys) _ _ example_setup).
  - exact (Hadam idle_conf_keys _ _ example_setup).
Defined.

(** The theorem on the two calls of the examples, which run one epoch. *)
Lemma traces_have_one_entry_per_epoch_witness :
  example_sgd_run
  = (Ok (results_of example_sgd_run), snd example_sgd_run) /\
  example_adam_run
  = (Ok (results_of example_adam_run), snd example_adam_run) /\
  List.length (snd (fst (results_of example_sgd_run))) = 1%nat /\
  List.length (snd (results_of example_sgd_run)) = 1%nat /\
  fst (fst (results_of example_sgd_run))
  = last (snd (results_of example_sgd_run)) (get_constants linear_program) /\
  List.length (snd (fst (results_of example_adam_run))) = 1%nat /\
  List.length (snd (results_of example_adam_run)) = 1%nat /\
  fst (fst (results_of example_adam_run))
  = last (snd (results_of example_adam_run)) (get_constants linear_program).
Proof.
  assert (Hsgd : example_sgd_run
                 = (Ok (results_of example_sgd_run), snd example_sgd_run))
    by reflexivity.
  assert (Hadam : example_adam_run
                  = (Ok (results_of example_adam_run), snd example_adam_run))
    by reflexivity.
  split; [exact Hsgd|]. split; [exact Hadam|].
  destruct (traces_have_one_entry_per_epoch linear_program example_data "y"
              None example_conf "regression:wmse" 1 1 fresh_world _
              (snd example_sgd_run) example_batches
              (fst (fst (results_of example_sgd_run)))
              (snd (fst (results_of example_sgd_run)))
              (snd (results_of example_sgd_run))
              eq_refl eq_refl example_setup) as [Hs _].
  destruct (traces_have_one_entry_per_epoch linear_program example_data "y"
              None example_conf "regression:wmse" 1 1 fresh_world _
              (snd example_adam_run) example_batches
              (fst (fst (results_of example_adam_run)))
              (snd (fst (results_of example_adam_run)))
              (snd (results_of example_adam_run))
              eq_refl eq_refl example_setup) as [_ Ha].
  destruct (Hs (proj1 example_conf_keys) Hsgd) as (Hs1 & Hs2 & Hs3).
  destruct (Ha example_conf_keys Hadam) as (Ha1 & Ha2 & Ha3).
  repeat split; assumption.
Defined.



End BatchWitnesses.


(** ** Values over the real numbers *)

Section RealUpdates.
Import Optimization.
Local Open Scope R_scope.

Lemma Q2R_one : Q2R 1 = 1.
Proof. unfold Q2R. simpl. lra. Qed.

Lemma tiny_pos : 0 < (tiny : R).
Proof.
  unfold tiny. simpl. unfold Q2R. simpl.
  apply Rmult_lt_0_compat; [lra|]. apply Rinv_0_lt_compat.
  apply IZR_lt. reflexivity.
Qed.

Lemma sum_square_nonneg (g : list R) : 0 <= sum (square g).
Proof.
  induction g as [|x g IH]; simpl.
  - rewrite Q2R_zero. lra.
  - fold (sum (square g)). nra.
Qed.

Lemma sum_square_div (g : list R) d :
  sum (square (map (fun x => x / d) g)) = sum (square g) * (/ d) ^ 2.
Proof.
  induction g as [|x g IH]; simpl.
  - rewrite Q2R_zero. ring.
  - fold (sum (square (map (fun x => x / d) g))) (sum (square g)).
    rewrite IH. unfold Rdiv. ring.
Qed.

(** X20.  Lines 155-157, over the reals: with clipping on, the
    gradient that the update uses has a norm of 1 at most. *)
Theorem clipped_gradient_norm_at_most_one (av_grad : list R) :
  np_linalg_norm (clip_gradient true av_grad) <= 1.
Proof.
  unfold clip_gradient. cbn [andb].
  set (norm_grad := np_linalg_norm av_grad).
  assert (Hnorm : 0 <= norm_grad) by apply sqrt_pos.
  unfold gtb, one. cbn [Numeric_R of_Q]. rewrite Q2R_one. unfold Rgtb.
  destruct (Rgt_dec norm_grad 1) as [Hbig|Hsmall]; [|fold norm_grad; lra].
  pose proof tiny_pos as Htiny.
  unfold np_linalg_norm at 1.
  change (map (fun g => div g (add norm_grad tiny)) av_grad)
    with (map (fun g => g / (norm_grad + tiny)) av_grad).
  rewrite sum_square_div.
  change (sqrt (sum (square av_grad) * (/ (norm_grad + tiny)) ^ 2))
    with (R_sqrt.sqrt (sum (square av_grad) * (/ (norm_grad + tiny)) ^ 2)).
  rewrite sqrt_mult; [|apply sum_square_nonneg|apply pow2_ge_0].
  rewrite sqrt_pow2 by (left; apply Rinv_0_lt_compat; lra).
  apply Rmult_le_reg_r with (r := norm_grad + tiny); [lra|].
  rewrite Rmult_assoc, Rinv_l by lra.
  change (R_sqrt.sqrt (sum (square av_grad))) with norm_grad. lra.
Qed.

Lemma adam_step_first (lr b1 b2 eps : R) : forall (g : list R),
  b1 <> 1 -> b2 <> 1 ->
  adam_step lr eps
    (bias_corrected b1 1 (first_moment b1 (repeat zero (List.length g)) g))
    (bias_corrected b2 1 (second_moment b2 (repeat zero (List.length g)) g))
  = scale lr (map (sign_like eps) g).
Proof.
  intros g Hb1 Hb2.
  induction g as [|x g IH]; [reflexivity|].
  unfold adam_step, bias_corrected, first_moment, second_moment, vdiv, vadd,
    scale, square in *. simpl in *.
  rewrite IH. f_equal. rewrite Q2R_one, Q2R_zero. unfold sign_like.
  replace ((b2 * 0 + (1 - b2) * (x * (x * 1))) / (1 - b2 * 1)) with (x ^ 2)
    by (simpl; field; lra).
  replace ((b1 * 0 + (1 - b1) * x) / (1 - b1 * 1)) with x by (field; lra).
  rewrite sqrt_square_abs. unfold Rdiv. ring.
Qed.

(** X21.  Lines 273-275 and 331-340, over the reals.  On the first
    batch of a call, with the moments at 0 and [t = 1], the bias correction
    undoes the decay: whatever [beta_1] and [beta_2] are, short of 1, the
    update of [ADAM] is the one of [SGD] on the clipped gradient with every
    component [g] divided by [|g| + epsilon]. *)
Theorem adam_first_step_ignores_decay_rates
    (clip : bool) (lr b1 b2 eps l1 l2 : R) (av_grad constants_ : list R) :
  b1 <> 1 -> b2 <> 1 ->
  List.length av_grad = List.length constants_ ->
  let s := initial_locals constants_ in
  adam_batch_update clip lr b1 b2 eps l1 l2 (m s) (v s) (t s) av_grad
    constants_
  = sgd_update lr l1 l2
      (map (sign_like eps) (clip_gradient clip av_grad)) constants_.
Proof.
  intros Hb1 Hb2 Hlen s.
  unfold adam_batch_update, adam_moments, adam_update, sgd_update.
  cbn [m_hat v_hat s initial_locals m v t].
  rewrite <- Hlen, <- (clip_gradient_length clip av_grad).
  now rewrite adam_step_first.
Qed.

End RealUpdates.

Section MetricValues.
Import Regression.
Local Open Scope R_scope.

Lemma of_nat_pos (n : nat) : (0 < n)%nat -> 0 < (of_nat n : R).
Proof.
  intros Hn. unfold of_nat. simpl. unfold Q2R. simpl.
  rewrite Rinv_1, Rmult_1_r. apply IZR_lt. lia.
Qed.

Lemma sum_nonneg (l : list R) : Forall (fun x => 0 <= x) l -> 0 <= sum l.
Proof.
  induction 1 as [|x l Hx _ IH]; simpl.
  - rewrite Q2R_zero. lra.
  - fold (sum l). lra.
Qed.

Lemma sum_pos (l : list R) x :
  Forall (fun x => 0 <= x) l -> In x l -> 0 < x -> 0 < sum l.
Proof.
  induction 1 as [|y l Hy Hl IH]; intros Hin Hx; [destruct Hin|].
  simpl. fold (sum l). pose proof (sum_nonneg l Hl).
  destruct Hin as [->|Hin]; [lra|]. specialize (IH Hin Hx). lra.
Qed.

Lemma np_mean_nonneg (l : list R) :
  Forall (fun x => 0 <= x) l -> 0 <= np_mean l.
Proof.
  intros Hl. unfold np_mean. simpl.
  destruct l as [|x l]; [simpl; rewrite Q2R_zero; unfold Rdiv; lra|].
  apply Rmult_le_pos; [now apply sum_nonneg|].
  left. apply Rinv_0_lt_compat. apply of_nat_pos. simpl. lia.
Qed.

Lemma np_mean_zeros (l : list R) :
  Forall (fun x => x = 0) l -> np_mean l = 0.
Proof.
  intros Hl. unfold np_mean. rewrite sum_zeros by exact Hl.
  simpl. unfold Rdiv. ring.
Qed.

Lemma np_nanmean_mean (l : list R) : np_nanmean l = np_mean l.
Proof.
  unfold np_nanmean. f_equal. apply filter_all_true.
  apply Forall_forall. reflexivity.
Qed.

Lemma np_mean_pos (l : list R) x :
  Forall (fun x => 0 <= x) l -> In x l -> 0 < x -> 0 < np_mean l.
Proof.
  intros Hl Hin Hx. unfold np_mean. simpl.
  apply Rmult_lt_0_compat; [now apply (sum_pos l x)|].
  apply Rinv_0_lt_compat, of_nat_pos. destruct l; [destruct Hin|simpl; lia].
Qed.

Lemma excess_nonneg (excess : list R) :
  Forall (fun x => 0 <= x)
    (map (fun x => if geb x zero then x else zero) excess).
Proof.
  apply Forall_map, Forall_forall. intros x _. simpl. unfold Rgeb.
  rewrite Q2R_zero. destruct (Rge_dec x 0); lra.
Qed.

Lemma mean_excess_nonneg (excess : list R) : 0 <= mean_excess excess.
Proof. apply np_mean_nonneg, excess_nonneg. Qed.

Lemma mean_excess_pos (excess : list R) x :
  In x excess -> 0 < x -> 0 < mean_excess excess.
Proof.
  intros Hin Hx. unfold mean_excess.
  apply (np_mean_pos _ x); [apply excess_nonneg| |exact Hx].
  apply in_map_iff. exists x. split; [|exact Hin].
  simpl. unfold Rgeb. rewrite Q2R_zero. destruct (Rge_dec x 0); lra.
Qed.

(** X26.  [ValueRange] over the reals: as soon as one prediction is
    below the lower bound or above the upper bound the penalty is
    positive. *)
Theorem value_range_positive_outside_bounds
    (self : Fitness R) (values : list R) (x : R) :
  In x values -> x < lower_bound self \/ upper_bound self < x ->
  exists penalty,
    ValueRange_evaluate self (Numbers values) = Ok (Number penalty) /\
    0 < penalty.
Proof.
  intros Hin Hout. unfold ValueRange_evaluate, as_array, bind.
  eexists. split; [reflexivity|]. simpl.
  pose proof (mean_excess_nonneg (map (fun x => x - upper_bound self) values)).
  pose proof (mean_excess_nonneg (map (fun x => lower_bound self - x) values)).
  destruct Hout as [Hlow|Hhigh].
  - assert (0 < mean_excess (map (fun x => lower_bound self - x) values)).
    { apply (mean_excess_pos _ (lower_bound self - x)); [|lra].
      apply in_map_iff. now exists x. }
    simpl in *. lra.
  - assert (0 < mean_excess (map (fun x => x - upper_bound self) values)).
    { apply (mean_excess_pos _ (x - upper_bound self)); [|lra].
      apply in_map_iff. now exists x. }
    simpl in *. lra.
Qed.







Lemma Forall_zip_with {A B C : Type} (P : A -> Prop) (Q : B -> Prop)
    (S : C -> Prop) (f : A -> B -> C) l l' :
  (forall a b, P a -> Q b -> S (f a b)) ->
  Forall P l -> Forall Q l' -> Forall S (zip_with f l l').
Proof.
  intros Hf Hl. revert l'. induction Hl as [|a l Ha _ IH]; intros l' Hl';
    [constructor|].
  destruct Hl' as [|b l' Hb Hl']; simpl; constructor; auto.
Qed.

Lemma Forall_any {A : Type} (l : list A) : Forall (fun _ => True) l.
Proof. apply Forall_forall. auto. Qed.

Lemma vsub_self (y : list R) : Forall (fun x => x = 0) (vsub y y).
Proof.
  induction y as [|a y IH]; simpl; constructor; [simpl; ring|exact IH].
Qed.

Lemma lookup_ok_has_column {F : Type} name (cols : list (string * list F)) v :
  lookup name cols = Ok v -> has_column name cols = true.
Proof.
  induction cols as [|[k c] cols IH]; simpl; [discriminate|].
  destruct (String.eqb name k); [reflexivity|exact IH].
Qed.

(** X22.  Lines 32-35 and 67-70, over the reals.  On a numeric
    prediction of the length of the target, with no weights or a column of
    weights that are not negative, the weighted mean squared error and the
    weighted mean absolute error are numbers that are not negative, and
    both are 0 when the prediction is the target.  (The frame is not empty:
    the mean of no number is NaN.) *)
Theorem regression_errors_nonnegative
    crw (self : Fitness R) (data : DataFrame R) (y p : list R) :
  lookup (target self) (columns data) = Ok y ->
  usable_weights self data y ->
  List.length p = List.length y -> y <> [] ->
  exists mse mae,
    fst (WeightedMeanSquaredError_evaluate crw self (Numbers p) data)
    = Ok (Number mse) /\
    fst (WeightedMeanAbsoluteError_evaluate crw self (Numbers p) data)
    = Ok (Number mae) /\
    0 <= mse /\ 0 <= mae /\
    (p = y -> mse = 0 /\ mae = 0).
Proof.
  intros Hy Hw Hlen Hne.
  assert (Hcache : cache_weights crw self data = data).
  { unfold cache_weights. destruct Hw as [->|(name & wt & -> & Hl & _)];
      [reflexivity|].
    now rewrite (lookup_ok_has_column _ _ _ Hl). }
  unfold WeightedMeanSquaredError_evaluate, WeightedMeanAbsoluteError_evaluate,
    weighted_squared_error, weighted_absolute_error.
  rewrite Hcache, Hy. cbn [bind as_array fst].
  assert (Hsq : Forall (fun x => 0 <= x) (square (vsub p y))).
  { apply Forall_map, Forall_forall. intros x _. simpl. nra. }
  assert (Habs : Forall (fun x => 0 <= x) (map abs (vsub p y))).
  { apply Forall_map, Forall_forall. intros x _. apply Rabs_pos. }
  assert (Hsq0 : p = y -> Forall (fun x => x = 0) (square (vsub p y))).
  { intros ->. apply Forall_map. eapply Forall_impl; [|apply vsub_self].
    intros x ->. simpl. ring. }
  assert (Habs0 : p = y -> Forall (fun x => x = 0) (map abs (vsub p y))).
  { intros ->. apply Forall_map. eapply Forall_impl; [|apply vsub_self].
    intros x ->. apply Rabs_R0. }
  destruct (truthy_string (weights self)) eqn:Et.
  - destruct Hw as [Hnone|(name & wt & Hname & Hl & _ & Hpos)];
      [rewrite Hnone in Et; discriminate|].
    rewrite Hname. simpl get_default. rewrite Hl.
    cbn [bind as_array infinite_on_failure].
    eexists. eexists. split; [reflexivity|]. split; [reflexivity|].
    rewrite !np_nanmean_mean. split; [|split].
    + apply np_mean_nonneg.
      apply (Forall_zip_with (fun x => 0 <= x) (fun x => 0 <= x));
        [intros a b Ha Hb; simpl; nra|exact Hsq|exact Hpos].
    + apply np_mean_nonneg.
      apply (Forall_zip_with (fun x => 0 <= x) (fun x => 0 <= x));
        [intros a b Ha Hb; simpl; nra|exact Habs|exact Hpos].
    + intros Hp. split; apply np_mean_zeros.
      * apply (Forall_zip_with (fun x => x = 0) (fun _ => True));
          [intros a b -> _; simpl; ring|now apply Hsq0|apply Forall_any].
      * apply (Forall_zip_with (fun x => x = 0) (fun _ => True));
          [intros a b -> _; simpl; ring|now apply Habs0|apply Forall_any].
  - cbn [bind as_array infinite_on_failure].
    eexists. eexists. split; [reflexivity|]. split; [reflexivity|].
    rewrite !np_nanmean_mean. split; [|split].
    + now apply np_mean_nonneg.
    + now apply np_mean_nonneg.
    + intros Hp. split; apply np_mean_zeros; auto.
Qed.

End MetricValues.

Section MetricFrames.
Import Regression.
Context {F : Type} `{Numeric F}.
Variable crw : DataFrame F -> string -> list F.

Lemma lookup_app_ok {V : Type} name (cols cols' : list (string * V)) v :
  lookup name cols = Ok v -> lookup name (cols ++ cols') = Ok v.
Proof.
  induction cols as [|[k c] cols IH]; simpl; [discriminate|].
  destruct (String.eqb name k); [auto|exact IH].
Qed.

Lemma cache_weights_keeps_columns (self : Fitness F) data name v :
  lookup name (columns data) = Ok v ->
  lookup name (columns (cache_weights crw self data)) = Ok v.
Proof.
  intros Hl. unfold cache_weights. destruct (weights self) as [wname|]; [|exact Hl].
  destruct (has_column wname (columns data)); [exact Hl|]. simpl.
  now apply lookup_app_ok.
Qed.

Lemma cache_weights_twice (self : Fitness F) data :
  cache_weights crw self (cache_weights crw self data)
  = cache_weights crw self data.
Proof.
  destruct (weights self) as [name|] eqn:Ew.
  - pose proof (cache_weights_has_weights crw self data name Ew) as Hc.
    unfold cache_weights at 1. now rewrite Ew, Hc.
  - unfold cache_weights. now rewrite Ew.
Qed.

(** X24.  Lines 27-29.  A metric with a name for its weights writes
    to the frame it is given: after a call the frame has the column of
    weights, and every column it had is as it was; a further call of any of
    the three metrics leaves the frame alone. *)
Theorem evaluate_caches_weights_once
    (self : Fitness F) (pred pred' : prediction F) (data : DataFrame F)
    (wname : string) :
  weights self = Some wname ->
  let data1 := snd (WeightedMeanSquaredError_evaluate crw self pred data) in
  has_column wname (columns data1) = true /\
  (forall name v,
     lookup name (columns data) = Ok v -> lookup name (columns data1) = Ok v) /\
  snd (WeightedMeanSquaredError_evaluate crw self pred' data1) = data1 /\
  snd (WeightedMeanAbsoluteError_evaluate crw self pred' data1) = data1 /\
  snd (WeightedRelativeRootMeanSquaredError_evaluate crw self pred' data1)
  = data1.
Proof.
  intros Hw data1. unfold data1. simpl.
  split; [now apply cache_weights_has_weights|].
  split; [intros name v; apply cache_weights_keeps_columns|].
  now rewrite !cache_weights_twice.
Qed.

(** X23.  The handlers of the three regression metrics take
    [TypeError] and [ValueError] only: on a frame that has the weights but
    not the target column, the read of [data[self.target]] raises
    [KeyError], which leaves the metric, whatever the prediction; the frame
    is as it was. *)
Theorem metrics_do_not_catch_key_error
    (self : Fitness F) (pred : prediction F) (data : DataFrame F)
    (wname : string) :
  weights self = Some wname ->
  has_column wname (columns data) = true ->
  lookup (target self) (columns data) = Raise KeyError ->
  WeightedMeanSquaredError_evaluate crw self pred data
  = (Raise KeyError, data) /\
  WeightedMeanAbsoluteError_evaluate crw self pred data
  = (Raise KeyError, data) /\
  WeightedRelativeRootMeanSquaredError_evaluate crw self pred data
  = (Raise KeyError, data).
Proof.
  intros Hw Hcol Hmiss.
  assert (Hcache : cache_weights crw self data = data)
    by (unfold cache_weights; now rewrite Hw, Hcol).
  unfold WeightedMeanSquaredError_evaluate, WeightedMeanAbsoluteError_evaluate,
    WeightedRelativeRootMeanSquaredError_evaluate, weighted_squared_error,
    weighted_absolute_error, weighted_relative_error.
  rewrite Hcache, Hmiss.
  destruct (truthy_string (weights self)); now repeat split.
Qed.

End MetricFrames.

Section ValueWitnesses.
Import Optimization Regression.
Local Open Scope R_scope.

(** The theorem on the first batch of a program with one constant. *)
Lemma adam_first_step_ignores_decay_rates_witness :
  9 / 10 <> 1 /\ 999 / 1000 <> 1 /\
  List.length [2] = List.length [0] /\
  adam_batch_update false 1 (9 / 10) (999 / 1000) (1 / 100000000) 0 0
    (m (initial_locals [0])) (v (initial_locals [0])) (t (initial_locals [0]))
    [2] [0]
  = sgd_update 1 0 0
      (map (sign_like (1 / 100000000)) (clip_gradient false [2])) [0].
Proof.
  assert (H1 : 9 / 10 <> 1) by lra.
  assert (H2 : 999 / 1000 <> 1) by lra.
  split; [exact H1|]. split; [exact H2|]. split; [reflexivity|].
  exact (adam_first_step_ignores_decay_rates false 1 (9 / 10) (999 / 1000)
           (1 / 100000000) 0 0 [2] [0] H1 H2 eq_refl).
Defined.

(** The theorem on the range from 0 to 10 and the predictions 5 and 11. *)
Lemma value_range_positive_outside_bounds_witness :
  In 11 [5; 11] /\
  (11 < lower_bound example_fitness \/ upper_bound example_fitness < 11) /\
  exists penalty,
    ValueRange_evaluate example_fitness (Numbers [5; 11])
    = Ok (Number penalty) /\
    0 < penalty.
Proof.
  assert (Hin : In 11 [5; 11]) by (simpl; auto).
  assert (Hout : 11 < lower_bound example_fitness \/
                 upper_bound example_fitness < 11) by (right; simpl; lra).
  split; [exact Hin|]. split; [exact Hout|].
  exact (value_range_positive_outside_bounds example_fitness [5; 11] 11
           Hin Hout).
Defined.


Lemma example_usable_weights :
  usable_weights example_fitness weighted_data [2; 4].
Proof.
  right. exists "w"%string, [1; 1].
  split; [reflexivity|]. split; [reflexivity|]. split; [reflexivity|].
  repeat constructor; lra.
Qed.

(** The theorem on the frame with the weights and the prediction 1, 5. *)
Lemma regression_errors_nonnegative_witness :
  lookup (target example_fitness) (columns weighted_data) = Ok [2; 4] /\
  usable_weights example_fitness weighted_data [2; 4] /\
  exists mse mae,
    fst (WeightedMeanSquaredError_evaluate unit_weights example_fitness
           (Numbers [1; 5]) weighted_data) = Ok (Number mse) /\
    fst (WeightedMeanAbsoluteError_evaluate unit_weights example_fitness
           (Numbers [1; 5]) weighted_data) = Ok (Number mae) /\
    0 <= mse /\ 0 <= mae /\
    ([1; 5] = [2; 4] -> mse = 0 /\ mae = 0).
Proof.
  split; [reflexivity|]. split; [exact example_usable_weights|].
  exact (regression_errors_nonnegative unit_weights example_fitness
           weighted_data [2; 4] [1; 5] eq_refl example_usable_weights eq_refl
           ltac:(discriminate)).
Defined.

(** The theorem on the frame of the examples, which has no column of weights. *)
Lemma evaluate_caches_weights_once_witness :
  weights example_fitness = Some "w"%string /\
  let data1 :=
    snd (WeightedMeanSquaredError_evaluate unit_weights example_fitness
           (Numbers [1; 5]) OptimizerExamples.example_data) in
  has_column "w" (columns data1) = true /\
  (forall name v,
     lookup name (columns OptimizerExamples.example_data) = Ok v ->
     lookup name (columns data1) = Ok v) /\
  snd (WeightedMeanSquaredError_evaluate unit_weights example_fitness
         (Numbers [1; 5]) data1) = data1 /\
  snd (WeightedMeanAbsoluteError_evaluate unit_weights example_fitness
         (Numbers [1; 5]) data1) = data1 /\
  snd (WeightedRelativeRootMeanSquaredError_evaluate unit_weights
         example_fitness (Numbers [1; 5]) data1) = data1.
Proof.
  split; [reflexivity|].
  exact (evaluate_caches_weights_once unit_weights example_fitness
           (Numbers [1; 5]) (Numbers [1; 5]) OptimizerExamples.example_data
           "w" eq_refl).
Defined.

(** The theorem on the frame that has the weights only. *)
Lemma metrics_do_not_catch_key_error_witness :
  weights example_fitness = Some "w"%string /\
  has_column "w" (columns weights_only_data) = true /\
  lookup (target example_fitness) (columns weights_only_data)
  = Raise KeyError /\
  WeightedMeanSquaredError_evaluate unit_weights example_fitness
    (Numbers [1; 5]) weights_only_data = (Raise KeyError, weights_only_data) /\
  WeightedMeanAbsoluteError_evaluate unit_weights example_fitness
    (Numbers [1; 5]) weights_only_data = (Raise KeyError, weights_only_data) /\
  WeightedRelativeRootMeanSquaredError_evaluate unit_weights example_fitness
    (Numbers [1; 5]) weights_only_data = (Raise KeyError, weights_only_data).
Proof.
  split; [reflexivity|]. split; [reflexivity|]. split; [reflexivity|].
  exact (metrics_do_not_catch_key_error unit_weights example_fitness
           (Numbers [1; 5]) weights_only_data "w" eq_refl eq_refl eq_refl).
Defined.

End ValueWitnesses.

(** ** The record of the first convergence *)

Section ConvergenceFacts.
Variable fitness_eq : list (string * Q) -> list (string * Q) -> bool.
Variable env : Collaborators.
Variable generations : Z.
Variable stop_at_convergence : bool.
Variable verbose : Z.
Variable interrupt : option (Z * Phase).
Variable g : Z.
Hypothesis g_set : g <> 0%Z.

Lemma run_recorded body self :
  Forall (fun entry => forall s, converged_generation s = Some g ->
                    converged_generation (final_state (snd entry s)) = Some g) body ->
  converged_generation self = Some g ->
  converged_generation (final_state (run_statements interrupt body self))
  = Some g.
Proof.
  intros H. revert self.
  induction H as [|[ph st] body Hst _ IH]; intros self Hs; simpl; [exact Hs|].
  destruct (interrupted interrupt ph self); [exact Hs|].
  specialize (Hst self Hs). simpl in Hst.
  destruct (st self) as [s'|s'|e s']; simpl in *; try exact Hst.
  now apply IH.
Qed.

Lemma body_recorded :
  Forall (fun entry => forall s, converged_generation s = Some g ->
                    converged_generation (final_state (snd entry s)) = Some g)
    (generation_body fitness_eq env generations stop_at_convergence verbose
       interrupt).
Proof.
  repeat constructor; intros self Hs; simpl snd.
  - exact Hs.
  - exact Hs.
  - exact Hs.
  - unfold refill_population. now destruct (_ <? _)%Z.
  - exact Hs.
  - exact Hs.
  - exact Hs.
  - exact Hs.
  - exact Hs.
  - unfold record_best. now destruct (population self).
  - unfold report. destruct (verbose >? 1)%Z; [|exact Hs].
    destruct (hypervolume env _ self) as [r self'] eqn:E.
    apply hypervolume_effect in E. destruct r as [hv|e].
    + subst self'. exact Hs.
    + destruct E as [-> _]. exact Hs.
  - unfold convergence. destruct (best_program self) as [best|]; [|exact Hs].
    destruct (converged best); [|exact Hs].
    assert (Ht : truthy_int (converged_generation self) = true).
    { rewrite Hs. simpl. now apply negb_true_iff, Z.eqb_neq. }
    rewrite Ht. now destruct stop_at_convergence.
  - exact Hs.
  - unfold budget. now destruct (_ && _).
  - exact Hs.
Qed.

Lemma iteration_recorded self :
  converged_generation self = Some g ->
  converged_generation
    (final_state
       (iteration fitness_eq env generations stop_at_convergence verbose
          interrupt self)) = Some g.
Proof.
  intros Hs. unfold iteration, begin_generation.
  destruct (generation self) as [g0|]; [|exact Hs].
  destruct ((generations >? 0)%Z && (g0 >=? generations)%Z); [exact Hs|].
  apply run_recorded; [apply body_recorded|exact Hs].
Qed.

Lemma generations_loop_recorded fuel : forall self r final,
  converged_generation self = Some g ->
  generations_loop fitness_eq env generations stop_at_convergence verbose
    interrupt fuel self = Some (r, final) ->
  converged_generation final = Some g.
Proof.
  induction fuel as [|fuel IH]; intros self r final Hs; simpl; [discriminate|].
  pose proof (iteration_recorded self Hs) as Hit.
  destruct (iteration fitness_eq env generations stop_at_convergence verbose
              interrupt self) as [self'|self'|e self']; simpl in Hit.
  - now apply IH.
  - now intros [= <- <-].
  - now intros [= <- <-].
Qed.

End ConvergenceFacts.

(** X27.  Lines 321-324.  The generation of the first convergence stays on
    record: once [converged_generation] holds a generation, no later turn
    of the loop, interrupted or not, and no later call of [fit] writes it
    again. *)
Theorem converged_generation_is_kept
    fitness_eq env generations stop_at_convergence verbose interrupt
    (fuel : nat) (self final : SymbolicRegressor) (g : Z) (r : result unit) :
  converged_generation self = Some g -> g <> 0%Z ->
  fit fitness_eq env generations stop_at_convergence verbose interrupt fuel
    self = Some (r, final) ->
  converged_generation final = Some g.
Proof.
  intros Hs Hg. unfold fit, _fit.
  set (self0 := initialize_population env _).
  assert (H0 : converged_generation self0 = Some g).
  { unfold self0, initialize_population.
    destruct (truthy_int (generation self)); now destruct (population _). }
  clearbody self0.
  destruct (generations_loop _ _ _ _ _ _ _ self0) as [[r' self']|] eqn:Eloop;
    [|discriminate].
  apply (generations_loop_recorded _ _ _ _ _ _ g Hg) in Eloop; [|exact H0].
  destruct r' as [[]|e]; [now intros [= <- <-]|].
  destruct e; now intros [= <- <-].
Qed.

(** The theorem on a regressor that converged in generation 1 and is
    trained up to generation 3. *)
Lemma converged_generation_is_kept_witness :
  converged_generation example_converged = Some 1%Z /\
  fit identical_fitness example_env 3 false 0 None 3 example_converged
  = Some (Ok tt, example_converged_final) /\
  generation example_converged_final = Some 3%Z /\
  best_program example_converged_final = Some prog_converged /\
  converged_generation example_converged_final = Some 1%Z.
Proof.
  assert (Hs : converged_generation example_converged = Some 1%Z)
    by reflexivity.
  assert (Hrun : fit identical_fitness example_env 3 false 0 None 3
                   example_converged = Some (Ok tt, example_converged_final))
    by (vm_compute; reflexivity).
  split; [exact Hs|]. split; [exact Hrun|].
  split; [vm_compute; reflexivity|]. split; [vm_compute; reflexivity|].
  apply (converged_generation_is_kept identical_fitness example_env 3 false 0
           None 3 example_converged example_converged_final 1 (Ok tt) Hs);
    [lia|exact Hrun].
Defined.

(** ** An exception of [lambdify] *)

Section CompileFacts.
Import Optimization.
Context {F G : Type} `{Numeric F} `{Random F G}.





End CompileFacts.

Section CompileWitness.
Import Optimization OptimizerExamples.


End CompileWitness.
